(** * Wake-cycle scheduler of the automaton: a shallow embedding

    This development embeds the survival-economics engine
    ([src/survival/economics.ts]), the agent loop ([src/agent/loop.ts],
    [runAgentLoop]), the Anthropic translation of the inference client
    ([transformMessagesForAnthropic], [parseToolArguments] and the response
    normalisation of [chatViaAnthropic]) and the dispatch of the inference
    client ([createInferenceClient], [resolveInferenceBackend] and the
    requests of the three [chatVia...] functions), and proves properties of
    them.

    Conventions of the embedding.
    - A JavaScript [number] is an exact rational ([Q]); the one non-finite
      value the economics engine creates itself, [Infinity] in
      [calculateRunway], is a constructor of [Hours].  Every division of the
      source is guarded by a test that its divisor is positive.
    - The key/value store of the database is a [gmap string string]; the
      per-wake sets of the loop are [gset string].
    - External collaborators (tool execution, the inference backend, the
      financial state, the clock, the id generator) are fields of the class
      [Collaborators]; they read and write an abstract environment that the
      loop threads through every call.
    - JavaScript builtins whose result is a string rendering or a parse of a
      string are fields of the class [Builtins]. *)

From Stdlib Require Import ZArith QArith Qminmax Qround Lqa String Ascii List Lia.
From stdpp Require Import gmap strings list pretty.

Set Warnings "-register-all".

Local Open Scope string_scope.
Local Open Scope list_scope.

(** ** Numbers *)

Module Num.

(** [a > b], [a <= b], [a < b] and [a >= b] on JavaScript numbers. *)
Definition gt (a b : Q) : bool := if Qlt_le_dec b a then true else false.
Definition le (a b : Q) : bool := negb (gt a b).
Definition lt (a b : Q) : bool := gt b a.
Definition ge (a b : Q) : bool := le b a.

(** [Math.max(a, b)]. *)
Definition max (a b : Q) : Q := Qmax a b.

(** [Math.ceil(a)]. *)
Definition ceil (a : Q) : Q := inject_Z (Qceiling a).

(** A count (a list length, a turn count) as a number. *)
Definition of_nat (n : nat) : Q := inject_Z (Z.of_nat n).

End Num.

(** The result of [calculateRunway]: a finite number of hours or
    [Infinity]. *)
Inductive Hours : Type :=
| Finite (h : Q)
| Infinity.

(** [r > b] for a runway [r] and a finite boundary [b]. *)
Definition hours_gt (r : Hours) (b : Q) : bool :=
  match r with
  | Finite h => Num.gt h b
  | Infinity => true
  end.

(** ** Data model *)

(** [SurvivalTier], ordered [normal > low_compute > critical > dead]. *)
Inductive SurvivalTier : Type := normal | low_compute | critical | dead.

(** Position of a tier in the order: a larger rank is a safer tier. *)
Definition tier_rank (t : SurvivalTier) : nat :=
  match t with
  | normal => 3
  | low_compute => 2
  | critical => 1
  | dead => 0
  end.

(** The shape of the [RUNWAY_TIERS] table: one boundary, in hours, for each
    tier but [dead]. *)
Record RunwayTiers : Type := {
  rt_normal : Q;
  rt_low_compute : Q;
  rt_critical : Q;
}.

(** Modelled from the spec: the constant [RUNWAY_TIERS] of [../types.js],
    which is not among the sources; the spec gives the boundaries as
    [normal > 72h], [low_compute > 24h], [critical > 4h]. *)
Definition RUNWAY_TIERS : RunwayTiers :=
  {| rt_normal := 72; rt_low_compute := 24; rt_critical := 4 |}.

(** [AgentState]. *)
Inductive AgentState : Type :=
| as_waking | as_running | as_low_compute | as_critical | as_sleeping | as_dead.

#[global] Instance AgentState_eq_dec : EqDecision AgentState.
Proof. solve_decision. Defined.

(** A JSON value, the [unknown] of [Record<string, unknown>]. *)
Inductive json : Type :=
| JNull
| JBool (b : bool)
| JNum (n : Z)
| JStr (s : string)
| JArr (items : list json)
| JObj (fields : list (string * json)).

(** [ToolCallResult]. *)
Record ToolCallResult : Type := {
  tcr_id : string;
  tcr_name : string;
  tcr_arguments : json;
  tcr_result : string;
  tcr_error : option string;
  tcr_durationMs : Q;
}.

Record TokenUsage : Type := {
  promptTokens : Q;
  completionTokens : Q;
  totalTokens : Q;
}.

(** [AgentTurn]. *)
Record AgentTurn : Type := {
  turn_id : string;
  turn_timestamp : string;
  turn_state : AgentState;
  turn_input : option string;
  turn_inputSource : option string;
  turn_thinking : string;
  turn_toolCalls : list ToolCallResult;
  turn_tokenUsage : TokenUsage;
  turn_costCents : Q;
}.

(** [EconomicsSnapshot]. *)
Record EconomicsSnapshot : Type := {
  timestamp : string;
  budgetCents : Q;
  totalSpentCents : Q;
  totalEarnedCents : Q;
  balanceCents : Q;
  burnRatePerHour : Q;
  earnRatePerHour : Q;
  earnBurnRatio : Q;
  runwayHours : Q;
  costPerTurn : Q;
  turnsTotal : nat;
  uptimeHours : Q;
  childTributeTotal : Q;
}.

(** [SpawnGate] (the [reason] text is left out). *)
Record SpawnGate : Type := {
  canSpawn : bool;
  sg_balanceCents : Q;
  ownMonthlyCost : Q;
  childMonthlyCost : Q;
  spawnThreshold : Q;
  deficit : Q;
}.

Record InboxMessage : Type := {
  msg_id : string;
  msg_from : string;
  msg_content : string;
}.

(** The persistent store behind [AutomatonDatabase], as far as the loop and
    the economics engine use it. *)
Record AutomatonDatabase : Type := {
  db_kv : gmap string string;
  db_agentState : AgentState;
  db_turns : list AgentTurn;
  db_toolCalls : list (string * ToolCallResult);
  db_snapshots : list EconomicsSnapshot;
  db_inbox : list InboxMessage;
  db_processed : gset string;
}.

(** The fields of [AutomatonConfig] the core reads. *)
Record AutomatonConfig : Type := {
  cfg_budgetCents : Q;
  cfg_name : string;
}.

Module Db.

Definition getKV (db : AutomatonDatabase) (key : string) : option string :=
  db_kv db !! key.

Definition setKV (db : AutomatonDatabase) (key value : string) : AutomatonDatabase :=
  {| db_kv := <[key := value]> (db_kv db);
     db_agentState := db_agentState db;
     db_turns := db_turns db;
     db_toolCalls := db_toolCalls db;
     db_snapshots := db_snapshots db;
     db_inbox := db_inbox db;
     db_processed := db_processed db |}.

Definition getAgentState (db : AutomatonDatabase) : AgentState := db_agentState db.

Definition setAgentState (db : AutomatonDatabase) (s : AgentState) : AutomatonDatabase :=
  {| db_kv := db_kv db;
     db_agentState := s;
     db_turns := db_turns db;
     db_toolCalls := db_toolCalls db;
     db_snapshots := db_snapshots db;
     db_inbox := db_inbox db;
     db_processed := db_processed db |}.

Definition getTurnCount (db : AutomatonDatabase) : nat := length (db_turns db).

Definition insertTurn (db : AutomatonDatabase) (t : AgentTurn) : AutomatonDatabase :=
  {| db_kv := db_kv db;
     db_agentState := db_agentState db;
     db_turns := db_turns db ++ [t];
     db_toolCalls := db_toolCalls db;
     db_snapshots := db_snapshots db;
     db_inbox := db_inbox db;
     db_processed := db_processed db |}.

Definition insertToolCall (db : AutomatonDatabase) (turnId : string)
    (tc : ToolCallResult) : AutomatonDatabase :=
  {| db_kv := db_kv db;
     db_agentState := db_agentState db;
     db_turns := db_turns db;
     db_toolCalls := db_toolCalls db ++ [(turnId, tc)];
     db_snapshots := db_snapshots db;
     db_inbox := db_inbox db;
     db_processed := db_processed db |}.

Definition insertEconomicsSnapshot (db : AutomatonDatabase)
    (s : EconomicsSnapshot) : AutomatonDatabase :=
  {| db_kv := db_kv db;
     db_agentState := db_agentState db;
     db_turns := db_turns db;
     db_toolCalls := db_toolCalls db;
     db_snapshots := db_snapshots db ++ [s];
     db_inbox := db_inbox db;
     db_processed := db_processed db |}.

(** [getUnprocessedInboxMessages(limit)]. *)
Definition getUnprocessedInboxMessages (db : AutomatonDatabase) (limit : nat)
    : list InboxMessage :=
  take limit
    (List.filter (fun m => bool_decide (msg_id m ∉ db_processed db)) (db_inbox db)).

Definition markInboxMessageProcessed (db : AutomatonDatabase) (id : string)
    : AutomatonDatabase :=
  {| db_kv := db_kv db;
     db_agentState := db_agentState db;
     db_turns := db_turns db;
     db_toolCalls := db_toolCalls db;
     db_snapshots := db_snapshots db;
     db_inbox := db_inbox db;
     db_processed := {[ id ]} ∪ db_processed db |}.

End Db.

(** JavaScript builtins that render a value as a string or read one back. *)
Class Builtins : Type := {
(** [Number(s)] on a stored counter. *)
Number : string -> Q;
(** [String(n)] on a number. *)
String_of_number : Q -> string;
(** [new Date(s).getTime()], in milliseconds; [None] for an invalid date. *)
Date_getTime : string -> option Q;
(** [new Date(ms).toISOString()]. *)
toISOString : Q -> string;
(** [JSON.stringify] of an economics snapshot. *)
JSON_stringify_snapshot : EconomicsSnapshot -> string;
(** [JSON.parse(s)]; [None] when it throws. *)
JSON_parse : string -> option json;
(** [JSON.stringify(v)]. *)
JSON_stringify : json -> string;
}.

(** [x || d] on an optional string: [undefined] and the empty string are
    falsy. *)
Definition or_default (x : option string) (d : string) : string :=
  match x with
  | Some s => if String.eqb s "" then d else s
  | None => d
  end.

(** ** The survival economics engine *)

Module Economics.
Section Engine.

Context `{Builtins}.

Definition HOURS_PER_MONTH : Q := 720.

(** [getUptimeHours]; [now] is the reading of [Date.now()]. *)
Definition getUptimeHours (db : AutomatonDatabase) (now : Q) : Q :=
  match Db.getKV db "start_time" with
  | None => 0
  | Some startTime =>
      if String.eqb startTime "" then 0
      else
        match Date_getTime startTime with
        | Some t => Num.max ((now - t) / (1000 * 60 * 60)) 0.001
        | None => 0.001
        end
  end%Q.

Definition getTotalSpent (db : AutomatonDatabase) : Q :=
  Number (or_default (Db.getKV db "total_spent_cents") "0").

Definition getTotalEarned (db : AutomatonDatabase) : Q :=
  Number (or_default (Db.getKV db "total_earned_cents") "0").

Definition getChildTributeTotal (db : AutomatonDatabase) : Q :=
  Number (or_default (Db.getKV db "child_tribute_total_cents") "0").

Definition calculateBurnRate (db : AutomatonDatabase) (now : Q) : Q :=
  let uptimeHours := getUptimeHours db now in
  if Num.le uptimeHours 0 then 0%Q
  else (getTotalSpent db / uptimeHours)%Q.

Definition calculateEarnRate (db : AutomatonDatabase) (now : Q) : Q :=
  let uptimeHours := getUptimeHours db now in
  if Num.le uptimeHours 0 then 0%Q
  else (getTotalEarned db / uptimeHours)%Q.

Definition calculateRunway (balanceCents burnRate : Q) : Hours :=
  if Num.le burnRate 0 then Infinity
  else Finite (balanceCents / burnRate)%Q.

Definition getRunwayTier (tiers : RunwayTiers) (runwayHours : Hours) : SurvivalTier :=
  if hours_gt runwayHours (rt_normal tiers) then normal
  else if hours_gt runwayHours (rt_low_compute tiers) then low_compute
  else if hours_gt runwayHours (rt_critical tiers) then critical
  else dead.

(** The three successive readings of [Date.now()] and the reading behind
    the [timestamp] field that one call of [getEconomicsSnapshot] makes. *)
Record SnapshotClock : Type := {
  clk_burn : Q;
  clk_earn : Q;
  clk_uptime : Q;
  clk_stamp : Q;
}.

Definition getEconomicsSnapshot (db : AutomatonDatabase) (config : AutomatonConfig)
    (clk : SnapshotClock) : EconomicsSnapshot :=
  let burnRate := calculateBurnRate db (clk_burn clk) in
  let earnRate := calculateEarnRate db (clk_earn clk) in
  let totalSpent := getTotalSpent db in
  let totalEarned := getTotalEarned db in
  let balance := (cfg_budgetCents config - totalSpent + totalEarned)%Q in
  let runway := calculateRunway (Num.max balance 0) burnRate in
  let turnCount := Db.getTurnCount db in
  let uptime := getUptimeHours db (clk_uptime clk) in
  let perTurn :=
    if Num.gt (Num.of_nat turnCount) 0
    then (totalSpent / Num.of_nat turnCount)%Q else 0%Q in
  let tribute := getChildTributeTotal db in
  {| timestamp := toISOString (clk_stamp clk);
     budgetCents := cfg_budgetCents config;
     totalSpentCents := totalSpent;
     totalEarnedCents := totalEarned;
     balanceCents := Num.max balance 0;
     burnRatePerHour := burnRate;
     earnRatePerHour := earnRate;
     earnBurnRatio := if Num.gt burnRate 0 then (earnRate / burnRate)%Q else 0%Q;
     runwayHours := match runway with Infinity => 99999%Q | Finite h => h end;
     costPerTurn := perTurn;
     turnsTotal := turnCount;
     uptimeHours := uptime;
     childTributeTotal := tribute |}.

Definition checkSpawnGate (db : AutomatonDatabase) (config : AutomatonConfig)
    (numChildren : Q) (now : Q) : SpawnGate :=
  let burnRate := calculateBurnRate db now in
  let totalSpent := getTotalSpent db in
  let totalEarned := getTotalEarned db in
  let balance := Num.max (cfg_budgetCents config - totalSpent + totalEarned)%Q 0 in
  let own := (burnRate * HOURS_PER_MONTH)%Q in
  let child := (own * 0.8)%Q in
  let threshold := (own + numChildren * child)%Q in
  let shortfall := Num.max (threshold - balance)%Q 0 in
  if Num.lt balance threshold then
    {| canSpawn := false;
       sg_balanceCents := balance;
       ownMonthlyCost := own;
       childMonthlyCost := child;
       spawnThreshold := threshold;
       deficit := shortfall |}
  else
    {| canSpawn := true;
       sg_balanceCents := balance;
       ownMonthlyCost := own;
       childMonthlyCost := child;
       spawnThreshold := threshold;
       deficit := 0 |}.

Definition shouldSleep (snapshot : EconomicsSnapshot) (pendingTasks : Q) : bool :=
  if Num.gt pendingTasks 0 then false
  else if Num.ge (earnBurnRatio snapshot) 0.5 then false
  else if Num.ge (runwayHours snapshot) 24 then false
  else true.

Definition recordTurnCost (db : AutomatonDatabase) (turnId : string) (costCents : Q)
    : AutomatonDatabase :=
  let db1 := Db.setKV db ("turn_cost_" +:+ turnId) (String_of_number costCents) in
  let currentTotal := Number (or_default (Db.getKV db1 "total_spent_cents") "0") in
  Db.setKV db1 "total_spent_cents" (String_of_number (currentTotal + costCents)%Q).

End Engine.
End Economics.

(** ** JavaScript values in the agent loop *)

(** The outcome of a call that may throw. *)
Inductive Completion (A : Type) : Type :=
| Returned (a : A)
| Threw (message : string).
Arguments Returned {A} a.
Arguments Threw {A} message.

Module Js.

(** Truthiness of a JSON value. *)
Definition truthy (v : json) : bool :=
  match v with
  | JNull => false
  | JBool b => b
  | JNum n => negb (Z.eqb n 0)
  | JStr s => negb (String.eqb s "")
  | JArr _ | JObj _ => true
  end.

(** Truthiness of a property that may be [undefined]. *)
Definition truthy_opt (v : option json) : bool :=
  match v with
  | Some x => truthy x
  | None => false
  end.

(** The value of property [k] among the fields of an object; of two
    fields with one key the later one counts. *)
Fixpoint assoc (k : string) (fields : list (string * json)) : option json :=
  match fields with
  | [] => None
  | (k', v) :: rest =>
      match assoc k rest with
      | Some v' => Some v'
      | None => if String.eqb k k' then Some v else None
      end
  end.

(** [v.k]: a property read throws on [null], gives the field of an object
    and [undefined] on every other value. *)
Definition get (v : json) (k : string) : Completion (option json) :=
  match v with
  | JNull => Threw "TypeError: Cannot read properties of null"
  | JObj fields => Returned (assoc k fields)
  | _ => Returned None
  end.

(** [v?.k]: as [get] but [undefined] on [null]. *)
Definition get_opt (v : json) (k : string) : option json :=
  match v with
  | JObj fields => assoc k fields
  | _ => None
  end.

(** [String(v)]. *)
Fixpoint String_ (v : json) : string :=
  match v with
  | JNull => "null"
  | JBool true => "true"
  | JBool false => "false"
  | JNum n => pretty n
  | JStr s => s
  | JArr items =>
      String.concat ","
        (List.map (fun x => match x with JNull => "" | _ => String_ x end) items)
  | JObj _ => "[object Object]"
  end.

Definition is_space (c : ascii) : bool :=
  let n := nat_of_ascii c in
  (Nat.eqb n 32 || (Nat.leb 9 n && Nat.leb n 13))%bool.

Fixpoint trimStart (s : string) : string :=
  match s with
  | String c rest => if is_space c then trimStart rest else s
  | EmptyString => EmptyString
  end.

(** [s.trim()]. *)
Definition trim (s : string) : string :=
  String.rev (trimStart (String.rev (trimStart s))).

(** [s.slice(0, n)]. *)
Definition slice0 (n : nat) (s : string) : string := String.substring 0 n s.

(** [s.includes(t)]. *)
Definition includes (s t : string) : bool :=
  match String.index 0 t s with
  | Some _ => true
  | None => false
  end.

(** [x || d] on strings. *)
Definition or_str (x d : string) : string :=
  if String.eqb x "" then d else x.

(** The line feed. *)
Definition nl : string := String (ascii_of_nat 10) EmptyString.

End Js.

(** ** Messages and responses of the inference client *)

Inductive Role : Type := system | user | assistant | tool.

(** [InferenceToolCall]: [{ id, type: "function", function: { name, arguments } }]. *)
Record InferenceToolCall : Type := {
  tc_id : string;
  tc_name : string;
  tc_arguments : string;
}.

(** [ChatMessage]. *)
Record ChatMessage : Type := {
  role : Role;
  content : string;
  name : option string;
  tool_calls : option (list InferenceToolCall);
  tool_call_id : option string;
}.

(** [InferenceResponse]. *)
Record InferenceResponse : Type := {
  resp_id : string;
  resp_model : string;
  resp_message : ChatMessage;
  resp_toolCalls : option (list InferenceToolCall);
  resp_usage : TokenUsage;
  resp_finishReason : string;
  resp_costCents : option Q;
}.

Record FinancialState : Type := {
  creditsCents : Q;
  usdcBalance : Q;
  lastChecked : string;
}.

(** The state behind the closure that [createInferenceClient] returns. *)
Record InferenceClient : Type := {
  opt_defaultModel : string;
  opt_maxTokens : Q;
  opt_lowComputeModel : option string;
  currentModel : string;
  maxTokens : Q;
}.

Definition setLowComputeMode (c : InferenceClient) (enabled : bool) : InferenceClient :=
  if enabled then
    {| opt_defaultModel := opt_defaultModel c;
       opt_maxTokens := opt_maxTokens c;
       opt_lowComputeModel := opt_lowComputeModel c;
       currentModel := or_default (opt_lowComputeModel c) "gpt-4.1";
       maxTokens := 4096 |}
  else
    {| opt_defaultModel := opt_defaultModel c;
       opt_maxTokens := opt_maxTokens c;
       opt_lowComputeModel := opt_lowComputeModel c;
       currentModel := opt_defaultModel c;
       maxTokens := opt_maxTokens c |}.

Definition getDefaultModel (c : InferenceClient) : string := currentModel c.

(** [{ content, source }], the pending input of the loop. *)
Record PendingInput : Type := {
  pi_content : string;
  pi_source : string;
}.

(** What the loop consumes from outside; every call reads and writes the
    environment [Env]. *)
Class Collaborators : Type := {
  Env : Type;
(** [executeTool(name, args, tools, toolContext)] of [./tools.js]; a tool
    may write the database. *)
executeTool : string -> json -> AutomatonDatabase -> Env ->
              Completion ToolCallResult * AutomatonDatabase * Env;
(** [inference.chat(messages, { tools })] for the current model and token
    ceiling. *)
inference_chat : InferenceClient -> list ChatMessage -> Env ->
                 Completion InferenceResponse * Env;
(** [conway.getCreditsBalance()] and [getUsdcBalance(address)]. *)
getCreditsBalance : Env -> Completion Q * Env;
getUsdcBalance : Env -> Completion Q * Env;
(** [Date.now()], in milliseconds. *)
Date_now : Env -> Q * Env;
(** [ulid()]. *)
ulid : Env -> string * Env;
(** [getSurvivalTier(creditsCents)] of [../conway/credits.js]. *)
getSurvivalTier : Q -> SurvivalTier;
(** [buildWakeupPrompt({ identity, config, financial, db })]. *)
buildWakeupPrompt : AutomatonConfig -> FinancialState -> AutomatonDatabase -> string;
(** [buildContextMessages(buildSystemPrompt(...), trimContext(db.getRecentTurns(20)),
    pendingInput)]. *)
buildContext : AutomatonConfig -> FinancialState -> AutomatonDatabase -> bool ->
               option PendingInput -> list ChatMessage;
(** Whether [process.env.OPENAI_API_KEY] is set. *)
OPENAI_API_KEY : bool;
}.

(** ** The agent loop *)

Module Loop.

Definition MAX_TOOL_CALLS_PER_TURN : nat := 10.
Definition MAX_CONSECUTIVE_ERRORS : nat := 5.
Definition MAX_TURNS_PER_WAKE : nat := 20.

Definition ONCE_PER_WAKE_TOOLS : gset string :=
  {[ "check_economics"; "check_credits"; "scan_landscape";
     "heartbeat_ping"; "check_health" ]}.

(** The price table of [estimateCostCents], in cents per million tokens. *)
Definition pricing : list (string * (Q * Q)) :=
  [ ("gpt-4o", (250, 1000)%Q);
    ("gpt-4o-mini", (15, 60)%Q);
    ("gpt-4.1", (200, 800)%Q);
    ("gpt-4.1-mini", (40, 160)%Q);
    ("gpt-4.1-nano", (10, 40)%Q);
    ("gpt-5.2", (200, 800)%Q);
    ("o1", (1500, 6000)%Q);
    ("o3-mini", (110, 440)%Q);
    ("o4-mini", (110, 440)%Q);
    ("claude-sonnet-4-5", (300, 1500)%Q);
    ("claude-haiku-4-5", (100, 500)%Q) ].

Fixpoint price_of (model : string) (table : list (string * (Q * Q))) : option (Q * Q) :=
  match table with
  | [] => None
  | (m, p) :: rest => if String.eqb model m then Some p else price_of model rest
  end.

Definition estimateCostCents (usage : TokenUsage) (model : string) : Q :=
  let p := match price_of model pricing with
           | Some p => p
           | None => (250, 1000)%Q
           end in
  let inputCost := (promptTokens usage / 1000000 * fst p)%Q in
  let outputCost := (completionTokens usage / 1000000 * snd p)%Q in
  Num.ceil ((inputCost + outputCost) * 1.3)%Q.

(** A history variable: one entry for every call of [executeTool] the
    session made, in order, with whether the call returned.  The loop
    never reads it. *)
Record ToolEvent : Type := {
  ev_name : string;
  ev_args : json;
  ev_returned : bool;
}.

(** [{ name, args }] of [bootstrapSteps]. *)
Record BootstrapStep : Type := {
  step_name : string;
  step_args : json;
}.

Definition bootstrapSteps : list BootstrapStep :=
  [ {| step_name := "check_economics"; step_args := JObj [] |};
    {| step_name := "exec";
       step_args := JObj [("command", JStr "ls -la ~/ && uname -a && whoami && pwd")] |};
    {| step_name := "exec";
       step_args := JObj [("command", JStr "which node && node --version && which git && git --version 2>/dev/null; which python3 && python3 --version 2>/dev/null; which curl && curl --version 2>/dev/null | head -1")] |} ].

(** The fingerprint of a single tool-call result:
    [tc0.name === "exec" && tc0.arguments?.command
       ? `exec:${String(tc0.arguments.command).slice(0, 80)}` : tc0.name]. *)
Definition fingerprint (tc0 : ToolCallResult) : string :=
  if String.eqb (tcr_name tc0) "exec" then
    match Js.get_opt (tcr_arguments tc0) "command" with
    | Some c =>
        if Js.truthy c then "exec:" +:+ Js.slice0 80 (Js.String_ c)
        else tcr_name tc0
    | None => tcr_name tc0
    end
  else tcr_name tc0.

(** The stuck-loop bookkeeping on [(lastToolName, consecutiveSameTool)]. *)
Definition detectStuck (toolCalls : list ToolCallResult) (last : string) (count : nat)
    : string * nat :=
  match toolCalls with
  | [tc0] =>
      if String.eqb (fingerprint tc0) last then (last, S count)
      else (fingerprint tc0, 1)
  | _ :: _ :: _ => ("", 0)
  | [] => (last, count)
  end.

Definition withId (r : ToolCallResult) (id : string) : ToolCallResult :=
  {| tcr_id := id;
     tcr_name := tcr_name r;
     tcr_arguments := tcr_arguments r;
     tcr_result := tcr_result r;
     tcr_error := tcr_error r;
     tcr_durationMs := tcr_durationMs r |}.

(** The synthetic result for a repeated once-per-wake tool. *)
Definition blockedOnce (tc : InferenceToolCall) (args : json) : ToolCallResult :=
  {| tcr_id := tc_id tc;
     tcr_name := tc_name tc;
     tcr_arguments := args;
     tcr_result := "BLOCKED: " +:+ tc_name tc +:+ " already called this wake cycle. Use a different tool. Productive tools: exec (run shell commands), write_file, read_file. Build something or sleep.";
     tcr_error := None;
     tcr_durationMs := 0 |}.

(** The synthetic result for a repeated [exec] command. *)
Definition blockedExec (tc : InferenceToolCall) (args : json) (cmdKey : string)
    : ToolCallResult :=
  {| tcr_id := tc_id tc;
     tcr_name := tc_name tc;
     tcr_arguments := args;
     tcr_result := "BLOCKED: You already ran this exact command this wake cycle and it "
       +:+ (if Js.includes cmdKey "curl" then "failed or returned empty"
           else "was already executed")
       +:+ ". Try a COMPLETELY DIFFERENT command or tool. Do not retry. Suggestions: write_file to create a service, exec with a different command, or sleep if you have nothing else to do.";
     tcr_error := None;
     tcr_durationMs := 0 |}.

(** [tc.function.name === "exec" && args.command]: when it holds, the
    dedup key [String(args.command).trim()]. *)
Definition execCommand (name : string) (args : json) : Completion (option string) :=
  if String.eqb name "exec" then
    match Js.get args "command" with
    | Threw e => Threw e
    | Returned (Some c) =>
        if Js.truthy c then Returned (Some (Js.trim (Js.String_ c)))
        else Returned None
    | Returned None => Returned None
    end
  else Returned None.

Section WithCollaborators.

Context `{Builtins} `{Collaborators}.

(** *** Tool calls of one turn *)

(** What the tool-call loop of one turn reads and writes. *)
Record ToolLoopState : Type := mkToolLoop {
  tl_db : AutomatonDatabase;
  tl_env : Env;
  tl_calledOnceTools : gset string;
  tl_executedCommands : gset string;
  tl_toolCalls : list ToolCallResult;
  tl_callCount : nat;
  tl_history : list ToolEvent;
}.

(** [turn.toolCalls.push(blockedResult); callCount+:+]. *)
Definition pushBlocked (st : ToolLoopState) (r : ToolCallResult) : ToolLoopState :=
  mkToolLoop (tl_db st) (tl_env st) (tl_calledOnceTools st) (tl_executedCommands st)
    (tl_toolCalls st ++ [r]) (S (tl_callCount st)) (tl_history st).

(** [args = JSON.parse(tc.function.arguments)], [{}] when it throws. *)
Definition parseArgs (tc : InferenceToolCall) : json :=
  match JSON_parse (tc_arguments tc) with
  | Some v => v
  | None => JObj []
  end.

(** The body of [for (const tc of response.toolCalls)] below the cap test:
    the new state and the message of the exception, if one was thrown. *)
Definition admitToolCall (tc : InferenceToolCall) (st : ToolLoopState)
    : ToolLoopState * option string :=
  let args := parseArgs tc in
  let name := tc_name tc in
  if (bool_decide (name ∈ ONCE_PER_WAKE_TOOLS)
      && bool_decide (name ∈ tl_calledOnceTools st))%bool
  then (pushBlocked st (blockedOnce tc args), None)
  else
    match execCommand name args with
    | Threw e => (st, Some e)
    | Returned key =>
        match key with
        | Some cmdKey =>
            if bool_decide (cmdKey ∈ tl_executedCommands st)
            then (pushBlocked st (blockedExec tc args cmdKey), None)
            else
              match executeTool name args (tl_db st) (tl_env st) with
              | (Threw e, db', env') =>
                  (mkToolLoop db' env' (tl_calledOnceTools st) (tl_executedCommands st)
                     (tl_toolCalls st) (tl_callCount st)
                     (tl_history st ++ [{| ev_name := name; ev_args := args;
                                           ev_returned := false |}]),
                   Some e)
              | (Returned result, db', env') =>
                  (mkToolLoop db' env'
                     (if bool_decide (name ∈ ONCE_PER_WAKE_TOOLS)
                      then {[ name ]} ∪ tl_calledOnceTools st
                      else tl_calledOnceTools st)
                     ({[ cmdKey ]} ∪ tl_executedCommands st)
                     (tl_toolCalls st ++ [withId result (tc_id tc)])
                     (S (tl_callCount st))
                     (tl_history st ++ [{| ev_name := name; ev_args := args;
                                           ev_returned := true |}]),
                   None)
              end
        | None =>
            match executeTool name args (tl_db st) (tl_env st) with
            | (Threw e, db', env') =>
                (mkToolLoop db' env' (tl_calledOnceTools st) (tl_executedCommands st)
                   (tl_toolCalls st) (tl_callCount st)
                   (tl_history st ++ [{| ev_name := name; ev_args := args;
                                         ev_returned := false |}]),
                 Some e)
            | (Returned result, db', env') =>
                (mkToolLoop db' env'
                   (if bool_decide (name ∈ ONCE_PER_WAKE_TOOLS)
                    then {[ name ]} ∪ tl_calledOnceTools st
                    else tl_calledOnceTools st)
                   (tl_executedCommands st)
                   (tl_toolCalls st ++ [withId result (tc_id tc)])
                   (S (tl_callCount st))
                   (tl_history st ++ [{| ev_name := name; ev_args := args;
                                         ev_returned := true |}]),
                 None)
            end
        end
    end.

(** [for (const tc of response.toolCalls) { if (callCount >=
    MAX_TOOL_CALLS_PER_TURN) break; ... }]. *)
Fixpoint runToolCalls (calls : list InferenceToolCall) (st : ToolLoopState)
    : ToolLoopState * option string :=
  match calls with
  | [] => (st, None)
  | tc :: rest =>
      if Nat.leb MAX_TOOL_CALLS_PER_TURN (tl_callCount st) then (st, None)
      else
        match admitToolCall tc st with
        | (st', None) => runToolCalls rest st'
        | (st', Some e) => (st', Some e)
        end
  end.


(** *** The locals of [runAgentLoop] *)

Record LoopState : Type := mkLoop {
  ls_db : AutomatonDatabase;
  ls_env : Env;
  ls_inference : InferenceClient;
  ls_financial : FinancialState;
  ls_pendingInput : option PendingInput;
  consecutiveErrors : nat;
  running : bool;
  turnsThisWake : nat;
  lastToolName : string;
  consecutiveSameTool : nat;
  calledOnceTools : gset string;
  executedCommands : gset string;
  history : list ToolEvent;
}.

Definition with_db (s : LoopState) (d : AutomatonDatabase) : LoopState :=
  mkLoop d (ls_env s) (ls_inference s) (ls_financial s) (ls_pendingInput s)
    (consecutiveErrors s) (running s) (turnsThisWake s) (lastToolName s)
    (consecutiveSameTool s) (calledOnceTools s) (executedCommands s) (history s).

Definition with_env (s : LoopState) (e : Env) : LoopState :=
  mkLoop (ls_db s) e (ls_inference s) (ls_financial s) (ls_pendingInput s)
    (consecutiveErrors s) (running s) (turnsThisWake s) (lastToolName s)
    (consecutiveSameTool s) (calledOnceTools s) (executedCommands s) (history s).

Definition with_inference (s : LoopState) (c : InferenceClient) : LoopState :=
  mkLoop (ls_db s) (ls_env s) c (ls_financial s) (ls_pendingInput s)
    (consecutiveErrors s) (running s) (turnsThisWake s) (lastToolName s)
    (consecutiveSameTool s) (calledOnceTools s) (executedCommands s) (history s).

Definition with_financial (s : LoopState) (f : FinancialState) : LoopState :=
  mkLoop (ls_db s) (ls_env s) (ls_inference s) f (ls_pendingInput s)
    (consecutiveErrors s) (running s) (turnsThisWake s) (lastToolName s)
    (consecutiveSameTool s) (calledOnceTools s) (executedCommands s) (history s).

Definition with_pendingInput (s : LoopState) (p : option PendingInput) : LoopState :=
  mkLoop (ls_db s) (ls_env s) (ls_inference s) (ls_financial s) p
    (consecutiveErrors s) (running s) (turnsThisWake s) (lastToolName s)
    (consecutiveSameTool s) (calledOnceTools s) (executedCommands s) (history s).

Definition with_consecutiveErrors (s : LoopState) (n : nat) : LoopState :=
  mkLoop (ls_db s) (ls_env s) (ls_inference s) (ls_financial s) (ls_pendingInput s)
    n (running s) (turnsThisWake s) (lastToolName s)
    (consecutiveSameTool s) (calledOnceTools s) (executedCommands s) (history s).

Definition with_running (s : LoopState) (b : bool) : LoopState :=
  mkLoop (ls_db s) (ls_env s) (ls_inference s) (ls_financial s) (ls_pendingInput s)
    (consecutiveErrors s) b (turnsThisWake s) (lastToolName s)
    (consecutiveSameTool s) (calledOnceTools s) (executedCommands s) (history s).

Definition with_turnsThisWake (s : LoopState) (n : nat) : LoopState :=
  mkLoop (ls_db s) (ls_env s) (ls_inference s) (ls_financial s) (ls_pendingInput s)
    (consecutiveErrors s) (running s) n (lastToolName s)
    (consecutiveSameTool s) (calledOnceTools s) (executedCommands s) (history s).

Definition with_stuck (s : LoopState) (p : string * nat) : LoopState :=
  mkLoop (ls_db s) (ls_env s) (ls_inference s) (ls_financial s) (ls_pendingInput s)
    (consecutiveErrors s) (running s) (turnsThisWake s) (fst p)
    (snd p) (calledOnceTools s) (executedCommands s) (history s).

(** The state a tool-call loop starts from and the state it leaves. *)
Definition toolLoopOf (s : LoopState) : ToolLoopState :=
  mkToolLoop (ls_db s) (ls_env s) (calledOnceTools s) (executedCommands s)
    [] 0 (history s).

Definition with_toolLoop (s : LoopState) (st : ToolLoopState) : LoopState :=
  mkLoop (tl_db st) (tl_env st) (ls_inference s) (ls_financial s) (ls_pendingInput s)
    (consecutiveErrors s) (running s) (turnsThisWake s) (lastToolName s)
    (consecutiveSameTool s) (tl_calledOnceTools st) (tl_executedCommands st)
    (tl_history st).

(** [db.setKV("sleep_until", new Date(Date.now() + ms).toISOString())]. *)
Definition setSleepUntil (ms : Q) (s : LoopState) : LoopState :=
  let reading := Date_now (ls_env s) in
  with_env
    (with_db s (Db.setKV (ls_db s) "sleep_until" (toISOString (fst reading + ms)%Q)))
    (snd reading).

(** [db.setAgentState(state)]. *)
Definition setState (a : AgentState) (s : LoopState) : LoopState :=
  with_db s (Db.setAgentState (ls_db s) a).

(** [new Date().toISOString()]. *)
Definition isoNow (env : Env) : string * Env :=
  let '(now, env') := Date_now env in (toISOString now, env').

(** [getFinancialState(conway, address)]: a failed query counts as 0. *)
Definition getFinancialState (env : Env) : FinancialState * Env :=
  let '(c, env1) := getCreditsBalance env in
  let '(u, env2) := getUsdcBalance env1 in
  let '(stamp, env3) := isoNow env2 in
  ({| creditsCents := match c with Returned v => v | Threw _ => 0%Q end;
      usdcBalance := match u with Returned v => v | Threw _ => 0%Q end;
      lastChecked := stamp |}, env3).

(** The clock readings of one call of [getEconomicsSnapshot]. *)
Definition readSnapshotClock (env : Env) : Economics.SnapshotClock * Env :=
  let '(t1, env1) := Date_now env in
  let '(t2, env2) := Date_now env1 in
  let '(t3, env3) := Date_now env2 in
  let '(t4, env4) := Date_now env3 in
  ({| Economics.clk_burn := t1; Economics.clk_earn := t2;
      Economics.clk_uptime := t3; Economics.clk_stamp := t4 |}, env4).

(** The counters of the loop, and the per-wake guard state with the
    history. *)
Definition control (s : LoopState) : nat * bool * nat * string * nat :=
  (consecutiveErrors s, running s, turnsThisWake s, lastToolName s,
   consecutiveSameTool s).

Definition guards (s : LoopState) : gset string * gset string * list ToolEvent :=
  (calledOnceTools s, executedCommands s, history s).

Section Session.

Variable config : AutomatonConfig.

(** *** Wake-up and bootstrap *)

(** The statements of [runAgentLoop] before the bootstrap phase; the
    result carries [isFirstRun] and [wakeupInput]. *)
Definition wakeUp (inference : InferenceClient) (db : AutomatonDatabase) (env : Env)
    : LoopState * bool * string :=
  let '(db1, env1) :=
    if String.eqb (or_default (Db.getKV db "start_time") "") ""
    then let '(stamp, e) := isoNow env in (Db.setKV db "start_time" stamp, e)
    else (db, env) in
  let db2 := Db.setAgentState db1 as_waking in
  let '(financial, env2) :=
    if OPENAI_API_KEY
    then let '(stamp, e) := isoNow env1 in
         ({| creditsCents := 99999; usdcBalance := 0; lastChecked := stamp |}, e)
    else getFinancialState env1 in
  let isFirstRun := Nat.eqb (Db.getTurnCount db2) 0 in
  let wakeupInput := buildWakeupPrompt config financial db2 in
  let db3 := Db.setAgentState db2 as_running in
  let db4 := Db.setKV db3 "sleep_until" "" in
  (mkLoop db4 env2 inference financial None 0 true 0 "" 0 ∅ ∅ [],
   isFirstRun, wakeupInput).

(** The body of [for (const step of bootstrapSteps)]. *)
Definition bootstrapStep (acc : LoopState * list string) (step : BootstrapStep)
    : LoopState * list string :=
  let '(s, bootstrapResults) := acc in
  let name := step_name step in
  match executeTool name (step_args step) (ls_db s) (ls_env s) with
  | (Threw e, db', env') =>
      (mkLoop db' env' (ls_inference s) (ls_financial s) (ls_pendingInput s)
         (consecutiveErrors s) (running s) (turnsThisWake s) (lastToolName s)
         (consecutiveSameTool s) (calledOnceTools s) (executedCommands s)
         (history s ++ [{| ev_name := name; ev_args := step_args step;
                           ev_returned := false |}]),
       List.app bootstrapResults [name +:+ ": ERROR: " +:+ e])
  | (Returned result, db', env') =>
      let '(id, env1) := ulid env' in
      let '(stamp, env2) := isoNow env1 in
      let bootstrapTurn :=
        {| turn_id := id;
           turn_timestamp := stamp;
           turn_state := Db.getAgentState db';
           turn_input := Some ("[BOOTSTRAP] Auto-executed: " +:+ name);
           turn_inputSource := Some "system";
           turn_thinking := "Bootstrap phase: automatically executing " +:+ name
                            +:+ " to gather context.";
           turn_toolCalls := [result];
           turn_tokenUsage := {| promptTokens := 0; completionTokens := 0;
                                 totalTokens := 0 |};
           turn_costCents := 0 |} in
      let db1 := Db.insertToolCall (Db.insertTurn db' bootstrapTurn) id result in
      let output :=
        if String.eqb (or_default (tcr_error result) "") ""
        then name +:+ ": " +:+ tcr_result result
        else name +:+ ": ERROR: " +:+ or_default (tcr_error result) "" in
      (mkLoop db1 env2 (ls_inference s) (ls_financial s) (ls_pendingInput s)
         (consecutiveErrors s) (running s) (S (turnsThisWake s)) (lastToolName s)
         (consecutiveSameTool s)
         (if bool_decide (name ∈ ONCE_PER_WAKE_TOOLS)
          then {[ name ]} ∪ calledOnceTools s else calledOnceTools s)
         (executedCommands s)
         (history s ++ [{| ev_name := name; ev_args := step_args step;
                           ev_returned := true |}]),
       List.app bootstrapResults [output])
  end.

(** The bootstrap phase and the first pending input. *)
Definition bootstrap (wakeupInput : string) (s : LoopState) : LoopState :=
  let '(s', bootstrapResults) := fold_left bootstrapStep bootstrapSteps (s, []) in
  let bootstrapContext :=
    String.concat (Js.nl +:+ Js.nl +:+ "---" +:+ Js.nl +:+ Js.nl) bootstrapResults in
  with_pendingInput s'
    (Some {| pi_content :=
               wakeupInput +:+ Js.nl +:+ Js.nl
               +:+ "--- BOOTSTRAP RESULTS (already executed, do NOT repeat these) ---"
               +:+ Js.nl +:+ Js.nl +:+ bootstrapContext +:+ Js.nl +:+ Js.nl
               +:+ "--- END BOOTSTRAP ---" +:+ Js.nl +:+ Js.nl
               +:+ "You now have full context. Do PRODUCTIVE WORK with exec (build something, clone a repo, find bounties, create a service). Do NOT call check_economics or any status tool — they are already done above. If you have nothing productive to do, call sleep.";
             pi_source := "wakeup" |}).

(** *** One iteration of [while (running)] *)

Variable isFirstRun : bool.

(** Why a turn ended the way it did. *)
Inductive Verdict : Type :=
| HaltStuck        (* consecutiveSameTool >= 3 *)
| HaltSleepTool    (* a successful call of the sleep tool *)
| HaltTurnCap      (* turnsThisWake >= MAX_TURNS_PER_WAKE *)
| HaltIdle         (* no tool calls and finish reason "stop" *)
| Continue.

(** What one iteration did. *)
Inductive Outcome : Type :=
| StillSleeping                           (* the sleep timer is in the future *)
| Died                                    (* the tier is dead *)
| Failed (message : string)               (* the [catch] branch ran *)
| Turn (turn : AgentTurn) (response : InferenceResponse) (v : Verdict).

(** [sleepUntil && new Date(sleepUntil) > new Date()]. *)
Definition sleepPending (s : LoopState) : bool * LoopState :=
  match Db.getKV (ls_db s) "sleep_until" with
  | Some sleepUntil =>
      if String.eqb sleepUntil "" then (false, s)
      else
        let '(now, env') := Date_now (ls_env s) in
        match Date_getTime sleepUntil with
        | Some t => (Num.gt t now, with_env s env')
        | None => (false, with_env s env')
        end
  | None => (false, s)
  end.

(** The inbox step: up to five unprocessed messages become the pending
    input. *)
Definition pullInbox (s : LoopState) : LoopState :=
  match ls_pendingInput s with
  | Some _ => s
  | None =>
      match Db.getUnprocessedInboxMessages (ls_db s) 5 with
      | [] => s
      | inboxMessages =>
          let formatted :=
            String.concat (Js.nl +:+ Js.nl)
              (List.map (fun m => "[Message from " +:+ msg_from m +:+ "]: "
                                  +:+ msg_content m) inboxMessages) in
          with_db
            (with_pendingInput s
               (Some {| pi_content := formatted; pi_source := "agent" |}))
            (fold_left (fun d m => Db.markInboxMessageProcessed d (msg_id m))
               inboxMessages (ls_db s))
      end
  end.

(** The refresh of the financial state. *)
Definition refreshFinancial (s : LoopState) : LoopState :=
  if OPENAI_API_KEY then
    let '(stamp, env') := isoNow (ls_env s) in
    with_env
      (with_financial s
         {| creditsCents := 99999;
            usdcBalance := usdcBalance (ls_financial s);
            lastChecked := stamp |})
      env'
  else
    let '(f, env') := getFinancialState (ls_env s) in
    with_env (with_financial s f) env'.

(** The survival tier of this iteration. *)
Definition surveyTier (s : LoopState) : SurvivalTier * LoopState :=
  if OPENAI_API_KEY then
    let '(clk, env') := readSnapshotClock (ls_env s) in
    let snapshot := Economics.getEconomicsSnapshot (ls_db s) config clk in
    (Economics.getRunwayTier RUNWAY_TIERS (Finite (runwayHours snapshot)),
     with_env s env')
  else (getSurvivalTier (creditsCents (ls_financial s)), s).

(** The branches for a tier other than [dead]. *)
Definition enterTier (tier : SurvivalTier) (s : LoopState) : LoopState :=
  match tier with
  | critical =>
      with_inference (setState as_critical s) (setLowComputeMode (ls_inference s) true)
  | low_compute =>
      with_inference (setState as_low_compute s)
        (setLowComputeMode (ls_inference s) true)
  | _ =>
      with_inference
        (if bool_decide (Db.getAgentState (ls_db s) = as_running) then s
         else setState as_running s)
        (setLowComputeMode (ls_inference s) false)
  end.

(** The [catch] branch. *)
Definition catchError (s : LoopState) : LoopState :=
  let s1 := with_consecutiveErrors s (S (consecutiveErrors s)) in
  if Nat.leb MAX_CONSECUTIVE_ERRORS (consecutiveErrors s1) then
    with_running (setSleepUntil 300000 (setState as_sleeping s1)) false
  else s1.

(** [db.insertTurn(turn)] and [db.insertToolCall(turn.id, tc)] for each
    result. *)
Definition persistTurn (turn : AgentTurn) (db : AutomatonDatabase) : AutomatonDatabase :=
  fold_left (fun d tc => Db.insertToolCall d (turn_id turn) tc)
    (turn_toolCalls turn) (Db.insertTurn db turn).

(** The economics step: the cost of the turn and a snapshot on every
    fifth turn of the store. *)
Definition trackEconomics (turn : AgentTurn) (response : InferenceResponse)
    (s : LoopState) : LoopState :=
  let actualCost := match resp_costCents response with
                    | Some c => c
                    | None => turn_costCents turn
                    end in
  let db1 := Economics.recordTurnCost (ls_db s) (turn_id turn) actualCost in
  if Nat.eqb (Db.getTurnCount db1 mod 5) 0 then
    let '(clk, env') := readSnapshotClock (ls_env s) in
    let snapshot := Economics.getEconomicsSnapshot db1 config clk in
    with_env
      (with_db s
         (Db.setKV (Db.insertEconomicsSnapshot db1 snapshot)
            "last_economics_snapshot" (JSON_stringify_snapshot snapshot)))
      env'
  else with_db s db1.

(** [turn.toolCalls.find((tc) => tc.name === "sleep")] exists and has no
    error. *)
Definition choseSleep (turn : AgentTurn) : bool :=
  match List.find (fun tc => String.eqb (tcr_name tc) "sleep") (turn_toolCalls turn) with
  | Some sleepTool => String.eqb (or_default (tcr_error sleepTool) "") ""
  | None => false
  end.

(** [(!response.toolCalls || response.toolCalls.length === 0) &&
    response.finishReason === "stop"]. *)
Definition isIdle (response : InferenceResponse) : bool :=
  (match resp_toolCalls response with
   | None | Some [] => true
   | Some (_ :: _) => false
   end && String.eqb (resp_finishReason response) "stop")%bool.

(** The statements of the [try] block from the stuck-loop detection to
    its end. *)
Definition conclude (turn : AgentTurn) (response : InferenceResponse)
    (s : LoopState) : LoopState * Verdict :=
  let s1 := with_stuck s
              (detectStuck (turn_toolCalls turn) (lastToolName s)
                 (consecutiveSameTool s)) in
  if Nat.leb 3 (consecutiveSameTool s1) then
    (with_running (setState as_sleeping (setSleepUntil 600000 s1)) false, HaltStuck)
  else if choseSleep turn then
    (with_running (setState as_sleeping s1) false, HaltSleepTool)
  else if Nat.leb MAX_TURNS_PER_WAKE (turnsThisWake s1) then
    (with_running (setState as_sleeping (setSleepUntil 600000 s1)) false, HaltTurnCap)
  else if isIdle response then
    (with_consecutiveErrors
       (with_running (setState as_sleeping (setSleepUntil 300000 s1)) false) 0,
     HaltIdle)
  else (with_consecutiveErrors s1 0, Continue).

(** [if (response.toolCalls && response.toolCalls.length > 0) { ... }]: the
    tool-call loop of the turn. *)
Definition toolPhase (response : InferenceResponse) (s : LoopState)
    : ToolLoopState * option string :=
  match resp_toolCalls response with
  | Some ((_ :: _) as calls) => runToolCalls calls (toolLoopOf s)
  | _ => (toolLoopOf s, None)
  end.

(** The statements from the construction of [turn] to the end of the
    [try] block, for a response the backend returned. *)
Definition act (currentInput : option PendingInput) (response : InferenceResponse)
    (s : LoopState) : LoopState * Outcome :=
  let '(id, env1) := ulid (ls_env s) in
  let '(stamp, env2) := isoNow env1 in
  let s1 := with_env s env2 in
  let turn0 :=
    {| turn_id := id;
       turn_timestamp := stamp;
       turn_state := Db.getAgentState (ls_db s1);
       turn_input := option_map pi_content currentInput;
       turn_inputSource := option_map pi_source currentInput;
       turn_thinking := content (resp_message response);
       turn_toolCalls := [];
       turn_tokenUsage := resp_usage response;
       turn_costCents :=
         estimateCostCents (resp_usage response) (getDefaultModel (ls_inference s1)) |} in
  let '(st, thrown) := toolPhase response s1 in
  let s2 := with_toolLoop s1 st in
  match thrown with
  | Some e => (catchError s2, Failed e)
  | None =>
      let turn :=
        {| turn_id := turn_id turn0;
           turn_timestamp := turn_timestamp turn0;
           turn_state := turn_state turn0;
           turn_input := turn_input turn0;
           turn_inputSource := turn_inputSource turn0;
           turn_thinking := turn_thinking turn0;
           turn_toolCalls := tl_toolCalls st;
           turn_tokenUsage := turn_tokenUsage turn0;
           turn_costCents := turn_costCents turn0 |} in
      let s3 := with_db s2 (persistTurn turn (ls_db s2)) in
      let s4 := trackEconomics turn response s3 in
      let s5 := with_turnsThisWake s4 (S (turnsThisWake s4)) in
      let '(s6, v) := conclude turn response s5 in
      (s6, Turn turn response v)
  end.

(** The body of [while (running)]. *)
Definition iteration (s : LoopState) : LoopState * Outcome :=
  let '(pending, s0) := sleepPending s in
  if pending then (with_running s0 false, StillSleeping)
  else
    let s1 := refreshFinancial (pullInbox s0) in
    let '(tier, s2) := surveyTier s1 in
    match tier with
    | dead => (with_running (setState as_dead s2) false, Died)
    | _ =>
        let s3 := enterTier tier s2 in
        let messages :=
          buildContext config (ls_financial s3) (ls_db s3) isFirstRun
            (ls_pendingInput s3) in
        let currentInput := ls_pendingInput s3 in
        let s4 := with_pendingInput s3 None in
        match inference_chat (ls_inference s4) messages (ls_env s4) with
        | (Threw e, env') => (catchError (with_env s4 env'), Failed e)
        | (Returned response, env') => act currentInput response (with_env s4 env')
        end
    end.


(** [while (running) { ... }], for at most [fuel] iterations, with the
    outcome of each. *)
Fixpoint run (fuel : nat) (s : LoopState) : LoopState * list Outcome :=
  match fuel with
  | O => (s, [])
  | S fuel' =>
      if running s then
        let '(s1, o) := iteration s in
        let '(s2, os) := run fuel' s1 in
        (s2, o :: os)
      else (s, [])
  end.

End Session.

(** No wake session runs more iterations than this. *)
Definition ENOUGH_FUEL : nat := 5 * MAX_TURNS_PER_WAKE + 5.

(** The iterations a session can still run. *)
Definition budget (s : LoopState) : nat :=
  if running s then
    S (MAX_CONSECUTIVE_ERRORS * (MAX_TURNS_PER_WAKE - turnsThisWake s)
       + (MAX_CONSECUTIVE_ERRORS - 1 - consecutiveErrors s))
  else 0.

(** The turn counter is within the cap, a loop that runs on is below it,
    and a session at the cap is asleep. *)
Definition within_cap (s : LoopState) : Prop :=
  turnsThisWake s <= MAX_TURNS_PER_WAKE /\
  (running s = true -> turnsThisWake s < MAX_TURNS_PER_WAKE) /\
  (turnsThisWake s = MAX_TURNS_PER_WAKE ->
   running s = false /\ db_agentState (ls_db s) = as_sleeping).

(** The state in which the main loop starts: after the wake-up and the
    bootstrap phase. *)
Definition bootstrapped (config : AutomatonConfig) (inference : InferenceClient)
    (db : AutomatonDatabase) (env : Env) : LoopState :=
  bootstrap (snd (wakeUp config inference db env))
    (fst (fst (wakeUp config inference db env))).

(** [runAgentLoop(options)]: the last state and the outcome of every
    iteration of the main loop. *)
Definition runAgentLoop (config : AutomatonConfig) (inference : InferenceClient)
    (db : AutomatonDatabase) (env : Env) : LoopState * list Outcome :=
  let '(s0, isFirstRun, wakeupInput) := wakeUp config inference db env in
  run config isFirstRun ENOUGH_FUEL (bootstrap wakeupInput s0).

End WithCollaborators.
End Loop.

(** ** The Anthropic translation of the inference client *)

Module Anthropic.

(** A content block of the Anthropic message protocol. *)
Inductive ContentBlock : Type :=
| TextBlock (text : string)
| ToolUseBlock (id name : string) (input : json)
| ToolResultBlock (tool_use_id content : string).

(** The [content] of a message on the wire: a string or a block array. *)
Inductive WireContent : Type :=
| Plain (text : string)
| Blocks (blocks : list ContentBlock).

Record WireMessage : Type := {
  wm_role : Role;
  wm_content : WireContent;
}.

(** The result of [transformMessagesForAnthropic]. *)
Record Transformed : Type := {
  tr_system : option string;
  tr_messages : list WireMessage;
}.

(** The fields of the response body that [chatViaAnthropic] reads. *)
Record ResponseData : Type := {
  data_id : string;
  data_model : string;
  data_content : list ContentBlock;
  data_stop_reason : option string;
  data_input_tokens : Q;
  data_output_tokens : Q;
}.

Section Translation.

Context `{Builtins}.

Definition parseToolArguments (raw : string) : json :=
  match JSON_parse raw with
  | Some (JObj fields) => JObj fields
  | Some parsed => JObj [("value", parsed)]
  | None => JObj [("_raw", JStr raw)]
  end.

(** The blocks of an assistant message. *)
Definition assistantBlocks (msg : ChatMessage) : list ContentBlock :=
  let text := if String.eqb (content msg) "" then [] else [TextBlock (content msg)] in
  let uses :=
    List.map (fun toolCall =>
                ToolUseBlock (tc_id toolCall) (tc_name toolCall)
                  (parseToolArguments (tc_arguments toolCall)))
      (match tool_calls msg with Some l => l | None => [] end) in
  match text ++ uses with
  | [] => [TextBlock ""]
  | blocks => blocks
  end.

(** The body of [for (const msg of messages)] on the pair
    [(systemParts, transformed)]. *)
Definition transformMessage (acc : list string * list WireMessage) (msg : ChatMessage)
    : list string * list WireMessage :=
  let '(systemParts, transformed) := acc in
  match role msg with
  | system =>
      (if String.eqb (content msg) "" then systemParts
       else systemParts ++ [content msg], transformed)
  | user =>
      (systemParts,
       transformed ++ [{| wm_role := user; wm_content := Plain (content msg) |}])
  | assistant =>
      (systemParts,
       transformed ++ [{| wm_role := assistant;
                          wm_content := Blocks (assistantBlocks msg) |}])
  | tool =>
      (systemParts,
       transformed ++
         [{| wm_role := user;
             wm_content :=
               Blocks [ToolResultBlock (or_default (tool_call_id msg) "unknown_tool_call")
                         (content msg)] |}])
  end.

Definition transformMessagesForAnthropic (messages : list ChatMessage) : Transformed :=
  let '(systemParts, transformed) := fold_left transformMessage messages ([], []) in
  {| tr_system := match systemParts with
                  | [] => None
                  | _ => Some (String.concat (Js.nl +:+ Js.nl) systemParts)
                  end;
     tr_messages := transformed |}.

Definition normalizeAnthropicFinishReason (reason : option string) : string :=
  match reason with
  | None => "stop"
  | Some r => if String.eqb r "tool_use" then "tool_calls" else r
  end.

(** The normalized tool call of one [tool_use] block of a response. *)
Definition toolCallOfBlock (b : ContentBlock) : option InferenceToolCall :=
  match b with
  | ToolUseBlock id name input =>
      Some {| tc_id := id;
              tc_name := name;
              tc_arguments :=
                JSON_stringify (if Js.truthy input then input else JObj []) |}
  | _ => None
  end.

(** [toolCalls] of [chatViaAnthropic]: [undefined] when the response has
    no [tool_use] block. *)
Definition normalizeToolCalls (content : list ContentBlock)
    : option (list InferenceToolCall) :=
  match omap toolCallOfBlock content with
  | [] => None
  | calls => Some calls
  end.

(** [textContent] of [chatViaAnthropic]. *)
Definition textContentOf (content : list ContentBlock) : string :=
  Js.trim
    (String.concat Js.nl
       (omap (fun b => match b with TextBlock t => Some t | _ => None end) content)).

(** The part of [chatViaAnthropic] that follows [resp.json()]. *)
Definition normalizeResponse (model : string) (data : ResponseData)
    : Completion InferenceResponse :=
  let toolCalls := normalizeToolCalls (data_content data) in
  let textContent := textContentOf (data_content data) in
  if (String.eqb textContent "" && bool_decide (toolCalls = None))%bool
  then Threw "No completion content returned from anthropic inference"
  else
    Returned
      {| resp_id := data_id data;
         resp_model := Js.or_str (data_model data) model;
         resp_message := {| role := assistant;
                            content := textContent;
                            name := None;
                            tool_calls := toolCalls;
                            tool_call_id := None |};
         resp_toolCalls := toolCalls;
         resp_usage := {| promptTokens := data_input_tokens data;
                          completionTokens := data_output_tokens data;
                          totalTokens := (data_input_tokens data
                                          + data_output_tokens data)%Q |};
         resp_finishReason := normalizeAnthropicFinishReason (data_stop_reason data);
         resp_costCents := None |}.

(** The wire messages that one message becomes. *)
Definition wireOf (msg : ChatMessage) : list WireMessage :=
  match role msg with
  | system => []
  | user => [{| wm_role := user; wm_content := Plain (content msg) |}]
  | assistant => [{| wm_role := assistant; wm_content := Blocks (assistantBlocks msg) |}]
  | tool =>
      [{| wm_role := user;
          wm_content :=
            Blocks [ToolResultBlock (or_default (tool_call_id msg) "unknown_tool_call")
                      (content msg)] |}]
  end.


End Translation.
End Anthropic.

(** ** The inference client: backends and requests *)

Module Inference.

(** [InferenceBackend]. *)
Inductive InferenceBackend : Type := conway | openai | anthropic.

(** The fields of [InferenceClientOptions] that say where requests go. *)
Record Endpoints : Type := {
  apiUrl : string;
  apiKey : string;
  openaiApiKey : option string;
  anthropicApiKey : option string;
}.

(** [InferenceToolDefinition]:
    [{ type: "function", function: { name, description, parameters } }]. *)
Record InferenceToolDefinition : Type := {
  fn_name : string;
  fn_description : string;
  fn_parameters : json;
}.

(** [InferenceOptions]. *)
Record InferenceOptions : Type := {
  io_model : option string;
  io_maxTokens : option Q;
  io_temperature : option Q;
  io_tools : option (list InferenceToolDefinition);
}.

(** What the flag [i] of a regular expression compares on ASCII: a capital
    letter counts as its small letter. *)
Definition fold_case (c : ascii) : ascii :=
  let n := nat_of_ascii c in
  if (Nat.leb 65 n && Nat.leb n 90)%bool then ascii_of_nat (n + 32) else c.

(** [/^p/i.test(s)] for a pattern [p] of small letters. *)
Fixpoint starts_i (p s : string) : bool :=
  match p, s with
  | EmptyString, _ => true
  | String a p', String b s' => (Ascii.eqb a (fold_case b) && starts_i p' s')%bool
  | String _ _, EmptyString => false
  end.

(** The class [[1-9]]. *)
Definition is_1_to_9 (c : ascii) : bool :=
  let n := nat_of_ascii c in (Nat.leb 49 n && Nat.leb n 57)%bool.

(** [/^o[1-9]/.test(s)] and [/^o[1-9]/i.test(s)]. *)
Definition o_series (s : string) : bool :=
  match s with
  | String a (String b _) => (Ascii.eqb a "o" && is_1_to_9 b)%bool
  | _ => false
  end.

Definition o_series_i (s : string) : bool :=
  match s with
  | String a (String b _) => (Ascii.eqb (fold_case a) "o" && is_1_to_9 b)%bool
  | _ => false
  end.

(** [/^claude/i.test(model)]. *)
Definition isClaudeModel (model : string) : bool := starts_i "claude" model.

(** [/^(gpt|o[1-9]|chatgpt)/i.test(model)]. *)
Definition isOpenAiModel (model : string) : bool :=
  (starts_i "gpt" model || o_series_i model || starts_i "chatgpt" model)%bool.

(** [/^(o[1-9]|gpt-5|gpt-4\.1)/.test(model)]. *)
Definition usesCompletionTokens (model : string) : bool :=
  (o_series model || String.prefix "gpt-5" model || String.prefix "gpt-4.1" model)%bool.

(** Truthiness of an optional string. *)
Definition given (x : option string) : bool := negb (String.eqb (or_default x "") "").

Definition resolveInferenceBackend (model : string)
    (openaiApiKey anthropicApiKey : option string) : InferenceBackend :=
  if (given anthropicApiKey && isClaudeModel model)%bool then anthropic
  else if (given openaiApiKey && isOpenAiModel model)%bool then openai
  else conway.

(** The object that [formatMessage] builds: a key that was not assigned is
    [None]. *)
Record FormattedMessage : Type := {
  fm_role : Role;
  fm_content : string;
  fm_name : option string;
  fm_tool_calls : option (list InferenceToolCall);
  fm_tool_call_id : option string;
}.

(** An optional string, kept when it is truthy. *)
Definition kept (x : option string) : option string :=
  if given x then x else None.

Definition formatMessage (msg : ChatMessage) : FormattedMessage :=
  {| fm_role := role msg;
     fm_content := content msg;
     fm_name := kept (name msg);
     fm_tool_calls := tool_calls msg;
     fm_tool_call_id := kept (tool_call_id msg) |}.

(** The request body that [chat] builds. *)
Record Body : Type := {
  body_model : string;
  body_messages : list FormattedMessage;
  body_stream : bool;
  body_max_tokens : option Q;
  body_max_completion_tokens : option Q;
  body_temperature : option Q;
  body_tools : option (list InferenceToolDefinition);
  body_tool_choice : option string;
}.

(** The parameter objects of [chatViaAnthropic] and
    [chatViaOpenAiCompatible]. *)
Record AnthropicParams : Type := {
  ap_model : string;
  ap_tokenLimit : Q;
  ap_messages : list ChatMessage;
  ap_tools : option (list InferenceToolDefinition);
  ap_temperature : option Q;
  ap_anthropicApiKey : string;
}.

Record OpenAiParams : Type := {
  op_model : string;
  op_body : Body;
  op_apiUrl : string;
  op_apiKey : string;
  op_backend : InferenceBackend;
}.

(** The call in which [chat] ends. *)
Inductive Dispatch : Type :=
| ViaAnthropic (params : AnthropicParams)
| ViaMoatGateway (moatGatewayUrl : string) (body : Body)
| ViaOpenAiCompatible (params : OpenAiParams).

(** [opts?.maxTokens || maxTokens]. *)
Definition tokenLimitOf (c : InferenceClient) (opts : option InferenceOptions) : Q :=
  match opts with
  | Some o =>
      match io_maxTokens o with
      | Some q => if Qeq_bool q 0 then maxTokens c else q
      | None => maxTokens c
      end
  | None => maxTokens c
  end.

(** [opts?.model || currentModel]. *)
Definition modelOf (c : InferenceClient) (opts : option InferenceOptions) : string :=
  or_default (match opts with Some o => io_model o | None => None end) (currentModel c).

(** The body of [chat] up to its dispatch; [MOAT_GATEWAY_URL] is the value
    of [process.env.MOAT_GATEWAY_URL]. *)
Definition chat (e : Endpoints) (c : InferenceClient) (MOAT_GATEWAY_URL : option string)
    (messages : list ChatMessage) (opts : option InferenceOptions) : Dispatch :=
  let model := modelOf c opts in
  let tools := match opts with Some o => io_tools o | None => None end in
  let temperature := match opts with Some o => io_temperature o | None => None end in
  let tokenLimit := tokenLimitOf c opts in
  let withTools := match tools with Some (_ :: _) => true | _ => false end in
  let body :=
    {| body_model := model;
       body_messages := List.map formatMessage messages;
       body_stream := false;
       body_max_tokens := if usesCompletionTokens model then None else Some tokenLimit;
       body_max_completion_tokens :=
         if usesCompletionTokens model then Some tokenLimit else None;
       body_temperature := temperature;
       body_tools := if withTools then tools else None;
       body_tool_choice := if withTools then Some "auto" else None |} in
  let backend := resolveInferenceBackend model (openaiApiKey e) (anthropicApiKey e) in
  match backend with
  | anthropic =>
      ViaAnthropic
        {| ap_model := model;
           ap_tokenLimit := tokenLimit;
           ap_messages := messages;
           ap_tools := tools;
           ap_temperature := temperature;
           ap_anthropicApiKey := or_default (anthropicApiKey e) "" |}
  | _ =>
      if (given MOAT_GATEWAY_URL
          && (match backend with openai => true | _ => false end
              || isOpenAiModel model))%bool
      then ViaMoatGateway (or_default MOAT_GATEWAY_URL "") body
      else
        ViaOpenAiCompatible
          {| op_model := model;
             op_body := body;
             op_apiUrl := match backend with
                          | openai => "https://api.openai.com"
                          | _ => apiUrl e
                          end;
             op_apiKey := match backend with
                          | openai => or_default (openaiApiKey e) ""
                          | _ => apiKey e
                          end;
             op_backend := backend |}
  end.

(** The body that a dispatch other than the Anthropic one carries. *)
Definition bodyOf (d : Dispatch) : option Body :=
  match d with
  | ViaAnthropic _ => None
  | ViaMoatGateway _ body => Some body
  | ViaOpenAiCompatible params => Some (op_body params)
  end.

(** A tool of the Anthropic request: [{ name, description, input_schema }]. *)
Record AnthropicTool : Type := {
  at_name : string;
  at_description : string;
  at_input_schema : json;
}.

(** The request body that [chatViaAnthropic] builds. *)
Record AnthropicBody : Type := {
  ab_model : string;
  ab_max_tokens : Q;
  ab_messages : list Anthropic.WireMessage;
  ab_system : option string;
  ab_temperature : option Q;
  ab_tools : option (list AnthropicTool);
  ab_tool_choice : option string;   (* the [type] of [tool_choice] *)
}.

(** What is serialized into the body of a request. *)
Inductive Payload : Type :=
| OpenAiPayload (body : Body)
| MoatPayload (tenant_id scope : string) (params : Body)
| AnthropicPayload (body : AnthropicBody).

(** The arguments of a call of [fetch]. *)
Record Request : Type := {
  req_url : string;
  req_method : string;
  req_headers : list (string * string);
  req_payload : Payload;
}.

Section Requests.

Context `{Builtins}.

(** The request of [chatViaOpenAiCompatible]. *)
Definition requestOpenAiCompatible (params : OpenAiParams) : Request :=
  {| req_url := op_apiUrl params +:+ "/v1/chat/completions";
     req_method := "POST";
     req_headers :=
       [ ("Content-Type", "application/json");
         ("Authorization",
          match op_backend params with
          | openai => "Bearer " +:+ op_apiKey params
          | _ => op_apiKey params
          end) ];
     req_payload := OpenAiPayload (op_body params) |}.

(** The request of [chatViaMoatGateway]; [MOAT_TENANT_ID] is the value of
    [process.env.MOAT_TENANT_ID]. *)
Definition requestMoatGateway (MOAT_TENANT_ID : option string)
    (moatGatewayUrl : string) (body : Body) : Request :=
  let tenantId := or_default MOAT_TENANT_ID "automaton" in
  {| req_url := moatGatewayUrl +:+ "/execute/openai.inference";
     req_method := "POST";
     req_headers :=
       [ ("Content-Type", "application/json"); ("X-Tenant-ID", tenantId) ];
     req_payload := MoatPayload tenantId "execute" body |}.

(** The request of [chatViaAnthropic]. *)
Definition requestAnthropic (params : AnthropicParams) : Request :=
  let transformed := Anthropic.transformMessagesForAnthropic (ap_messages params) in
  let withTools := match ap_tools params with Some (_ :: _) => true | _ => false end in
  {| req_url := "https://api.anthropic.com/v1/messages";
     req_method := "POST";
     req_headers :=
       [ ("Content-Type", "application/json");
         ("x-api-key", ap_anthropicApiKey params);
         ("anthropic-version", "2023-06-01") ];
     req_payload :=
       AnthropicPayload
         {| ab_model := ap_model params;
            ab_max_tokens := ap_tokenLimit params;
            ab_messages :=
              match Anthropic.tr_messages transformed with
              | [] => [{| Anthropic.wm_role := user;
                          Anthropic.wm_content := Anthropic.Plain "Continue." |}]
              | sent => sent
              end;
            ab_system := kept (Anthropic.tr_system transformed);
            ab_temperature := ap_temperature params;
            ab_tools :=
              if withTools then
                option_map
                  (List.map (fun t => {| at_name := fn_name t;
                                         at_description := fn_description t;
                                         at_input_schema := fn_parameters t |}))
                  (ap_tools params)
              else None;
            ab_tool_choice := if withTools then Some "auto" else None |} |}.

(** The request that one call of [chat] sends. *)
Definition requestOf (MOAT_TENANT_ID : option string) (d : Dispatch) : Request :=
  match d with
  | ViaAnthropic params => requestAnthropic params
  | ViaMoatGateway moatGatewayUrl body =>
      requestMoatGateway MOAT_TENANT_ID moatGatewayUrl body
  | ViaOpenAiCompatible params => requestOpenAiCompatible params
  end.

End Requests.

(** The price table of [estimateInferenceCost], in cents per million
    tokens. *)
Definition pricing : list (string * (Q * Q)) :=
  [ ("gpt-4o", (250, 1000)%Q);
    ("gpt-4o-mini", (15, 60)%Q);
    ("gpt-4.1", (200, 800)%Q);
    ("gpt-4.1-mini", (40, 160)%Q);
    ("gpt-4.1-nano", (10, 40)%Q);
    ("gpt-5.2", (200, 800)%Q);
    ("o1", (1500, 6000)%Q);
    ("o3-mini", (110, 440)%Q);
    ("o4-mini", (110, 440)%Q) ].

(** The property names that every object literal inherits from
    [Object.prototype]: [pricing[model]] is truthy for them, and has neither
    [input] nor [output]. *)
Definition inherited (key : string) : bool :=
  bool_decide
    (key ∈ [ "constructor"; "__defineGetter__"; "__defineSetter__"; "hasOwnProperty";
             "__lookupGetter__"; "__lookupSetter__"; "isPrototypeOf";
             "propertyIsEnumerable"; "toString"; "valueOf"; "__proto__";
             "toLocaleString" ]).

(** [estimateInferenceCost]; [None] is [NaN], the result for a model whose
    name is an inherited property. *)
Definition estimateInferenceCost (usage : TokenUsage) (model : string) : option Q :=
  if inherited model then None
  else
    let p := match Loop.price_of model pricing with
             | Some p => p
             | None => (250, 1000)%Q
             end in
    let inputCost := (promptTokens usage / 1000000 * fst p)%Q in
    let outputCost := (completionTokens usage / 1000000 * snd p)%Q in
    Some (Num.ceil (inputCost + outputCost)%Q).

End Inference.

(** ** A JSON codec

    An executable reading of [JSON.stringify] and [JSON.parse] on [json]
    values (numbers are integers), used to instantiate [Builtins]. *)

Module Json.

Definition dq : ascii := ascii_of_nat 34.   (* the double quote *)
Definition bs : ascii := ascii_of_nat 92.   (* the backslash *)

Definition hex_digit (n : nat) : ascii :=
  if Nat.ltb n 10 then ascii_of_nat (48 + n) else ascii_of_nat (87 + n).

Definition hex_value (c : ascii) : option nat :=
  let n := nat_of_ascii c in
  if (Nat.leb 48 n && Nat.leb n 57)%bool then Some (n - 48)
  else if (Nat.leb 97 n && Nat.leb n 102)%bool then Some (n - 87)
  else if (Nat.leb 65 n && Nat.leb n 70)%bool then Some (n - 55)
  else None.

(** The escape sequence of a character inside a string literal. *)
Definition escape_char (c : ascii) : string :=
  let n := nat_of_ascii c in
  if Nat.eqb n 34 then String bs (String dq EmptyString)
  else if Nat.eqb n 92 then String bs (String bs EmptyString)
  else if Nat.eqb n 8 then String bs "b"
  else if Nat.eqb n 9 then String bs "t"
  else if Nat.eqb n 10 then String bs "n"
  else if Nat.eqb n 12 then String bs "f"
  else if Nat.eqb n 13 then String bs "r"
  else if Nat.ltb n 32 then
    String bs (String "u" (String "0" (String "0"
      (String (hex_digit (n / 16)) (String (hex_digit (n mod 16)) EmptyString)))))
  else String c EmptyString.

Fixpoint escape (s : string) : string :=
  match s with
  | EmptyString => EmptyString
  | String c rest => escape_char c +:+ escape rest
  end.

Definition quote (s : string) : string :=
  String dq (escape s +:+ String dq EmptyString).

(** The decimal digit [d]. *)
Definition digit_char (d : N) : ascii := ascii_of_nat (48 + N.to_nat d).

(** The decimal digits of [n] in front of [acc]. *)
Fixpoint digits (fuel : nat) (n : N) (acc : string) : string :=
  match fuel with
  | O => acc
  | S fuel' =>
      let acc' := String (digit_char (n mod 10)) acc in
      if (n <? 10)%N then acc' else digits fuel' (n / 10)%N acc'
  end.

Definition print_N (n : N) : string := digits (S (N.to_nat (N.log2 n))) n EmptyString.

Definition print_Z (n : Z) : string :=
  match n with
  | Z0 => "0"
  | Zpos p => print_N (Npos p)
  | Zneg p => String "-" (print_N (Npos p))
  end.

(** The number of values in [v], itself included. *)
Fixpoint size (v : json) : nat :=
  match v with
  | JArr items => S (list_sum (List.map size items))
  | JObj fields => S (list_sum (List.map (fun kv => size (snd kv)) fields))
  | _ => 1
  end.

(** [JSON.stringify(v)]. *)
Fixpoint stringify (v : json) : string :=
  match v with
  | JNull => "null"
  | JBool true => "true"
  | JBool false => "false"
  | JNum n => print_Z n
  | JStr s => quote s
  | JArr items => "[" +:+ String.concat "," (List.map stringify items) +:+ "]"
  | JObj fields =>
      "{" +:+ String.concat ","
                (List.map (fun kv => quote (fst kv) +:+ ":" +:+ stringify (snd kv)) fields)
          +:+ "}"
  end.

Definition is_ws (c : ascii) : bool :=
  let n := nat_of_ascii c in
  (Nat.eqb n 32 || Nat.eqb n 9 || Nat.eqb n 10 || Nat.eqb n 13)%bool.

Fixpoint skip_ws (s : string) : string :=
  match s with
  | String c rest => if is_ws c then skip_ws rest else s
  | EmptyString => EmptyString
  end.

Fixpoint strip_prefix (p s : string) : option string :=
  match p, s with
  | EmptyString, _ => Some s
  | String a p', String b s' => if Ascii.eqb a b then strip_prefix p' s' else None
  | String _ _, EmptyString => None
  end.

Definition is_digit (c : ascii) : bool :=
  let n := nat_of_ascii c in (Nat.leb 48 n && Nat.leb n 57)%bool.

Fixpoint read_digits (s : string) (acc : N) : N * string :=
  match s with
  | String c rest =>
      if is_digit c
      then read_digits rest (acc * 10 + N.of_nat (nat_of_ascii c - 48))%N
      else (acc, s)
  | EmptyString => (acc, s)
  end.

(** An integer literal at the head of [s]. *)
Definition read_number (s : string) : option (Z * string) :=
  match s with
  | String c rest =>
      if Ascii.eqb c "-" then
        match rest with
        | String d _ =>
            if is_digit d
            then let '(n, rest') := read_digits rest 0%N in Some (- Z.of_N n, rest')%Z
            else None
        | EmptyString => None
        end
      else if is_digit c
      then let '(n, rest') := read_digits s 0%N in Some (Z.of_N n, rest')
      else None
  | EmptyString => None
  end.

(** The character an escape letter stands for. *)
Definition unescape (e : ascii) : option ascii :=
  let n := nat_of_ascii e in
  if Nat.eqb n 34 then Some dq
  else if Nat.eqb n 92 then Some bs
  else if Nat.eqb n 47 then Some "/"%char
  else if Nat.eqb n 98 then Some (ascii_of_nat 8)
  else if Nat.eqb n 116 then Some (ascii_of_nat 9)
  else if Nat.eqb n 110 then Some (ascii_of_nat 10)
  else if Nat.eqb n 102 then Some (ascii_of_nat 12)
  else if Nat.eqb n 114 then Some (ascii_of_nat 13)
  else None.

(** The character of [\uXXXX], when it is a single byte. *)
Definition hex4 (a b c d : ascii) : option ascii :=
  match hex_value a, hex_value b, hex_value c, hex_value d with
  | Some 0, Some 0, Some h, Some l => Some (ascii_of_nat (16 * h + l))
  | _, _, _, _ => None
  end.

(** The rest of a string literal after its opening quote. *)
Fixpoint read_string (s : string) : option (string * string) :=
  match s with
  | EmptyString => None
  | String c rest =>
      if Ascii.eqb c dq then Some (EmptyString, rest)
      else if Ascii.eqb c bs then
        match rest with
        | String e rest1 =>
            if Ascii.eqb e "u" then
              match rest1 with
              | String h1 (String h2 (String h3 (String h4 rest2))) =>
                  match hex4 h1 h2 h3 h4, read_string rest2 with
                  | Some ch, Some (t, rest') => Some (String ch t, rest')
                  | _, _ => None
                  end
              | _ => None
              end
            else
              match unescape e, read_string rest1 with
              | Some ch, Some (t, rest') => Some (String ch t, rest')
              | _, _ => None
              end
        | EmptyString => None
        end
      else if Nat.ltb (nat_of_ascii c) 32 then None
      else
        match read_string rest with
        | Some (t, rest') => Some (String c t, rest')
        | None => None
        end
  end.

(** A value at the head of [s], and after it the elements of an array and
    the members of an object. *)
Fixpoint parse_value (fuel : nat) (s : string) : option (json * string) :=
  match fuel with
  | O => None
  | S fuel' =>
      match skip_ws s with
      | EmptyString => None
      | String c rest =>
          if Ascii.eqb c "{" then
            match skip_ws rest with
            | String c' rest' =>
                if Ascii.eqb c' "}" then Some (JObj [], rest')
                else
                  match parse_members fuel' rest with
                  | Some (fields, rest'') => Some (JObj fields, rest'')
                  | None => None
                  end
            | EmptyString => None
            end
          else if Ascii.eqb c "[" then
            match skip_ws rest with
            | String c' rest' =>
                if Ascii.eqb c' "]" then Some (JArr [], rest')
                else
                  match parse_items fuel' rest with
                  | Some (items, rest'') => Some (JArr items, rest'')
                  | None => None
                  end
            | EmptyString => None
            end
          else if Ascii.eqb c dq then
            match read_string rest with
            | Some (t, rest') => Some (JStr t, rest')
            | None => None
            end
          else
            match strip_prefix "null" (String c rest),
                  strip_prefix "true" (String c rest),
                  strip_prefix "false" (String c rest) with
            | Some rest', _, _ => Some (JNull, rest')
            | _, Some rest', _ => Some (JBool true, rest')
            | _, _, Some rest' => Some (JBool false, rest')
            | None, None, None =>
                match read_number (String c rest) with
                | Some (n, rest') => Some (JNum n, rest')
                | None => None
                end
            end
      end
  end
with parse_items (fuel : nat) (s : string) : option (list json * string) :=
  match fuel with
  | O => None
  | S fuel' =>
      match parse_value fuel' s with
      | Some (v, rest) =>
          match skip_ws rest with
          | String c rest' =>
              if Ascii.eqb c "," then
                match parse_items fuel' rest' with
                | Some (vs, rest'') => Some (v :: vs, rest'')
                | None => None
                end
              else if Ascii.eqb c "]" then Some ([v], rest')
              else None
          | EmptyString => None
          end
      | None => None
      end
  end
with parse_members (fuel : nat) (s : string) : option (list (string * json) * string) :=
  match fuel with
  | O => None
  | S fuel' =>
      match skip_ws s with
      | String q rest =>
          if Ascii.eqb q dq then
            match read_string rest with
            | Some (k, rest1) =>
                match skip_ws rest1 with
                | String colon rest2 =>
                    if Ascii.eqb colon ":" then
                      match parse_value fuel' rest2 with
                      | Some (v, rest3) =>
                          match skip_ws rest3 with
                          | String c rest4 =>
                              if Ascii.eqb c "," then
                                match parse_members fuel' rest4 with
                                | Some (fields, rest5) => Some ((k, v) :: fields, rest5)
                                | None => None
                                end
                              else if Ascii.eqb c "}" then Some ([(k, v)], rest4)
                              else None
                          | EmptyString => None
                          end
                      | None => None
                      end
                    else None
                | EmptyString => None
                end
            | None => None
            end
          else None
      | EmptyString => None
      end
  end.

(** [JSON.parse(s)]; [None] when it throws. *)
Definition parse (s : string) : option json :=
  match parse_value (2 * String.length s + 2) s with
  | Some (v, rest) =>
      match skip_ws rest with
      | EmptyString => Some v
      | String _ _ => None
      end
  | None => None
  end.

(** The printed form of a member of an object. *)
Definition member (kv : string * json) : string :=
  quote (fst kv) +:+ ":" +:+ stringify (snd kv).

(** The string [rest] does not start with a decimal digit. *)
Definition no_digit (rest : string) : Prop :=
  match rest with
  | String c _ => is_digit c = false
  | EmptyString => True
  end.

(** The first character of a printed value is no white space and closes
    neither an array nor an object. *)
Definition head_ok (c : ascii) : Prop :=
  is_ws c = false /\ Ascii.eqb c "]" = false /\ Ascii.eqb c "}" = false.

(** A value parses back from its printed form, with enough fuel and in
    front of anything but a digit. *)
Definition parses_back (v : json) : Prop :=
  forall (fuel : nat) (rest : string),
    2 * size v <= fuel -> no_digit rest ->
    parse_value fuel (stringify v +:+ rest) = Some (v, rest).

End Json.

(** ** A concrete world

    One instance of [Builtins] and of [Collaborators], on which the
    definitions above run: counters and instants are decimal strings
    (an instant is its number of milliseconds), the backend replays a
    script of responses, and every tool but [fail] returns [ok]. *)

Module Fixture.

Definition number_of_string (s : string) : Q :=
  match Json.read_number s with
  | Some (n, _) => inject_Z n
  | None => 0
  end.

Definition string_of_number (q : Q) : string :=
  let r := Qred q in
  if Pos.eqb (Qden r) 1 then pretty (Qnum r)
  else pretty (Qnum r) +:+ "/" +:+ pretty (Zpos (Qden r)).

#[global] Instance builtins : Builtins :=
  {| Number := number_of_string;
     String_of_number := string_of_number;
     Date_getTime := fun s => match Json.read_number s with
                              | Some (n, _) => Some (inject_Z n)
                              | None => None
                              end;
     toISOString := string_of_number;
     JSON_stringify_snapshot := fun snapshot => string_of_number (balanceCents snapshot);
     JSON_parse := Json.parse;
     JSON_stringify := Json.stringify |}.

(** The environment: the clock, the id counter and the responses the
    backend has yet to give. *)
Record World : Type := {
  clock : Q;
  next_id : nat;
  script : list (Completion InferenceResponse);
}.

Definition tick (w : World) : Q * World :=
  (clock w, {| clock := (clock w + 1000)%Q; next_id := next_id w; script := script w |}).

Definition fresh (w : World) : string * World :=
  ("turn-" +:+ pretty (next_id w),
   {| clock := clock w; next_id := S (next_id w); script := script w |}).

Definition respond (w : World) : Completion InferenceResponse * World :=
  match script w with
  | [] => (Threw "backend unavailable", w)
  | r :: rest => (r, {| clock := clock w; next_id := next_id w; script := rest |})
  end.

Definition runTool (name : string) (args : json) (db : AutomatonDatabase) (w : World)
    : Completion ToolCallResult * AutomatonDatabase * World :=
  if String.eqb name "fail" then (Threw "tool crashed", db, w)
  else
    (Returned {| tcr_id := "";
                 tcr_name := name;
                 tcr_arguments := args;
                 tcr_result := "ok";
                 tcr_error := None;
                 tcr_durationMs := 1 |}, db, w).

#[global] Instance collaborators : Collaborators :=
  {| Env := World;
     executeTool := runTool;
     inference_chat := fun _ _ w => respond w;
     getCreditsBalance := fun w => (Returned 100000%Q, w);
     getUsdcBalance := fun w => (Returned 0%Q, w);
     Date_now := tick;
     ulid := fresh;
     getSurvivalTier := fun credits => if Num.gt credits 0 then normal else dead;
     buildWakeupPrompt := fun _ _ _ => "wake up";
     buildContext := fun _ _ _ _ _ => [];
     OPENAI_API_KEY := true |}.

Definition config : AutomatonConfig :=
  {| cfg_budgetCents := 2000; cfg_name := "automaton" |}.

Definition client : InferenceClient :=
  {| opt_defaultModel := "gpt-4o";
     opt_maxTokens := 8192;
     opt_lowComputeModel := None;
     currentModel := "gpt-4o";
     maxTokens := 8192 |}.

Definition emptyDb : AutomatonDatabase :=
  {| db_kv := ∅;
     db_agentState := as_sleeping;
     db_turns := [];
     db_toolCalls := [];
     db_snapshots := [];
     db_inbox := [];
     db_processed := ∅ |}.

Definition noUsage : TokenUsage :=
  {| promptTokens := 0; completionTokens := 0; totalTokens := 0 |}.

(** A response of the backend with the given tool calls and finish
    reason. *)
Definition reply (calls : option (list InferenceToolCall)) (finishReason : string)
    : Completion InferenceResponse :=
  Returned {| resp_id := "resp";
              resp_model := "gpt-4o";
              resp_message := {| role := assistant; content := "thinking";
                                 name := None; tool_calls := calls;
                                 tool_call_id := None |};
              resp_toolCalls := calls;
              resp_usage := noUsage;
              resp_finishReason := finishReason;
              resp_costCents := None |}.

(** A request of the backend for one call of tool [name]. *)
Definition call (id name arguments : string) : InferenceToolCall :=
  {| tc_id := id; tc_name := name; tc_arguments := arguments |}.

Definition world (responses : list (Completion InferenceResponse)) : World :=
  {| clock := 3600000; next_id := 0; script := responses |}.

(** The state in which the main loop of a wake session starts, in a world
    whose backend will give [responses]. *)
Definition start (responses : list (Completion InferenceResponse)) : Loop.LoopState :=
  let '(s0, _, wakeupInput) := Loop.wakeUp config client emptyDb (world responses) in
  Loop.bootstrap wakeupInput s0.


(** The store of the scenario of the specification: started at instant 0,
    500 cents spent, nothing earned. *)
Definition scenarioDb : AutomatonDatabase :=
  {| db_kv := {[ "start_time" := "0"; "total_spent_cents" := "500" ]};
     db_agentState := as_running;
     db_turns := [];
     db_toolCalls := [];
     db_snapshots := [];
     db_inbox := [];
     db_processed := ∅ |}.

(** Every clock reading of the scenario is five hours after the start, so
    the burn rate is 100 cents per hour. *)
Definition scenarioClock : Economics.SnapshotClock :=
  {| Economics.clk_burn := 18000000;
     Economics.clk_earn := 18000000;
     Economics.clk_uptime := 18000000;
     Economics.clk_stamp := 18000000 |}.

End Fixture.

(** ** The words of the specification *)

Module Spec.

(** The lower bound of a tier; [dead] has none. *)
Definition lower_bound (tiers : RunwayTiers) (t : SurvivalTier) : option Q :=
  match t with
  | normal => Some (rt_normal tiers)
  | low_compute => Some (rt_low_compute tiers)
  | critical => Some (rt_critical tiers)
  | dead => None
  end.

(** The runway exceeds the lower bound of the tier. *)
Definition exceeds (tiers : RunwayTiers) (r : Hours) (t : SurvivalTier) : Prop :=
  match lower_bound tiers t with
  | Some b => hours_gt r b = true
  | None => True
  end.

(** "Ties go to the higher (safer) tier": a runway equal to a boundary
    gets the tier above that boundary. *)
Definition ties_go_to_safer_tier (tiers : RunwayTiers) : Prop :=
  forall r : Q,
    (r == rt_normal tiers ->
     Economics.getRunwayTier tiers (Finite r) = normal)%Q /\
    (r == rt_low_compute tiers ->
     Economics.getRunwayTier tiers (Finite r) = low_compute)%Q /\
    (r == rt_critical tiers ->
     Economics.getRunwayTier tiers (Finite r) = critical)%Q.

(** The boundaries are in the order of the tiers. *)
Definition ordered (tiers : RunwayTiers) : Prop :=
  (rt_critical tiers < rt_low_compute tiers)%Q /\
  (rt_low_compute tiers < rt_normal tiers)%Q.

(** The number of calls of tool [name] that ran to their end. *)
Definition executions (name : string) (h : list Loop.ToolEvent) : nat :=
  length (List.filter
            (fun e => (String.eqb (Loop.ev_name e) name && Loop.ev_returned e)%bool) h).

(** The number of calls of tool [name], whether they returned or threw. *)
Definition invocations (name : string) (h : list Loop.ToolEvent) : nat :=
  length (List.filter (fun e => String.eqb (Loop.ev_name e) name) h).

(** Every once-per-wake tool ran to its end at most once, and each one that
    did is in the set of the tools called this wake. *)
Definition once_only (called : gset string) (h : list Loop.ToolEvent) : Prop :=
  forall name : string,
    name ∈ Loop.ONCE_PER_WAKE_TOOLS ->
    executions name h <= 1 /\ (1 <= executions name h -> name ∈ called).

(** The number of tool calls in a history that returned; on the history of
    the bootstrap phase, the number of bootstrap steps that completed. *)
Definition completedSteps (h : list Loop.ToolEvent) : nat :=
  length (List.filter Loop.ev_returned h).

(** The tool calls the backend requested in a response. *)
Definition requested (response : InferenceResponse) : list InferenceToolCall :=
  match resp_toolCalls response with
  | Some calls => calls
  | None => []
  end.

(** The tool-call results a turn recorded. *)
Definition recorded (o : Loop.Outcome) : option (list ToolCallResult) :=
  match o with
  | Loop.Turn turn _ _ => Some (turn_toolCalls turn)
  | _ => None
  end.


(** The main-loop turns among the outcomes of a session. *)
Definition isTurn (o : Loop.Outcome) : bool :=
  match o with
  | Loop.Turn _ _ _ => true
  | _ => false
  end.

Definition mainLoopTurns (outcomes : list Loop.Outcome) : nat :=
  length (List.filter isTurn outcomes).

End Spec.

(** ** A second world: Conway credits, with the control plane down

    The collaborators of the concrete world, except that
    [OPENAI_API_KEY] is not set and both balance queries fail. *)

Module Offline.

Definition collaborators : Collaborators :=
  {| Env := Fixture.World;
     executeTool := Fixture.runTool;
     inference_chat := fun _ _ w => Fixture.respond w;
     getCreditsBalance := fun w => (Threw "Conway API error", w);
     getUsdcBalance := fun w => (Threw "RPC error", w);
     Date_now := Fixture.tick;
     ulid := Fixture.fresh;
     getSurvivalTier := fun credits => if Num.gt credits 0 then normal else dead;
     buildWakeupPrompt := fun _ _ _ => "wake up";
     buildContext := fun _ _ _ _ _ => [];
     OPENAI_API_KEY := false |}.

End Offline.

(** ** Measures on the history of a session *)

Module Trace.

(** The dedup key of a call of [exec] with a command, as the tool-call
    loop computes it from the name and the arguments of the call. *)
Definition commandOf (e : Loop.ToolEvent) : option string :=
  match Loop.execCommand (Loop.ev_name e) (Loop.ev_args e) with
  | Returned key => key
  | Threw _ => None
  end.

(** The number of calls of [exec] with the command [cmdKey] that ran to
    their end. *)
Definition runsOf (cmdKey : string) (h : list Loop.ToolEvent) : nat :=
  length (List.filter
            (fun e => (Loop.ev_returned e
                       && bool_decide (commandOf e = Some cmdKey))%bool) h).

(** No command ran to its end twice, and each one that did is in the set
    of the executed commands. *)
Definition deduplicated (done : gset string) (h : list Loop.ToolEvent) : Prop :=
  forall cmdKey : string,
    runsOf cmdKey h <= 1 /\ (1 <= runsOf cmdKey h -> cmdKey ∈ done).



Section Halting.

Context `{Builtins} `{Collaborators}.


End Halting.

End Trace.

(** * Properties *)

(** ** Numbers *)

Lemma gt_true (a b : Q) : Num.gt a b = true <-> (b < a)%Q.
Proof.
  unfold Num.gt. destruct (Qlt_le_dec b a) as [Hlt | Hle]; split; intros Hx;
    try reflexivity; try assumption; try discriminate.
  exfalso. exact (Qle_not_lt _ _ Hle Hx).
Qed.

Lemma gt_false (a b : Q) : Num.gt a b = false <-> (a <= b)%Q.
Proof.
  unfold Num.gt. destruct (Qlt_le_dec b a) as [Hlt | Hle]; split; intros Hx;
    try reflexivity; try assumption; try discriminate.
  exfalso. exact (Qle_not_lt _ _ Hx Hlt).
Qed.

Lemma le_true (a b : Q) : Num.le a b = true <-> (a <= b)%Q.
Proof. unfold Num.le. rewrite negb_true_iff. apply gt_false. Qed.

Lemma le_false (a b : Q) : Num.le a b = false <-> (b < a)%Q.
Proof. unfold Num.le. rewrite negb_false_iff. apply gt_true. Qed.

Lemma lt_true (a b : Q) : Num.lt a b = true <-> (a < b)%Q.
Proof. apply gt_true. Qed.

Lemma lt_false (a b : Q) : Num.lt a b = false <-> (b <= a)%Q.
Proof. apply gt_false. Qed.

Lemma gt_compat (a a' b b' : Q) : (a == a')%Q -> (b == b')%Q -> Num.gt a b = Num.gt a' b'.
Proof.
  intros Ha Hb. destruct (Num.gt a' b') eqn:E.
  - apply gt_true. apply gt_true in E. rewrite Ha, Hb. exact E.
  - apply gt_false. apply gt_false in E. rewrite Ha, Hb. exact E.
Qed.

Lemma max_zero_nonneg (a : Q) : (0 <= Num.max a 0)%Q.
Proof. unfold Num.max. apply Q.le_max_r. Qed.

(** ** The survival economics engine *)

Section EconomicsFacts.

Import Economics Spec.

Variable tiers : RunwayTiers.

Lemma getRunwayTier_normal r :
  getRunwayTier tiers r = normal <-> hours_gt r (rt_normal tiers) = true.
Proof.
  unfold getRunwayTier.
  destruct (hours_gt r (rt_normal tiers)); [tauto |].
  destruct (hours_gt r (rt_low_compute tiers)); [split; discriminate |].
  destruct (hours_gt r (rt_critical tiers)); split; discriminate.
Qed.

(** The tier is the first one, from the safest down, whose boundary the
    runway exceeds. *)
Lemma getRunwayTier_exceeds r : exceeds tiers r (getRunwayTier tiers r).
Proof.
  unfold getRunwayTier, exceeds.
  destruct (hours_gt r (rt_normal tiers)) eqn:E1; [exact E1 |].
  destruct (hours_gt r (rt_low_compute tiers)) eqn:E2; [exact E2 |].
  destruct (hours_gt r (rt_critical tiers)) eqn:E3; [exact E3 | exact I].
Qed.

Lemma getRunwayTier_highest r t :
  exceeds tiers r t -> (tier_rank t <= tier_rank (getRunwayTier tiers r))%nat.
Proof.
  unfold getRunwayTier, exceeds.
  destruct (hours_gt r (rt_normal tiers)) eqn:E1.
  { destruct t; simpl; lia. }
  destruct (hours_gt r (rt_low_compute tiers)) eqn:E2.
  { destruct t; simpl; intros Ht; try lia. congruence. }
  destruct (hours_gt r (rt_critical tiers)) eqn:E3.
  { destruct t; simpl; intros Ht; try lia; congruence. }
  destruct t; simpl; intros Ht; try lia; congruence.
Qed.

Lemma hours_gt_mono (r1 r2 b : Q) :
  (r1 <= r2)%Q -> hours_gt (Finite r1) b = true -> hours_gt (Finite r2) b = true.
Proof.
  simpl. intros Hle H1. apply gt_true. apply gt_true in H1.
  eapply Qlt_le_trans; eassumption.
Qed.

(** A longer runway never gets a less safe tier. *)
Lemma getRunwayTier_monotone (r1 r2 : Q) :
  (r1 <= r2)%Q ->
  (tier_rank (getRunwayTier tiers (Finite r1))
   <= tier_rank (getRunwayTier tiers (Finite r2)))%nat.
Proof.
  intros Hle. apply getRunwayTier_highest.
  pose proof (getRunwayTier_exceeds (Finite r1)) as Hex.
  unfold exceeds in *.
  destruct (lower_bound tiers (getRunwayTier tiers (Finite r1))); [| exact I].
  eapply hours_gt_mono; eassumption.
Qed.

Lemma getRunwayTier_at_normal (r : Q) :
  ordered tiers -> (r == rt_normal tiers)%Q ->
  getRunwayTier tiers (Finite r) = low_compute.
Proof.
  intros [Hc Hl] Hr. unfold getRunwayTier. simpl.
  assert (E1 : Num.gt r (rt_normal tiers) = false).
  { apply gt_false. rewrite Hr. apply Qle_refl. }
  assert (E2 : Num.gt r (rt_low_compute tiers) = true).
  { apply gt_true. rewrite Hr. exact Hl. }
  rewrite E1, E2. reflexivity.
Qed.

Lemma getRunwayTier_at_low_compute (r : Q) :
  ordered tiers -> (r == rt_low_compute tiers)%Q ->
  getRunwayTier tiers (Finite r) = critical.
Proof.
  intros [Hc Hl] Hr. unfold getRunwayTier. simpl.
  assert (E1 : Num.gt r (rt_normal tiers) = false).
  { apply gt_false. rewrite Hr. apply Qlt_le_weak. exact Hl. }
  assert (E2 : Num.gt r (rt_low_compute tiers) = false).
  { apply gt_false. rewrite Hr. apply Qle_refl. }
  assert (E3 : Num.gt r (rt_critical tiers) = true).
  { apply gt_true. rewrite Hr. exact Hc. }
  rewrite E1, E2, E3. reflexivity.
Qed.

Lemma getRunwayTier_at_critical (r : Q) :
  ordered tiers -> (r == rt_critical tiers)%Q ->
  getRunwayTier tiers (Finite r) = dead.
Proof.
  intros [Hc Hl] Hr. unfold getRunwayTier. simpl.
  assert (E1 : Num.gt r (rt_normal tiers) = false).
  { apply gt_false. rewrite Hr. apply Qlt_le_weak.
    eapply Qlt_trans; eassumption. }
  assert (E2 : Num.gt r (rt_low_compute tiers) = false).
  { apply gt_false. rewrite Hr. apply Qlt_le_weak. exact Hc. }
  assert (E3 : Num.gt r (rt_critical tiers) = false).
  { apply gt_false. rewrite Hr. apply Qle_refl. }
  rewrite E1, E2, E3. reflexivity.
Qed.

End EconomicsFacts.

(** C1, as the code has it.  For every runway value, finite or infinite,
    [getRunwayTier] returns the highest (safest) tier whose lower bound the
    runway strictly exceeds; and when the boundaries are in the order of the
    tiers, a runway exactly equal to a boundary gets the lower (less safe)
    of the two adjacent tiers: [low_compute] at the [normal] boundary,
    [critical] at the [low_compute] boundary and [dead] at the [critical]
    boundary. *)
Theorem C1_getRunwayTier_highest_exceeded_tier :
  forall (tiers : RunwayTiers) (r : Hours),
    Spec.exceeds tiers r (Economics.getRunwayTier tiers r) /\
    (forall t, Spec.exceeds tiers r t ->
               (tier_rank t <= tier_rank (Economics.getRunwayTier tiers r))%nat) /\
    (Spec.ordered tiers ->
     forall q : Q,
       (q == rt_normal tiers ->
        Economics.getRunwayTier tiers (Finite q) = low_compute)%Q /\
       (q == rt_low_compute tiers ->
        Economics.getRunwayTier tiers (Finite q) = critical)%Q /\
       (q == rt_critical tiers ->
        Economics.getRunwayTier tiers (Finite q) = dead)%Q).
Proof.
  intros tiers r. split; [apply getRunwayTier_exceeds |].
  split; [intros t; apply getRunwayTier_highest |].
  intros Hord q. split; [| split]; intros Hq.
  - apply getRunwayTier_at_normal; assumption.
  - apply getRunwayTier_at_low_compute; assumption.
  - apply getRunwayTier_at_critical; assumption.
Qed.

(** C1 at the boundaries of the specification: a runway of exactly 72 hours
    is [low_compute], of exactly 24 hours [critical], of exactly 4 hours
    [dead]. *)
Lemma C1_getRunwayTier_witness :
  Spec.ordered RUNWAY_TIERS /\
  Economics.getRunwayTier RUNWAY_TIERS (Finite 72) = low_compute /\
  Economics.getRunwayTier RUNWAY_TIERS (Finite 24) = critical /\
  Economics.getRunwayTier RUNWAY_TIERS (Finite 4) = dead.
Proof.
  assert (Hord : Spec.ordered RUNWAY_TIERS) by (split; reflexivity).
  split; [exact Hord |].
  pose proof (C1_getRunwayTier_highest_exceeded_tier RUNWAY_TIERS Infinity)
    as (_ & _ & Hties).
  split; [| split].
  - apply (Hties Hord 72%Q). reflexivity.
  - apply (Hties Hord 24%Q). reflexivity.
  - apply (Hties Hord 4%Q). reflexivity.
Defined.

(** C1 as the specification words it fails: with the boundaries 72, 24 and
    4 hours, a runway of exactly 72 hours is at the [normal] boundary and
    gets [low_compute], the less safe of the two adjacent tiers. *)
Lemma C1_tie_goes_to_lower_tier :
  (72 == rt_normal RUNWAY_TIERS)%Q /\
  Economics.getRunwayTier RUNWAY_TIERS (Finite 72) = low_compute /\
  (tier_rank low_compute < tier_rank normal)%nat /\
  ~ Spec.ties_go_to_safer_tier RUNWAY_TIERS.
Proof.
  split; [reflexivity |]. split; [reflexivity |]. split; [simpl; lia |].
  intros Hties. destruct (Hties 72%Q) as (Hn & _ & _).
  specialize (Hn (Qeq_refl _)). discriminate Hn.
Qed.

Section SnapshotFacts.

Context `{Builtins}.

Import Economics.

Lemma calculateRunway_positive (b r : Q) :
  (0 < r)%Q -> calculateRunway b r = Finite (b / r)%Q.
Proof.
  intros Hr. unfold calculateRunway.
  apply le_false in Hr. rewrite Hr. reflexivity.
Qed.


Lemma getRunwayTier_compat (tiers : RunwayTiers) (q q' : Q) :
  (q == q')%Q -> getRunwayTier tiers (Finite q) = getRunwayTier tiers (Finite q').
Proof.
  intros Hq. unfold getRunwayTier. simpl.
  rewrite (gt_compat q q' (rt_normal tiers) (rt_normal tiers) Hq (Qeq_refl _)).
  rewrite (gt_compat q q' (rt_low_compute tiers) (rt_low_compute tiers) Hq (Qeq_refl _)).
  rewrite (gt_compat q q' (rt_critical tiers) (rt_critical tiers) Hq (Qeq_refl _)).
  reflexivity.
Qed.

Lemma snapshot_balance (db : AutomatonDatabase) (config : AutomatonConfig)
    (clk : SnapshotClock) :
  let snap := getEconomicsSnapshot db config clk in
  (balanceCents snap
   == Qmax (budgetCents snap - totalSpentCents snap + totalEarnedCents snap) 0)%Q.
Proof. simpl. unfold Num.max. reflexivity. Qed.

Lemma snapshot_runway_burning (db : AutomatonDatabase) (config : AutomatonConfig)
    (clk : SnapshotClock) :
  let snap := getEconomicsSnapshot db config clk in
  (0 < burnRatePerHour snap)%Q ->
  (runwayHours snap == balanceCents snap / burnRatePerHour snap)%Q.
Proof.
  simpl. intros Hb. rewrite (calculateRunway_positive _ _ Hb). reflexivity.
Qed.



Lemma checkSpawnGate_fields (db : AutomatonDatabase) (config : AutomatonConfig)
    (n now : Q) :
  let g := checkSpawnGate db config n now in
  ownMonthlyCost g = (calculateBurnRate db now * 720)%Q /\
  childMonthlyCost g = (ownMonthlyCost g * 0.8)%Q /\
  spawnThreshold g = (ownMonthlyCost g + n * childMonthlyCost g)%Q /\
  sg_balanceCents g
  = Qmax (cfg_budgetCents config - getTotalSpent db + getTotalEarned db) 0.
Proof.
  unfold checkSpawnGate.
  destruct (Num.lt _ _); simpl; repeat split; reflexivity.
Qed.


End SnapshotFacts.



(** ** The agent loop: what each step leaves alone *)

Section LoopFrames.

Context `{Builtins} `{Collaborators}.

Import Loop.

Lemma control_inv (s s' : LoopState) :
  control s' = control s ->
  consecutiveErrors s' = consecutiveErrors s /\ running s' = running s /\
  turnsThisWake s' = turnsThisWake s /\ lastToolName s' = lastToolName s /\
  consecutiveSameTool s' = consecutiveSameTool s.
Proof. unfold control. intros Heq. inversion Heq. repeat split; assumption. Qed.

Lemma guards_inv (s s' : LoopState) :
  guards s' = guards s ->
  calledOnceTools s' = calledOnceTools s /\ executedCommands s' = executedCommands s /\
  history s' = history s.
Proof. unfold guards. intros Heq. inversion Heq. repeat split; assumption. Qed.

Lemma sleepPending_frame (s : LoopState) :
  control (snd (sleepPending s)) = control s /\ guards (snd (sleepPending s)) = guards s.
Proof. unfold sleepPending. repeat case_match; split; reflexivity. Qed.

Lemma pullInbox_frame (s : LoopState) :
  control (pullInbox s) = control s /\ guards (pullInbox s) = guards s.
Proof. unfold pullInbox. repeat case_match; split; reflexivity. Qed.

Lemma refreshFinancial_frame (s : LoopState) :
  control (refreshFinancial s) = control s /\ guards (refreshFinancial s) = guards s.
Proof. unfold refreshFinancial. repeat case_match; split; reflexivity. Qed.

Lemma surveyTier_frame (config : AutomatonConfig) (s : LoopState) :
  control (snd (surveyTier config s)) = control s /\
  guards (snd (surveyTier config s)) = guards s.
Proof. unfold surveyTier. repeat case_match; split; reflexivity. Qed.

Lemma enterTier_frame (tier : SurvivalTier) (s : LoopState) :
  control (enterTier tier s) = control s /\ guards (enterTier tier s) = guards s.
Proof. unfold enterTier. repeat case_match; split; reflexivity. Qed.

Lemma trackEconomics_frame (config : AutomatonConfig) (turn : AgentTurn)
    (response : InferenceResponse) (s : LoopState) :
  control (trackEconomics config turn response s) = control s /\
  guards (trackEconomics config turn response s) = guards s.
Proof. unfold trackEconomics. repeat case_match; split; reflexivity. Qed.

(** The four ways an iteration can go. *)
Lemma iteration_cases (config : AutomatonConfig) (isFirstRun : bool) (s : LoopState) :
  (exists s0, iteration config isFirstRun s = (with_running s0 false, StillSleeping)
              /\ control s0 = control s /\ guards s0 = guards s) \/
  (exists s2, iteration config isFirstRun s
              = (with_running (setState as_dead s2) false, Died)
              /\ control s2 = control s /\ guards s2 = guards s) \/
  (exists s4 e, iteration config isFirstRun s = (catchError s4, Failed e)
                /\ control s4 = control s /\ guards s4 = guards s) \/
  (exists s4 currentInput response,
      iteration config isFirstRun s = act config currentInput response s4
      /\ control s4 = control s /\ guards s4 = guards s).
Proof.
  destruct (sleepPending_frame s) as [Hc0 Hg0].
  destruct (pullInbox_frame (snd (sleepPending s))) as [Hc1 Hg1].
  destruct (refreshFinancial_frame (pullInbox (snd (sleepPending s)))) as [Hc2 Hg2].
  destruct (surveyTier_frame config (refreshFinancial (pullInbox (snd (sleepPending s)))))
    as [Hc3 Hg3].
  unfold iteration.
  destruct (sleepPending s) as [pending s0] eqn:Esleep. simpl in *.
  destruct pending.
  { left. exists s0. auto. }
  destruct (surveyTier config (refreshFinancial (pullInbox s0))) as [tier s2] eqn:Etier.
  simpl in *.
  assert (Hc2' : control s2 = control s) by (rewrite Hc3, Hc2, Hc1, Hc0; reflexivity).
  assert (Hg2' : guards s2 = guards s) by (rewrite Hg3, Hg2, Hg1, Hg0; reflexivity).
  assert (Hready :
    forall s3, control s3 = control s -> guards s3 = guards s ->
    let messages := buildContext config (ls_financial s3) (ls_db s3) isFirstRun
                      (ls_pendingInput s3) in
    let s4 := with_pendingInput s3 None in
    (exists s5 e,
        match inference_chat (ls_inference s4) messages (ls_env s4) with
        | (Threw e0, env') => (catchError (with_env s4 env'), Failed e0)
        | (Returned response, env') =>
            act config (ls_pendingInput s3) response (with_env s4 env')
        end = (catchError s5, Failed e)
        /\ control s5 = control s /\ guards s5 = guards s) \/
    (exists s5 currentInput response,
        match inference_chat (ls_inference s4) messages (ls_env s4) with
        | (Threw e0, env') => (catchError (with_env s4 env'), Failed e0)
        | (Returned response, env') =>
            act config (ls_pendingInput s3) response (with_env s4 env')
        end = act config currentInput response s5
        /\ control s5 = control s /\ guards s5 = guards s)).
  { intros s3 Hc3' Hg3' messages s4.
    destruct (inference_chat (ls_inference s4) messages (ls_env s4)) as [[response | e] env'].
    - right. exists (with_env s4 env'), (ls_pendingInput s3), response.
      split; [reflexivity |]. split; assumption.
    - left. exists (with_env s4 env'), e.
      split; [reflexivity |]. split; assumption. }
  destruct (enterTier_frame tier s2) as [Hc4 Hg4].
  destruct tier.
  - right. right. apply Hready; [rewrite Hc4 | rewrite Hg4]; assumption.
  - right. right. apply Hready; [rewrite Hc4 | rewrite Hg4]; assumption.
  - right. right. apply Hready; [rewrite Hc4 | rewrite Hg4]; assumption.
  - right. left. exists s2. auto.
Qed.

(** What [act] does around the tool-call loop and the final checks. *)
Lemma act_cases (config : AutomatonConfig) (currentInput : option PendingInput)
    (response : InferenceResponse) (s : LoopState) :
  exists s1,
    control s1 = control s /\ guards s1 = guards s /\
    ((exists st e,
         toolPhase response s1 = (st, Some e) /\
         act config currentInput response s
         = (catchError (with_toolLoop s1 st), Failed e)) \/
     (exists st turn s5,
         toolPhase response s1 = (st, None) /\
         turn_toolCalls turn = tl_toolCalls st /\
         act config currentInput response s
         = (fst (conclude turn response s5),
            Turn turn response (snd (conclude turn response s5))) /\
         control s5 = (consecutiveErrors s, running s, S (turnsThisWake s),
                       lastToolName s, consecutiveSameTool s) /\
         guards s5 = (tl_calledOnceTools st, tl_executedCommands st, tl_history st))).
Proof.
  unfold act.
  destruct (ulid (ls_env s)) as [id env1].
  destruct (isoNow env1) as [stamp env2].
  exists (with_env s env2).
  split; [reflexivity |]. split; [reflexivity |].
  destruct (toolPhase response (with_env s env2)) as [st [e |]].
  - left. exists st, e. split; reflexivity.
  - right.
    match goal with
    | |- context [conclude ?t response ?s5] => exists st, t, s5
    end.
    split; [reflexivity |]. split; [reflexivity |].
    split.
    + match goal with
      | |- context [conclude ?t response ?s5] =>
          destruct (conclude t response s5); reflexivity
      end.
    + match goal with
      | |- context [trackEconomics config ?t response ?s3] =>
          destruct (trackEconomics_frame config t response s3) as [Hc Hg];
          remember (trackEconomics config t response s3) as s4 eqn:Es4
      end.
      clear Es4. apply control_inv in Hc. apply guards_inv in Hg.
      destruct Hc as (Hc1 & Hc2 & Hc3 & Hc4 & Hc5).
      destruct Hg as (Hg1 & Hg2 & Hg3).
      unfold control, guards. simpl in *.
      rewrite Hc1, Hc2, Hc3, Hc4, Hc5, Hg1, Hg2, Hg3. split; reflexivity.
Qed.

(** *** The final checks of a turn *)

(** One goal for each of the five ways [conclude] can end. *)
Ltac conclude_cases :=
  unfold conclude;
  destruct (Nat.leb 3 _) eqn:Estuck;
    [| destruct (choseSleep _) eqn:Esleep;
       [| destruct (Nat.leb MAX_TURNS_PER_WAKE _) eqn:Ecap;
          [| destruct (isIdle _) eqn:Eidle ] ] ].

Lemma conclude_stuck (turn : AgentTurn) (response : InferenceResponse) (s : LoopState) :
  (lastToolName (fst (conclude turn response s)),
   consecutiveSameTool (fst (conclude turn response s)))
  = detectStuck (turn_toolCalls turn) (lastToolName s) (consecutiveSameTool s).
Proof.
  conclude_cases; simpl;
    destruct (detectStuck (turn_toolCalls turn) (lastToolName s) (consecutiveSameTool s));
    reflexivity.
Qed.

Lemma conclude_frame (turn : AgentTurn) (response : InferenceResponse) (s : LoopState) :
  turnsThisWake (fst (conclude turn response s)) = turnsThisWake s /\
  guards (fst (conclude turn response s)) = guards s.
Proof. conclude_cases; split; reflexivity. Qed.

Lemma conclude_running (turn : AgentTurn) (response : InferenceResponse) (s : LoopState) :
  running (fst (conclude turn response s))
  = match snd (conclude turn response s) with
    | Continue => running s
    | _ => false
    end.
Proof. conclude_cases; reflexivity. Qed.

Lemma conclude_errors (turn : AgentTurn) (response : InferenceResponse) (s : LoopState) :
  consecutiveErrors (fst (conclude turn response s))
  = match snd (conclude turn response s) with
    | Continue | HaltIdle => 0
    | _ => consecutiveErrors s
    end.
Proof. conclude_cases; reflexivity. Qed.

Lemma conclude_continue (turn : AgentTurn) (response : InferenceResponse) (s : LoopState) :
  snd (conclude turn response s) = Continue ->
  turnsThisWake s < MAX_TURNS_PER_WAKE /\
  snd (detectStuck (turn_toolCalls turn) (lastToolName s) (consecutiveSameTool s)) < 3.
Proof.
  conclude_cases; try discriminate. intros _.
  apply Nat.leb_gt in Estuck. apply Nat.leb_gt in Ecap.
  split; assumption.
Qed.


Lemma conclude_sleeping (turn : AgentTurn) (response : InferenceResponse)
    (s : LoopState) :
  snd (conclude turn response s) <> Continue ->
  running (fst (conclude turn response s)) = false /\
  db_agentState (ls_db (fst (conclude turn response s))) = as_sleeping.
Proof.
  conclude_cases; intros Hv; try (split; reflexivity).
  contradiction Hv. reflexivity.
Qed.

Lemma conclude_turn_cap (turn : AgentTurn) (response : InferenceResponse)
    (s : LoopState) :
  snd (conclude turn response s) = HaltTurnCap ->
  MAX_TURNS_PER_WAKE <= turnsThisWake s /\
  Db.getKV (ls_db (fst (conclude turn response s))) "sleep_until"
  = Some (toISOString (fst (Date_now (ls_env s)) + 600000)%Q).
Proof.
  conclude_cases; try discriminate. intros _.
  apply Nat.leb_le in Ecap. split; [exact Ecap |]. apply lookup_insert_eq.
Qed.

(** *** The [catch] branch *)

Lemma catchError_spec (s : LoopState) :
  consecutiveErrors (catchError s) = S (consecutiveErrors s) /\
  turnsThisWake (catchError s) = turnsThisWake s /\
  lastToolName (catchError s) = lastToolName s /\
  consecutiveSameTool (catchError s) = consecutiveSameTool s /\
  guards (catchError s) = guards s /\
  (MAX_CONSECUTIVE_ERRORS <= S (consecutiveErrors s) ->
   running (catchError s) = false /\
   db_agentState (ls_db (catchError s)) = as_sleeping /\
   Db.getKV (ls_db (catchError s)) "sleep_until"
   = Some (toISOString (fst (Date_now (ls_env s)) + 300000)%Q)) /\
  (S (consecutiveErrors s) < MAX_CONSECUTIVE_ERRORS ->
   running (catchError s) = running s).
Proof.
  unfold catchError.
  destruct (Nat.leb MAX_CONSECUTIVE_ERRORS _) eqn:E;
    cbn [consecutiveErrors with_consecutiveErrors] in E.
  - apply Nat.leb_le in E.
    do 5 (split; [reflexivity |]). split.
    + intros _. repeat split. apply lookup_insert_eq.
    + intros Hlt. lia.
  - apply Nat.leb_gt in E.
    do 5 (split; [reflexivity |]). split.
    + intros Hge. lia.
    + intros _. reflexivity.
Qed.

(** *** Iterations by outcome *)

(** An iteration that recorded a turn ran the tool-call loop to its end and
    then the final checks. *)
Lemma iteration_turn (config : AutomatonConfig) (isFirstRun : bool)
    (s s' : LoopState) (turn : AgentTurn) (response : InferenceResponse) (v : Verdict) :
  iteration config isFirstRun s = (s', Turn turn response v) ->
  exists s1 st s5,
    guards s1 = guards s /\
    toolPhase response s1 = (st, None) /\
    turn_toolCalls turn = tl_toolCalls st /\
    s' = fst (conclude turn response s5) /\
    v = snd (conclude turn response s5) /\
    control s5 = (consecutiveErrors s, running s, S (turnsThisWake s),
                  lastToolName s, consecutiveSameTool s) /\
    guards s5 = (tl_calledOnceTools st, tl_executedCommands st, tl_history st).
Proof.
  intros Hit.
  destruct (iteration_cases config isFirstRun s)
    as [(s0 & E & _) | [(s2 & E & _) | [(s4 & e & E & _) | (s4 & cur & r & E & Hc & Hg)]]];
    rewrite E in Hit; try discriminate.
  destruct (act_cases config cur r s4)
    as (s1 & Hc1 & Hg1 & [(st & e & _ & Eact) | (st & t & s5 & Etool & Hcalls & Eact & Hc5 & Hg5)]);
    rewrite Eact in Hit; try discriminate.
  injection Hit as Hs Ht Hr Hv. subst t r.
  exists s1, st, s5.
  apply control_inv in Hc. destruct Hc as (Hc_e & Hc_r & Hc_t & Hc_l & Hc_c).
  split; [rewrite Hg1; exact Hg |].
  split; [exact Etool |]. split; [exact Hcalls |].
  split; [symmetry; exact Hs |]. split; [symmetry; exact Hv |].
  split; [| exact Hg5].
  rewrite Hc5, Hc_e, Hc_r, Hc_t, Hc_l, Hc_c. reflexivity.
Qed.

(** An iteration that failed ran the [catch] branch on a state with the
    counters it started from. *)
Lemma iteration_failed (config : AutomatonConfig) (isFirstRun : bool)
    (s s' : LoopState) (e : string) :
  iteration config isFirstRun s = (s', Failed e) ->
  exists s4, s' = catchError s4 /\ control s4 = control s.
Proof.
  intros Hit.
  destruct (iteration_cases config isFirstRun s)
    as [(s0 & E & _) | [(s2 & E & _) | [(s4 & e' & E & Hc & _) | (s4 & cur & r & E & Hc & Hg)]]];
    rewrite E in Hit; try discriminate.
  - injection Hit as Hs _. exists s4. split; [symmetry; exact Hs | exact Hc].
  - destruct (act_cases config cur r s4)
      as (s1 & Hc1 & Hg1 & [(st & e' & _ & Eact) | (st & t & s5 & _ & _ & Eact & _)]);
      rewrite Eact in Hit; try discriminate.
    injection Hit as Hs _. exists (with_toolLoop s1 st).
    split; [symmetry; exact Hs |].
    transitivity (control s1); [reflexivity |]. rewrite Hc1. exact Hc.
Qed.

(** An iteration that recorded no turn and did not fail stopped the loop. *)
Lemma iteration_no_turn (config : AutomatonConfig) (isFirstRun : bool)
    (s s' : LoopState) (o : Outcome) :
  iteration config isFirstRun s = (s', o) ->
  o = StillSleeping \/ o = Died ->
  running s' = false /\ turnsThisWake s' = turnsThisWake s /\ guards s' = guards s.
Proof.
  intros Hit Ho.
  destruct (iteration_cases config isFirstRun s)
    as [(s0 & E & Hc & Hg) | [(s2 & E & Hc & Hg) | [(s4 & e & E & _) | (s4 & cur & r & E & _)]]];
    rewrite E in Hit.
  - injection Hit as Hs _. subst s'. apply control_inv in Hc.
    destruct Hc as (_ & _ & Ht & _). repeat split; [exact Ht | exact Hg].
  - injection Hit as Hs _. subst s'. apply control_inv in Hc.
    destruct Hc as (_ & _ & Ht & _). repeat split; [exact Ht | exact Hg].
  - injection Hit as _ Ho'. subst o. destruct Ho; discriminate.
  - destruct (act_cases config cur r s4)
      as (s1 & _ & _ & [(st & e' & _ & Eact) | (st & t & s5 & _ & _ & Eact & _)]);
      rewrite Eact in Hit; injection Hit as _ Ho'; subst o; destruct Ho; discriminate.
Qed.

End LoopFrames.

(** ** The repetition counter and the stuck-loop rule *)

Section Repetition.

Context `{Builtins} `{Collaborators}.

Import Loop.

Variable config : AutomatonConfig.
Variable isFirstRun : bool.

Lemma detectStuck_single (tc0 : ToolCallResult) (last : string) (count : nat) :
  fst (detectStuck [tc0] last count) = fingerprint tc0 /\
  (fingerprint tc0 = last -> snd (detectStuck [tc0] last count) = S count) /\
  (fingerprint tc0 <> last -> snd (detectStuck [tc0] last count) = 1).
Proof.
  unfold detectStuck.
  destruct (String.eqb (fingerprint tc0) last) eqn:E.
  - apply String.eqb_eq in E. simpl. repeat split; [symmetry; exact E | contradiction].
  - apply String.eqb_neq in E. simpl. repeat split. contradiction.
Qed.

(** The counters after a turn, from those before it. *)
Lemma turn_stuck_counters (s s' : LoopState) (turn : AgentTurn)
    (response : InferenceResponse) (v : Verdict) :
  iteration config isFirstRun s = (s', Turn turn response v) ->
  (lastToolName s', consecutiveSameTool s')
  = detectStuck (turn_toolCalls turn) (lastToolName s) (consecutiveSameTool s).
Proof.
  intros Hit.
  destruct (iteration_turn config isFirstRun s s' turn response v Hit)
    as (s1 & st & s5 & _ & _ & _ & Hs' & _ & Hc5 & _).
  inversion Hc5 as [[He Hr Ht Hl Hn]].
  subst s'. rewrite conclude_stuck, Hl, Hn. reflexivity.
Qed.

(** C2, as the code has it.  After a main-loop turn: a turn with more than
    one tool-call result resets the repetition counter to 0 (and forgets
    the stored fingerprint); a turn with no tool-call result leaves the
    counter and the stored fingerprint as they were; a turn with exactly one
    tool-call result stores its fingerprint and increments the counter when
    the fingerprint equals the stored one, and otherwise sets the counter
    to 1. *)
Theorem C2_repetition_counter_after_turn :
  forall (s s' : LoopState) (turn : AgentTurn) (response : InferenceResponse)
         (v : Verdict),
    iteration config isFirstRun s = (s', Turn turn response v) ->
    match turn_toolCalls turn with
    | [] =>
        consecutiveSameTool s' = consecutiveSameTool s /\
        lastToolName s' = lastToolName s
    | [tc0] =>
        lastToolName s' = fingerprint tc0 /\
        (fingerprint tc0 = lastToolName s ->
         consecutiveSameTool s' = S (consecutiveSameTool s)) /\
        (fingerprint tc0 <> lastToolName s -> consecutiveSameTool s' = 1)
    | _ :: _ :: _ =>
        consecutiveSameTool s' = 0 /\ lastToolName s' = ""
    end.
Proof.
  intros s s' turn response v Hit.
  pose proof (turn_stuck_counters s s' turn response v Hit) as Hstuck.
  destruct (turn_toolCalls turn) as [| tc0 [| tc1 rest]].
  - simpl in Hstuck. inversion Hstuck. split; reflexivity.
  - destruct (detectStuck_single tc0 (lastToolName s) (consecutiveSameTool s))
      as (Hfst & Hsame & Hdiff).
    rewrite <- Hstuck in Hfst, Hsame, Hdiff. simpl in Hfst, Hsame, Hdiff.
    split; [exact Hfst |]. split; assumption.
  - simpl in Hstuck. inversion Hstuck. split; reflexivity.
Qed.









End Repetition.

(** The first turn of a session whose backend asks for one call of
    [read_file]: the fingerprint [read_file] is not the stored one, and the
    counter becomes 1. *)
Lemma C2_repetition_counter_witness :
  Loop.consecutiveSameTool
    (fst (Loop.iteration Fixture.config true
            (Fixture.start
               [Fixture.reply (Some [Fixture.call "c1" "read_file" "{}"]) "tool_calls"])))
  = 1.
Proof.
  destruct (Loop.iteration Fixture.config true
              (Fixture.start
                 [Fixture.reply (Some [Fixture.call "c1" "read_file" "{}"]) "tool_calls"]))
    as [s' o] eqn:Hit.
  assert (Ho : o = snd (Loop.iteration Fixture.config true
                          (Fixture.start
                             [Fixture.reply (Some [Fixture.call "c1" "read_file" "{}"])
                                "tool_calls"])))
    by (rewrite Hit; reflexivity).
  vm_compute in Ho. subst o.
  pose proof (C2_repetition_counter_after_turn Fixture.config true _ _ _ _ _ Hit) as Hc.
  simpl in Hc. destruct Hc as (_ & _ & Hdiff).
  simpl. apply Hdiff. vm_compute. discriminate.
Defined.

(** C2 as the specification words it fails.  In a session whose backend
    first asks for one call of [read_file] and then answers without any
    tool call (finish reason [length]), the counter is 1 after the first
    turn, the second turn records no tool-call result, and the counter is
    still 1 after it, not 0. *)
Lemma C2_turn_without_tool_calls_keeps_counter :
  let s0 := Fixture.start
              [Fixture.reply (Some [Fixture.call "c1" "read_file" "{}"]) "tool_calls";
               Fixture.reply None "length"] in
  let r1 := Loop.iteration Fixture.config true s0 in
  let r2 := Loop.iteration Fixture.config true (fst r1) in
  Loop.consecutiveSameTool (fst r1) = 1 /\
  Spec.recorded (snd r2) = Some [] /\
  Loop.running (fst r2) = true /\
  Loop.consecutiveSameTool (fst r2) = 1 /\
  Loop.consecutiveSameTool (fst r2) <> 0.
Proof.
  vm_compute. repeat split; try reflexivity. discriminate.
Qed.



(** ** The tool calls of one turn *)

Section ToolCalls.

Context `{Builtins} `{Collaborators}.

Import Loop.

(** One pass through the body of the tool-call loop: without an exception
    it records exactly one result, for the call it was given, and counts
    it; with an exception it records and counts nothing. *)
Lemma admitToolCall_records (tc : InferenceToolCall) (st : ToolLoopState) :
  match snd (admitToolCall tc st) with
  | None =>
      tl_callCount (fst (admitToolCall tc st)) = S (tl_callCount st) /\
      exists r, tl_toolCalls (fst (admitToolCall tc st)) = tl_toolCalls st ++ [r]
                /\ tcr_id r = tc_id tc
  | Some _ =>
      tl_callCount (fst (admitToolCall tc st)) = tl_callCount st /\
      tl_toolCalls (fst (admitToolCall tc st)) = tl_toolCalls st
  end.
Proof.
  unfold admitToolCall.
  destruct (bool_decide (tc_name tc ∈ ONCE_PER_WAKE_TOOLS)
            && bool_decide (tc_name tc ∈ tl_calledOnceTools st))%bool.
  { simpl. split; [reflexivity |]. eexists. split; reflexivity. }
  destruct (execCommand (tc_name tc) (parseArgs tc)) as [[cmdKey |] | e].
  - destruct (bool_decide (cmdKey ∈ tl_executedCommands st)).
    { simpl. split; [reflexivity |]. eexists. split; reflexivity. }
    destruct (executeTool (tc_name tc) (parseArgs tc) (tl_db st) (tl_env st))
      as [[[result | e] db'] env']; simpl.
    + split; [reflexivity |]. eexists. split; reflexivity.
    + split; reflexivity.
  - destruct (executeTool (tc_name tc) (parseArgs tc) (tl_db st) (tl_env st))
      as [[[result | e] db'] env']; simpl.
    + split; [reflexivity |]. eexists. split; reflexivity.
    + split; reflexivity.
  - simpl. split; reflexivity.
Qed.

Lemma runToolCalls_cons (tc : InferenceToolCall) (rest : list InferenceToolCall)
    (st : ToolLoopState) :
  runToolCalls (tc :: rest) st
  = if Nat.leb MAX_TOOL_CALLS_PER_TURN (tl_callCount st) then (st, None)
    else match admitToolCall tc st with
         | (st', None) => runToolCalls rest st'
         | (st', Some e) => (st', Some e)
         end.
Proof. reflexivity. Qed.

(** The loop looks at no call beyond the slots that are left. *)
Lemma runToolCalls_take (calls : list InferenceToolCall) (st : ToolLoopState) :
  runToolCalls calls st
  = runToolCalls (take (MAX_TOOL_CALLS_PER_TURN - tl_callCount st) calls) st.
Proof.
  revert st. induction calls as [| tc rest IH]; intros st.
  - rewrite take_nil. reflexivity.
  - rewrite runToolCalls_cons.
    destruct (Nat.leb MAX_TOOL_CALLS_PER_TURN (tl_callCount st)) eqn:Ecap.
    + apply Nat.leb_le in Ecap.
      replace (MAX_TOOL_CALLS_PER_TURN - tl_callCount st) with 0 by lia.
      reflexivity.
    + pose proof Ecap as Hlt. apply Nat.leb_gt in Hlt.
      destruct (MAX_TOOL_CALLS_PER_TURN - tl_callCount st) as [| k] eqn:Ek; [lia |].
      change (take (S k) (tc :: rest)) with (tc :: take k rest).
      rewrite runToolCalls_cons, Ecap.
      pose proof (admitToolCall_records tc st) as Hrec.
      destruct (admitToolCall tc st) as [st' [e |]]; [reflexivity |].
      simpl in Hrec. destruct Hrec as (Hcount & _).
      rewrite IH. replace (MAX_TOOL_CALLS_PER_TURN - tl_callCount st') with k by lia.
      reflexivity.
Qed.

(** A loop that ran to its end recorded one result for each of the calls it
    had slots for, in their order. *)
Lemma runToolCalls_results (calls : list InferenceToolCall) (st st' : ToolLoopState) :
  runToolCalls calls st = (st', None) ->
  List.map tcr_id (tl_toolCalls st')
  = List.map tcr_id (tl_toolCalls st)
    ++ List.map tc_id (take (MAX_TOOL_CALLS_PER_TURN - tl_callCount st) calls).
Proof.
  revert st. induction calls as [| tc rest IH]; intros st Hrun.
  - simpl in Hrun. injection Hrun as Hst. subst st'.
    rewrite take_nil. simpl. rewrite app_nil_r. reflexivity.
  - rewrite runToolCalls_cons in Hrun.
    destruct (Nat.leb MAX_TOOL_CALLS_PER_TURN (tl_callCount st)) eqn:Ecap.
    + injection Hrun as Hst. subst st'. apply Nat.leb_le in Ecap.
      replace (MAX_TOOL_CALLS_PER_TURN - tl_callCount st) with 0 by lia.
      simpl. rewrite app_nil_r. reflexivity.
    + apply Nat.leb_gt in Ecap.
      destruct (MAX_TOOL_CALLS_PER_TURN - tl_callCount st) as [| k] eqn:Ek; [lia |].
      pose proof (admitToolCall_records tc st) as Hrec.
      destruct (admitToolCall tc st) as [st1 [e |]]; [discriminate |].
      simpl in Hrec. destruct Hrec as (Hcount & r & Hcalls & Hid).
      rewrite (IH st1 Hrun), Hcalls.
      replace (MAX_TOOL_CALLS_PER_TURN - tl_callCount st1) with k by lia.
      change (take (S k) (tc :: rest)) with (tc :: take k rest).
      rewrite map_app. simpl. rewrite Hid, <- app_assoc. reflexivity.
Qed.

Lemma toolPhase_requested (response : InferenceResponse) (s : LoopState) :
  toolPhase response s = runToolCalls (Spec.requested response) (toolLoopOf s).
Proof.
  unfold toolPhase, Spec.requested.
  destruct (resp_toolCalls response) as [[| tc rest] |]; reflexivity.
Qed.

(** A repeated call of a once-per-wake tool is answered without running
    the tool. *)
Lemma admitToolCall_blocked_once (tc : InferenceToolCall) (st : ToolLoopState) :
  tc_name tc ∈ ONCE_PER_WAKE_TOOLS ->
  tc_name tc ∈ tl_calledOnceTools st ->
  admitToolCall tc st = (pushBlocked st (blockedOnce tc (parseArgs tc)), None).
Proof.
  intros Honce Hcalled. unfold admitToolCall.
  rewrite (bool_decide_eq_true_2 _ Honce), (bool_decide_eq_true_2 _ Hcalled).
  reflexivity.
Qed.

(** A repeated [exec] command is answered without running the tool. *)
Lemma admitToolCall_blocked_exec (tc : InferenceToolCall) (st : ToolLoopState)
    (cmdKey : string) :
  tc_name tc ∉ ONCE_PER_WAKE_TOOLS ->
  execCommand (tc_name tc) (parseArgs tc) = Returned (Some cmdKey) ->
  cmdKey ∈ tl_executedCommands st ->
  admitToolCall tc st = (pushBlocked st (blockedExec tc (parseArgs tc) cmdKey), None).
Proof.
  intros Honce Hcmd Hdone. unfold admitToolCall.
  rewrite (bool_decide_eq_false_2 _ Honce), Hcmd, (bool_decide_eq_true_2 _ Hdone).
  reflexivity.
Qed.

(** C9.  In every turn the results recorded, executed or blocked, are one
    for each of the first 10 requested calls, in their order, so at most 10;
    the tool-call loop does the same on a list of calls and on its first 10
    (the calls after the tenth are never looked at); and a blocked call,
    of a once-per-wake tool or of a repeated [exec] command, takes one slot
    of the cap like an executed one. *)
Theorem C9_tool_call_cap :
  (forall (config : AutomatonConfig) (isFirstRun : bool) (s s' : LoopState)
          (turn : AgentTurn) (response : InferenceResponse) (v : Verdict),
      iteration config isFirstRun s = (s', Turn turn response v) ->
      List.map tcr_id (turn_toolCalls turn)
      = List.map tc_id (take 10 (Spec.requested response)) /\
      length (turn_toolCalls turn) = Nat.min 10 (length (Spec.requested response)) /\
      length (turn_toolCalls turn) <= 10) /\
  (forall (calls : list InferenceToolCall) (s : LoopState),
      runToolCalls calls (toolLoopOf s) = runToolCalls (take 10 calls) (toolLoopOf s)) /\
  (forall (tc : InferenceToolCall) (st : ToolLoopState),
      tc_name tc ∈ ONCE_PER_WAKE_TOOLS ->
      tc_name tc ∈ tl_calledOnceTools st ->
      admitToolCall tc st = (pushBlocked st (blockedOnce tc (parseArgs tc)), None) /\
      tl_callCount (pushBlocked st (blockedOnce tc (parseArgs tc)))
      = S (tl_callCount st)) /\
  (forall (tc : InferenceToolCall) (st : ToolLoopState) (cmdKey : string),
      tc_name tc ∉ ONCE_PER_WAKE_TOOLS ->
      execCommand (tc_name tc) (parseArgs tc) = Returned (Some cmdKey) ->
      cmdKey ∈ tl_executedCommands st ->
      admitToolCall tc st
      = (pushBlocked st (blockedExec tc (parseArgs tc) cmdKey), None) /\
      tl_callCount (pushBlocked st (blockedExec tc (parseArgs tc) cmdKey))
      = S (tl_callCount st)).
Proof.
  split; [| split; [| split]].
  - intros config isFirstRun s s' turn response v Hit.
    destruct (iteration_turn config isFirstRun s s' turn response v Hit)
      as (s1 & st & s5 & _ & Htool & Hcalls & _).
    rewrite toolPhase_requested in Htool.
    pose proof (runToolCalls_results _ _ _ Htool) as Hids.
    simpl in Hids. rewrite <- Hcalls in Hids.
    assert (Hlen : length (turn_toolCalls turn)
                   = Nat.min 10 (length (Spec.requested response))).
    { rewrite <- (length_map tcr_id), Hids, length_map, length_take. reflexivity. }
    split; [exact Hids |]. split; [exact Hlen |]. rewrite Hlen. apply Nat.le_min_l.
  - intros calls s. rewrite runToolCalls_take. reflexivity.
  - intros tc st Honce Hcalled.
    split; [apply admitToolCall_blocked_once; assumption | reflexivity].
  - intros tc st cmdKey Honce Hcmd Hdone.
    split; [apply admitToolCall_blocked_exec; assumption | reflexivity].
Qed.

End ToolCalls.

(** ** The once-per-wake guard *)

Section OncePerWake.

Context `{Builtins} `{Collaborators}.

Import Loop.

Lemma executions_app (name : string) (h : list ToolEvent) (e : ToolEvent) :
  Spec.executions name (h ++ [e])
  = Spec.executions name h
    + (if (String.eqb (ev_name e) name && ev_returned e)%bool then 1 else 0).
Proof.
  unfold Spec.executions. rewrite List.filter_app, length_app. simpl.
  destruct (String.eqb (ev_name e) name && ev_returned e)%bool; reflexivity.
Qed.

(** A call that threw leaves the invariant alone. *)
Lemma once_only_thrown (called : gset string) (h : list ToolEvent)
    (name : string) (args : json) :
  Spec.once_only called h ->
  Spec.once_only called
    (h ++ [{| ev_name := name; ev_args := args; ev_returned := false |}]).
Proof.
  intros Hinv n Hn. rewrite executions_app. simpl.
  rewrite andb_false_r, Nat.add_0_r. exact (Hinv n Hn).
Qed.

(** A call that returned keeps the invariant when the tool, if it is a
    once-per-wake tool, had not been called before and is marked now. *)
Lemma once_only_returned (called : gset string) (h : list ToolEvent)
    (name : string) (args : json) :
  Spec.once_only called h ->
  (name ∈ ONCE_PER_WAKE_TOOLS -> name ∉ called) ->
  Spec.once_only
    (if bool_decide (name ∈ ONCE_PER_WAKE_TOOLS) then {[ name ]} ∪ called else called)
    (h ++ [{| ev_name := name; ev_args := args; ev_returned := true |}]).
Proof.
  intros Hinv Hfresh n Hn. rewrite executions_app. simpl. rewrite andb_true_r.
  destruct (Hinv n Hn) as (Hle & Hmark).
  destruct (String.eqb name n) eqn:E.
  - apply String.eqb_eq in E. subst n.
    assert (Hzero : Spec.executions name h = 0).
    { destruct (Spec.executions name h) as [| k] eqn:Ek; [reflexivity |].
      exfalso. apply (Hfresh Hn). apply Hmark. lia. }
    rewrite Hzero. split; [simpl; lia |]. intros _.
    rewrite (bool_decide_eq_true_2 _ Hn).
    apply elem_of_union. left. apply elem_of_singleton. reflexivity.
  - rewrite Nat.add_0_r. split; [exact Hle |]. intros Hex.
    specialize (Hmark Hex).
    destruct (bool_decide (name ∈ ONCE_PER_WAKE_TOOLS)); [| exact Hmark].
    apply elem_of_union. right. exact Hmark.
Qed.

Lemma admitToolCall_once_only (tc : InferenceToolCall) (st : ToolLoopState) :
  Spec.once_only (tl_calledOnceTools st) (tl_history st) ->
  Spec.once_only (tl_calledOnceTools (fst (admitToolCall tc st)))
    (tl_history (fst (admitToolCall tc st))).
Proof.
  intros Hinv. unfold admitToolCall.
  destruct (bool_decide (tc_name tc ∈ ONCE_PER_WAKE_TOOLS)) eqn:Eonce;
    destruct (bool_decide (tc_name tc ∈ tl_calledOnceTools st)) eqn:Ecalled;
    simpl; try exact Hinv.
  all: assert (Hfresh : tc_name tc ∈ ONCE_PER_WAKE_TOOLS ->
                        tc_name tc ∉ tl_calledOnceTools st)
         by (intros Hin;
             first [ apply bool_decide_eq_false_1 in Ecalled; exact Ecalled
                   | apply bool_decide_eq_false_1 in Eonce; contradiction ]).
  all: destruct (execCommand (tc_name tc) (parseArgs tc)) as [[cmdKey |] | e];
    simpl; try exact Hinv.
  all: try (destruct (bool_decide (cmdKey ∈ tl_executedCommands st));
            simpl; try exact Hinv).
  all: destruct (executeTool (tc_name tc) (parseArgs tc) (tl_db st) (tl_env st))
         as [[[result | e] db'] env']; simpl.
  all: try (apply once_only_thrown; exact Hinv).
  all: pose proof (once_only_returned _ _ (tc_name tc) (parseArgs tc) Hinv Hfresh) as Hr;
    rewrite Eonce in Hr; exact Hr.
Qed.

Lemma runToolCalls_once_only (calls : list InferenceToolCall) (st : ToolLoopState) :
  Spec.once_only (tl_calledOnceTools st) (tl_history st) ->
  Spec.once_only (tl_calledOnceTools (fst (runToolCalls calls st)))
    (tl_history (fst (runToolCalls calls st))).
Proof.
  revert st. induction calls as [| tc rest IH]; intros st Hinv; [exact Hinv |].
  rewrite runToolCalls_cons.
  destruct (Nat.leb MAX_TOOL_CALLS_PER_TURN (tl_callCount st)); [exact Hinv |].
  pose proof (admitToolCall_once_only tc st Hinv) as Hstep.
  destruct (admitToolCall tc st) as [st' [e |]]; simpl in Hstep; [exact Hstep |].
  apply IH. exact Hstep.
Qed.

Lemma once_only_guards (s s' : LoopState) :
  guards s' = guards s ->
  Spec.once_only (calledOnceTools s) (history s) ->
  Spec.once_only (calledOnceTools s') (history s').
Proof.
  intros Hg Hinv. apply guards_inv in Hg. destruct Hg as (Hc & _ & Hh).
  rewrite Hc, Hh. exact Hinv.
Qed.

(** Every iteration keeps the invariant. *)
Lemma iteration_once_only (config : AutomatonConfig) (isFirstRun : bool)
    (s : LoopState) :
  Spec.once_only (calledOnceTools s) (history s) ->
  Spec.once_only (calledOnceTools (fst (iteration config isFirstRun s)))
    (history (fst (iteration config isFirstRun s))).
Proof.
  intros Hinv.
  destruct (iteration_cases config isFirstRun s)
    as [(s0 & E & _ & Hg) | [(s2 & E & _ & Hg) | [(s4 & e & E & _ & Hg)
        | (s4 & cur & r & E & _ & Hg)]]]; rewrite E; cbn [fst].
  - apply (once_only_guards s); [exact Hg | exact Hinv].
  - apply (once_only_guards s); [exact Hg | exact Hinv].
  - destruct (catchError_spec s4) as (_ & _ & _ & _ & Hgc & _).
    apply (once_only_guards s); [rewrite Hgc; exact Hg | exact Hinv].
  - destruct (act_cases config cur r s4)
      as (s1 & _ & Hg1 & [(st & e & Htool & Eact)
                          | (st & turn & s5 & Htool & _ & Eact & _ & Hg5)]);
      rewrite Eact; simpl.
    + destruct (catchError_spec (with_toolLoop s1 st)) as (_ & _ & _ & _ & Hgc & _).
      apply guards_inv in Hgc. destruct Hgc as (Hc & _ & Hh).
      rewrite Hc, Hh. simpl.
      rewrite toolPhase_requested in Htool.
      pose proof (runToolCalls_once_only (Spec.requested r) (toolLoopOf s1)) as Hloop.
      rewrite Htool in Hloop. apply Hloop. simpl.
      apply (once_only_guards s); [rewrite Hg1; exact Hg | exact Hinv].
    + destruct (conclude_frame turn r s5) as (_ & Hgc).
      rewrite Hg5 in Hgc. inversion Hgc as [[Hc He Hh]]. rewrite Hc, Hh.
      rewrite toolPhase_requested in Htool.
      pose proof (runToolCalls_once_only (Spec.requested r) (toolLoopOf s1)) as Hloop.
      rewrite Htool in Hloop. apply Hloop. simpl.
      apply (once_only_guards s); [rewrite Hg1; exact Hg | exact Hinv].
Qed.

Lemma run_once_only (config : AutomatonConfig) (isFirstRun : bool) (fuel : nat)
    (s : LoopState) :
  Spec.once_only (calledOnceTools s) (history s) ->
  Spec.once_only (calledOnceTools (fst (run config isFirstRun fuel s)))
    (history (fst (run config isFirstRun fuel s))).
Proof.
  revert s. induction fuel as [| fuel IH]; intros s Hinv; [exact Hinv |].
  simpl. destruct (running s); [| exact Hinv].
  pose proof (iteration_once_only config isFirstRun s Hinv) as Hstep.
  destruct (iteration config isFirstRun s) as [s1 o]. simpl in Hstep.
  specialize (IH s1 Hstep).
  destruct (run config isFirstRun fuel s1) as [s2 os]. exact IH.
Qed.

End OncePerWake.

(** ** Wake sessions *)

Section Sessions.

Context `{Builtins} `{Collaborators}.

Import Loop.

(** What an iteration does to [running], [turnsThisWake] and
    [consecutiveErrors], by outcome. *)
Lemma iteration_progress (config : AutomatonConfig) (isFirstRun : bool)
    (s s' : LoopState) (o : Outcome) :
  iteration config isFirstRun s = (s', o) ->
  match o with
  | StillSleeping | Died =>
      running s' = false /\ turnsThisWake s' = turnsThisWake s
  | Failed _ =>
      turnsThisWake s' = turnsThisWake s /\
      consecutiveErrors s' = S (consecutiveErrors s) /\
      (running s' = false \/
       (running s' = running s /\ S (consecutiveErrors s) < MAX_CONSECUTIVE_ERRORS))
  | Turn _ _ v =>
      turnsThisWake s' = S (turnsThisWake s) /\
      (v = Continue ->
       running s' = running s /\ consecutiveErrors s' = 0 /\
       S (turnsThisWake s) < MAX_TURNS_PER_WAKE) /\
      (v <> Continue ->
       running s' = false /\ db_agentState (ls_db s') = as_sleeping)
  end.
Proof.
  intros Hit. destruct o as [| | e | turn response v].
  - destruct (iteration_no_turn config isFirstRun s s' StillSleeping Hit)
      as (Hr & Ht & _); [left; reflexivity | split; assumption].
  - destruct (iteration_no_turn config isFirstRun s s' Died Hit)
      as (Hr & Ht & _); [right; reflexivity | split; assumption].
  - destruct (iteration_failed config isFirstRun s s' e Hit) as (s4 & Hs' & Hc).
    apply control_inv in Hc. destruct Hc as (He & Hr & Ht & _).
    destruct (catchError_spec s4) as (Hcount & Hturns & _ & _ & _ & Hhalt & Hgo).
    subst s'. rewrite He in *. rewrite Hr in *. rewrite Ht in *.
    split; [exact Hturns |]. split; [exact Hcount |].
    destruct (Nat.le_gt_cases MAX_CONSECUTIVE_ERRORS (S (consecutiveErrors s)))
      as [Hge | Hlt].
    + left. apply Hhalt. exact Hge.
    + right. split; [apply Hgo; exact Hlt | exact Hlt].
  - destruct (iteration_turn config isFirstRun s s' turn response v Hit)
      as (s1 & st & s5 & _ & _ & _ & Hs' & Hv & Hc5 & _).
    unfold control in Hc5. injection Hc5 as He Hr Ht Hl Hn.
    destruct (conclude_frame turn response s5) as (Hturns & _).
    pose proof (conclude_running turn response s5) as Hrun.
    pose proof (conclude_errors turn response s5) as Herr.
    rewrite <- Hs' in Hturns, Hrun, Herr. rewrite <- Hv in Hrun, Herr.
    split; [rewrite Hturns; exact Ht |]. split.
    + intros Hcont. rewrite Hcont in Hrun, Herr.
      split; [rewrite Hrun; exact Hr |]. split; [exact Herr |].
      rewrite Hcont in Hv. symmetry in Hv.
      destruct (conclude_continue turn response s5 Hv) as (Hcap & _).
      rewrite Ht in Hcap. exact Hcap.
    + intros Hhalt. rewrite Hv in Hhalt.
      destruct (conclude_sleeping turn response s5 Hhalt) as (Hr' & Hstate).
      rewrite <- Hs' in Hr', Hstate. split; assumption.
Qed.

Lemma verdict_cases (v : Verdict) : v = Continue \/ v <> Continue.
Proof. destruct v; [right | right | right | right | left]; congruence. Qed.

(** A property that every iteration of a running loop keeps holds at the
    end of a session that starts with it. *)
Lemma run_invariant (config : AutomatonConfig) (isFirstRun : bool)
    (P : LoopState -> Prop) :
  (forall s, P s -> running s = true -> P (fst (iteration config isFirstRun s))) ->
  forall (fuel : nat) (s : LoopState), P s -> P (fst (run config isFirstRun fuel s)).
Proof.
  intros Hstep fuel. induction fuel as [| fuel IH]; intros s Hs; [exact Hs |].
  simpl. destruct (running s) eqn:Hrun; [| exact Hs].
  specialize (Hstep s Hs Hrun).
  destruct (iteration config isFirstRun s) as [s1 o]. simpl in Hstep.
  specialize (IH s1 Hstep).
  destruct (run config isFirstRun fuel s1) as [s2 os]. exact IH.
Qed.

Lemma iteration_within_cap (config : AutomatonConfig) (isFirstRun : bool)
    (s : LoopState) :
  within_cap s -> running s = true ->
  within_cap (fst (iteration config isFirstRun s)).
Proof.
  intros (Hle & Hlt & _) Hrun. specialize (Hlt Hrun).
  pose proof (iteration_progress config isFirstRun s) as Hstep.
  destruct (iteration config isFirstRun s) as [s1 o].
  specialize (Hstep s1 o eq_refl). simpl. unfold within_cap.
  destruct o as [| | e | turn response v].
  - destruct Hstep as (Hr & Ht). rewrite Ht, Hr.
    split; [lia |]. split; [discriminate | lia].
  - destruct Hstep as (Hr & Ht). rewrite Ht, Hr.
    split; [lia |]. split; [discriminate | lia].
  - destruct Hstep as (Ht & _). rewrite Ht.
    split; [lia |]. split; [intros _; exact Hlt | lia].
  - destruct Hstep as (Ht & Hcont & Hhalt). rewrite Ht.
    split; [lia |].
    destruct (verdict_cases v) as [Hv | Hv].
    + destruct (Hcont Hv) as (_ & _ & Hcap). split; [intros _; exact Hcap | lia].
    + destruct (Hhalt Hv) as (Hr & Hstate). rewrite Hr.
      split; [discriminate |]. intros _. split; [reflexivity | exact Hstate].
Qed.

Lemma run_counts_turns (config : AutomatonConfig) (isFirstRun : bool) (fuel : nat)
    (s : LoopState) :
  turnsThisWake (fst (run config isFirstRun fuel s))
  = turnsThisWake s + Spec.mainLoopTurns (snd (run config isFirstRun fuel s)).
Proof.
  revert s. induction fuel as [| fuel IH]; intros s.
  - simpl. unfold Spec.mainLoopTurns. simpl. lia.
  - simpl. destruct (running s) eqn:Hrun.
    + pose proof (iteration_progress config isFirstRun s) as Hstep.
      destruct (iteration config isFirstRun s) as [s1 o].
      specialize (Hstep s1 o eq_refl). specialize (IH s1).
      destruct (run config isFirstRun fuel s1) as [s2 os]. simpl in *.
      rewrite IH. unfold Spec.mainLoopTurns. simpl.
      destruct o as [| | e | turn response v]; simpl.
      * destruct Hstep as (_ & Ht). rewrite Ht. reflexivity.
      * destruct Hstep as (_ & Ht). rewrite Ht. reflexivity.
      * destruct Hstep as (Ht & _). rewrite Ht. reflexivity.
      * destruct Hstep as (Ht & _). rewrite Ht. lia.
    + simpl. unfold Spec.mainLoopTurns. simpl. lia.
Qed.

Lemma iteration_budget (config : AutomatonConfig) (isFirstRun : bool) (s : LoopState) :
  running s = true ->
  budget (fst (iteration config isFirstRun s)) < budget s.
Proof.
  intros Hrun.
  pose proof (iteration_progress config isFirstRun s) as Hstep.
  destruct (iteration config isFirstRun s) as [s1 o].
  specialize (Hstep s1 o eq_refl). simpl. unfold budget. rewrite Hrun.
  unfold MAX_CONSECUTIVE_ERRORS, MAX_TURNS_PER_WAKE in *.
  destruct o as [| | e | turn response v].
  - destruct Hstep as (Hr & _). rewrite Hr. lia.
  - destruct Hstep as (Hr & _). rewrite Hr. lia.
  - destruct Hstep as (Ht & He & [Hr | (Hr & Hlt)]).
    + rewrite Hr. lia.
    + rewrite Hr, Hrun, Ht, He. lia.
  - destruct Hstep as (Ht & Hcont & Hhalt).
    destruct (verdict_cases v) as [Hv | Hv].
    + destruct (Hcont Hv) as (Hr & He & Hcap). rewrite Hr, Hrun, Ht, He. lia.
    + destruct (Hhalt Hv) as (Hr & _). rewrite Hr. lia.
Qed.

(** A loop with enough fuel for its budget stops. *)
Lemma run_halts (config : AutomatonConfig) (isFirstRun : bool) (fuel : nat)
    (s : LoopState) :
  budget s <= fuel -> running (fst (run config isFirstRun fuel s)) = false.
Proof.
  revert s. induction fuel as [| fuel IH]; intros s Hb.
  - simpl. unfold budget in Hb.
    destruct (running s); [exfalso; exact (Nat.nle_succ_0 _ Hb) | reflexivity].
  - simpl. destruct (running s) eqn:Hrun; [| exact Hrun].
    pose proof (iteration_budget config isFirstRun s Hrun) as Hless.
    destruct (iteration config isFirstRun s) as [s1 o]. simpl in Hless.
    assert (Hb1 : budget s1 <= fuel) by lia.
    specialize (IH s1 Hb1).
    destruct (run config isFirstRun fuel s1) as [s2 os]. exact IH.
Qed.

Lemma budget_bound (s : LoopState) : budget s <= ENOUGH_FUEL.
Proof.
  unfold budget, ENOUGH_FUEL, MAX_CONSECUTIVE_ERRORS, MAX_TURNS_PER_WAKE.
  destruct (running s); lia.
Qed.

(** *** Wake-up and bootstrap *)

Lemma wakeUp_fresh (config : AutomatonConfig) (inference : InferenceClient)
    (db : AutomatonDatabase) (env : Env) :
  let s0 := fst (fst (wakeUp config inference db env)) in
  control s0 = (0, true, 0, "", 0) /\ guards s0 = (∅, ∅, []).
Proof. unfold wakeUp. repeat case_match; split; reflexivity. Qed.

(** A bootstrap step calls its tool once; a call that returns is recorded
    as a turn and counted, one that throws is not. *)
Lemma bootstrapStep_spec (acc : LoopState * list string) (step : BootstrapStep) :
  let s := fst acc in
  let s' := fst (bootstrapStep acc step) in
  consecutiveErrors s' = consecutiveErrors s /\
  running s' = running s /\
  executedCommands s' = executedCommands s /\
  exists returned : bool,
    history s' = history s ++ [{| ev_name := step_name step;
                                  ev_args := step_args step;
                                  ev_returned := returned |}] /\
    turnsThisWake s' = (if returned then S (turnsThisWake s) else turnsThisWake s) /\
    calledOnceTools s'
    = (if (returned && bool_decide (step_name step ∈ ONCE_PER_WAKE_TOOLS))%bool
       then {[ step_name step ]} ∪ calledOnceTools s
       else calledOnceTools s).
Proof.
  destruct acc as [s results]. unfold bootstrapStep. cbn [fst].
  destruct (executeTool (step_name step) (step_args step) (ls_db s) (ls_env s))
    as [[[result | e] db'] env'].
  - destruct (ulid env') as [id env1]. destruct (isoNow env1) as [stamp env2].
    cbn. do 3 (split; [reflexivity |]). exists true.
    split; [reflexivity |]. split; reflexivity.
  - cbn. do 3 (split; [reflexivity |]). exists false.
    split; [reflexivity |]. split; reflexivity.
Qed.

Lemma bootstrapStep_once_only (acc : LoopState * list string) (step : BootstrapStep) :
  Spec.once_only (calledOnceTools (fst acc)) (history (fst acc)) ->
  (step_name step ∈ ONCE_PER_WAKE_TOOLS -> step_name step ∉ calledOnceTools (fst acc)) ->
  Spec.once_only (calledOnceTools (fst (bootstrapStep acc step)))
    (history (fst (bootstrapStep acc step))).
Proof.
  intros Hinv Hfresh.
  destruct (bootstrapStep_spec acc step) as (_ & _ & _ & returned & Hh & _ & Hc).
  rewrite Hh, Hc. destruct returned; simpl.
  - apply once_only_returned; assumption.
  - apply once_only_thrown; assumption.
Qed.

Lemma exec_not_once : "exec" ∉ ONCE_PER_WAKE_TOOLS.
Proof. apply (bool_decide_unpack _). vm_compute. exact I. Qed.

(** The state in which the main loop starts: the loop runs, no error is
    counted, the bootstrap phase made three tool calls, the turn counter is
    the number of those that returned, and the guard invariant holds. *)
Lemma bootstrap_spec (wakeupInput : string) (s0 : LoopState) :
  control s0 = (0, true, 0, "", 0) ->
  guards s0 = (∅, ∅, []) ->
  let sb := bootstrap wakeupInput s0 in
  running sb = true /\
  consecutiveErrors sb = 0 /\
  length (history sb) = 3 /\
  turnsThisWake sb = Spec.completedSteps (history sb) /\
  turnsThisWake sb <= 3 /\
  Spec.once_only (calledOnceTools sb) (history sb).
Proof.
  intros Hc Hg. unfold control in Hc. injection Hc as He Hr Ht _ _.
  unfold guards in Hg. injection Hg as Hcalled _ Hh.
  unfold bootstrap, bootstrapSteps. cbn [fold_left].
  set (step1 := {| step_name := "check_economics"; step_args := JObj [] |}).
  match goal with
  | |- context [bootstrapStep (bootstrapStep (bootstrapStep _ step1) ?a) ?b] =>
      set (step2 := a); set (step3 := b)
  end.
  set (acc1 := bootstrapStep (s0, []) step1).
  set (acc2 := bootstrapStep acc1 step2).
  set (acc3 := bootstrapStep acc2 step3).
  destruct (bootstrapStep_spec (s0, []) step1) as (He1 & Hr1 & _ & b1 & Hh1 & Ht1 & Hc1).
  destruct (bootstrapStep_spec acc1 step2) as (He2 & Hr2 & _ & b2 & Hh2 & Ht2 & Hc2).
  destruct (bootstrapStep_spec acc2 step3) as (He3 & Hr3 & _ & b3 & Hh3 & Ht3 & Hc3).
  fold acc1 in He1, Hr1, Hh1, Ht1, Hc1, He2, Hr2, Hh2, Ht2, Hc2.
  fold acc2 in He2, Hr2, Hh2, Ht2, Hc2, He3, Hr3, Hh3, Ht3, Hc3.
  fold acc3 in He3, Hr3, Hh3, Ht3, Hc3.
  cbn [fst] in He1, Hr1, Hh1, Ht1, Hc1.
  assert (Hinv0 : Spec.once_only (calledOnceTools s0) (history s0)).
  { rewrite Hh. intros n _. unfold Spec.executions. simpl. split; [lia |]. lia. }
  assert (Hinv1 : Spec.once_only (calledOnceTools (fst acc1)) (history (fst acc1))).
  { apply (bootstrapStep_once_only (s0, []) step1); [exact Hinv0 |].
    intros _. cbn [fst]. rewrite Hcalled. apply not_elem_of_empty. }
  assert (Hinv2 : Spec.once_only (calledOnceTools (fst acc2)) (history (fst acc2))).
  { apply (bootstrapStep_once_only acc1 step2); [exact Hinv1 |].
    intros Hin. exfalso. exact (exec_not_once Hin). }
  assert (Hinv3 : Spec.once_only (calledOnceTools (fst acc3)) (history (fst acc3))).
  { apply (bootstrapStep_once_only acc2 step3); [exact Hinv2 |].
    intros Hin. exfalso. exact (exec_not_once Hin). }
  destruct acc3 as [s3 results] eqn:Eacc3. cbn [fst] in *.
  change (running (with_pendingInput s3 _)) with (running s3).
  change (consecutiveErrors (with_pendingInput s3 _)) with (consecutiveErrors s3).
  change (history (with_pendingInput s3 _)) with (history s3).
  change (turnsThisWake (with_pendingInput s3 _)) with (turnsThisWake s3).
  change (calledOnceTools (with_pendingInput s3 _)) with (calledOnceTools s3).
  rewrite Hr3, Hr2, Hr1, Hr, He3, He2, He1, He, Hh3, Hh2, Hh1, Hh.
  rewrite Ht3, Ht2, Ht1, Ht.
  split; [reflexivity |]. split; [reflexivity |]. split; [reflexivity |].
  rewrite Hh3, Hh2, Hh1, Hh in Hinv3.
  unfold Spec.completedSteps.
  split; [| split; [| exact Hinv3]];
    destruct b1, b2, b3; simpl; lia.
Qed.

Lemma invocations_all_returned (name : string) (h : list ToolEvent) :
  Forall (fun e => ev_returned e = true) h ->
  Spec.invocations name h = Spec.executions name h.
Proof.
  unfold Spec.invocations, Spec.executions.
  induction h as [| e rest IH]; intros Hall; [reflexivity |].
  inversion Hall as [| e' rest' He Hrest]. subst. simpl.
  rewrite He, andb_true_r.
  destruct (String.eqb (ev_name e) name); simpl; rewrite (IH Hrest); reflexivity.
Qed.

Lemma runAgentLoop_unfold (config : AutomatonConfig) (inference : InferenceClient)
    (db : AutomatonDatabase) (env : Env) :
  runAgentLoop config inference db env
  = run config (snd (fst (wakeUp config inference db env))) ENOUGH_FUEL
      (bootstrapped config inference db env).
Proof.
  unfold runAgentLoop, bootstrapped.
  destruct (wakeUp config inference db env) as [[s0 isFirstRun] wakeupInput].
  reflexivity.
Qed.

Lemma bootstrapped_spec (config : AutomatonConfig) (inference : InferenceClient)
    (db : AutomatonDatabase) (env : Env) :
  let sb := bootstrapped config inference db env in
  running sb = true /\
  consecutiveErrors sb = 0 /\
  length (history sb) = 3 /\
  turnsThisWake sb = Spec.completedSteps (history sb) /\
  turnsThisWake sb <= 3 /\
  Spec.once_only (calledOnceTools sb) (history sb).
Proof.
  destruct (wakeUp_fresh config inference db env) as (Hc & Hg).
  exact (bootstrap_spec _ _ Hc Hg).
Qed.

(** C6.  In every wake session each once-per-wake tool runs to its end at
    most once, and in a session in which no tool call threw it is called
    at most once.  In a state of the session (one in which every once-per-wake
    tool that ran is marked as called), a requested call of a once-per-wake
    tool that already ran is answered with the synthetic blocked result,
    which has the id and name of the call and a duration of 0: the tool is
    not called (the history is unchanged) and the store, the environment and
    both guard sets stay as they were; only the result is added to the turn
    (and counted).  The marking holds when the main loop starts and every
    tool call and every iteration keeps it. *)
Theorem C6_once_per_wake_guard :
  (forall (config : AutomatonConfig) (inference : InferenceClient)
          (db : AutomatonDatabase) (env : Env) (name : string),
      name ∈ ONCE_PER_WAKE_TOOLS ->
      let h := history (fst (runAgentLoop config inference db env)) in
      Spec.executions name h <= 1 /\
      (Forall (fun e => ev_returned e = true) h -> Spec.invocations name h <= 1)) /\
  (forall (tc : InferenceToolCall) (st : ToolLoopState),
      Spec.once_only (tl_calledOnceTools st) (tl_history st) ->
      tc_name tc ∈ ONCE_PER_WAKE_TOOLS ->
      1 <= Spec.executions (tc_name tc) (tl_history st) ->
      let r := blockedOnce tc (parseArgs tc) in
      let st' := fst (admitToolCall tc st) in
      snd (admitToolCall tc st) = None /\
      tl_toolCalls st' = tl_toolCalls st ++ [r] /\
      tcr_id r = tc_id tc /\ tcr_name r = tc_name tc /\ tcr_durationMs r = 0%Q /\
      tl_history st' = tl_history st /\
      tl_db st' = tl_db st /\ tl_env st' = tl_env st /\
      tl_calledOnceTools st' = tl_calledOnceTools st /\
      tl_executedCommands st' = tl_executedCommands st) /\
  (forall (config : AutomatonConfig) (inference : InferenceClient)
          (db : AutomatonDatabase) (env : Env),
      Spec.once_only (calledOnceTools (bootstrapped config inference db env))
        (history (bootstrapped config inference db env))) /\
  (forall (tc : InferenceToolCall) (st : ToolLoopState),
      Spec.once_only (tl_calledOnceTools st) (tl_history st) ->
      Spec.once_only (tl_calledOnceTools (fst (admitToolCall tc st)))
        (tl_history (fst (admitToolCall tc st)))) /\
  (forall (config : AutomatonConfig) (isFirstRun : bool) (s : LoopState),
      Spec.once_only (calledOnceTools s) (history s) ->
      Spec.once_only (calledOnceTools (fst (iteration config isFirstRun s)))
        (history (fst (iteration config isFirstRun s)))).
Proof.
  split; [| split; [| split; [| split]]].
  - intros config inference db env name Hname h. subst h.
    rewrite runAgentLoop_unfold.
    destruct (bootstrapped_spec config inference db env) as (_ & _ & _ & _ & _ & Hinv).
    pose proof (run_once_only config (snd (fst (wakeUp config inference db env)))
                  ENOUGH_FUEL _ Hinv) as Hend.
    destruct (Hend name Hname) as (Hle & _).
    split; [exact Hle |].
    intros Hall. rewrite (invocations_all_returned name _ Hall). exact Hle.
  - intros tc st Hinv Honce Hran r st'.
    assert (Hcalled : tc_name tc ∈ tl_calledOnceTools st).
    { apply (Hinv (tc_name tc) Honce). exact Hran. }
    subst st'. rewrite (admitToolCall_blocked_once tc st Honce Hcalled).
    repeat split.
  - intros config inference db env.
    destruct (bootstrapped_spec config inference db env) as (_ & _ & _ & _ & _ & Hinv).
    exact Hinv.
  - exact admitToolCall_once_only.
  - exact iteration_once_only.
Qed.

(** C10.  The bootstrap phase makes three tool calls and adds one to the
    turn counter for each that returns; the main loop adds one for each of
    its turns to the same counter, which never exceeds 20; every session
    halts.  So when the three bootstrap steps complete, a session has at
    most 17 main-loop turns, and one with 17 ends with the agent asleep. *)
Theorem C10_bootstrap_turns_count_toward_cap :
  forall (config : AutomatonConfig) (inference : InferenceClient)
         (db : AutomatonDatabase) (env : Env),
    let sb := bootstrapped config inference db env in
    let r := runAgentLoop config inference db env in
    length (history sb) = 3 /\
    turnsThisWake sb = Spec.completedSteps (history sb) /\
    turnsThisWake (fst r) = turnsThisWake sb + Spec.mainLoopTurns (snd r) /\
    turnsThisWake (fst r) <= 20 /\
    running (fst r) = false /\
    (Spec.completedSteps (history sb) = 3 ->
     Spec.mainLoopTurns (snd r) <= 17 /\
     (Spec.mainLoopTurns (snd r) = 17 ->
      db_agentState (ls_db (fst r)) = as_sleeping)).
Proof.
  intros config inference db env sb r.
  destruct (bootstrapped_spec config inference db env)
    as (Hrun & Herr & Hlen & Hturns & Hle & _).
  fold sb in Hrun, Herr, Hlen, Hturns, Hle.
  subst r. rewrite runAgentLoop_unfold. fold sb.
  set (isFirstRun := snd (fst (wakeUp config inference db env))).
  pose proof (run_counts_turns config isFirstRun ENOUGH_FUEL sb) as Hcount.
  assert (Hcap0 : within_cap sb).
  { unfold within_cap, MAX_TURNS_PER_WAKE. split; [lia |]. split; [lia | lia]. }
  pose proof (run_invariant config isFirstRun within_cap
                (iteration_within_cap config isFirstRun) ENOUGH_FUEL sb Hcap0)
    as (Hcap & _ & Hat).
  pose proof (run_halts config isFirstRun ENOUGH_FUEL sb (budget_bound sb)) as Hhalt.
  unfold MAX_TURNS_PER_WAKE in Hcap, Hat.
  split; [exact Hlen |]. split; [exact Hturns |]. split; [exact Hcount |].
  split; [exact Hcap |]. split; [exact Hhalt |].
  intros Hall. rewrite <- Hturns in Hall. rewrite Hall in Hcount.
  split; [lia |]. intros H17. apply Hat. lia.
Qed.

End Sessions.

(** A session whose backend asks for [check_economics], which the bootstrap
    phase already ran: by C6 the tool ran at most once in the session; it
    ran exactly once, and the turn holds one result, of duration 0. *)
Lemma C6_once_per_wake_witness :
  let r := Loop.runAgentLoop Fixture.config Fixture.client Fixture.emptyDb
             (Fixture.world
                [Fixture.reply (Some [Fixture.call "c1" "check_economics" "{}"])
                   "tool_calls";
                 Fixture.reply None "stop"]) in
  "check_economics" ∈ Loop.ONCE_PER_WAKE_TOOLS /\
  Spec.executions "check_economics" (Loop.history (fst r)) <= 1 /\
  Spec.executions "check_economics" (Loop.history (fst r)) = 1 /\
  List.map (fun o => match Spec.recorded o with
                     | Some results => List.map tcr_durationMs results
                     | None => []
                     end) (snd r)
  = [[0%Q]; []].
Proof.
  intros r.
  assert (Hin : "check_economics" ∈ Loop.ONCE_PER_WAKE_TOOLS).
  { apply (bool_decide_unpack _). vm_compute. exact I. }
  split; [exact Hin |].
  destruct C6_once_per_wake_guard as (Hsession & _).
  split; [exact (proj1 (Hsession _ _ _ _ _ Hin)) |].
  split; vm_compute; reflexivity.
Defined.

(** A turn for which the backend asks for twelve tool calls, the third of
    them [check_economics], which the bootstrap phase already ran: by C9 the
    turn records ten results; the blocked call is one of them, so only nine
    tools run in the turn (the history grows from three to twelve calls)
    and the last two requests are dropped. *)
Lemma C9_tool_call_cap_witness :
  let calls :=
    [Fixture.call "c1" "read_file" "{}"; Fixture.call "c2" "read_file" "{}";
     Fixture.call "c3" "check_economics" "{}"; Fixture.call "c4" "read_file" "{}";
     Fixture.call "c5" "read_file" "{}"; Fixture.call "c6" "read_file" "{}";
     Fixture.call "c7" "read_file" "{}"; Fixture.call "c8" "read_file" "{}";
     Fixture.call "c9" "read_file" "{}"; Fixture.call "c10" "read_file" "{}";
     Fixture.call "c11" "read_file" "{}"; Fixture.call "c12" "read_file" "{}"] in
  let s := Fixture.start [Fixture.reply (Some calls) "tool_calls"] in
  let r := Loop.iteration Fixture.config true s in
  length (Loop.history s) = 3 /\
  length (Loop.history (fst r)) = 12 /\
  option_map (List.map tcr_id) (Spec.recorded (snd r))
  = Some ["c1"; "c2"; "c3"; "c4"; "c5"; "c6"; "c7"; "c8"; "c9"; "c10"].
Proof.
  intros calls s r.
  split; [vm_compute; reflexivity |].
  split; [vm_compute; reflexivity |].
  subst r. destruct (Loop.iteration Fixture.config true s) as [s' o] eqn:Hit.
  assert (Ho : o = snd (Loop.iteration Fixture.config true s))
    by (rewrite Hit; reflexivity).
  vm_compute in Ho. subst o.
  destruct C9_tool_call_cap as (Hturn & _).
  destruct (Hturn _ _ _ _ _ _ _ Hit) as (Hids & _).
  cbn [snd Spec.recorded option_map]. apply (f_equal Some).
  etransitivity; [exact Hids |]. vm_compute. reflexivity.
Defined.

(** A session whose three bootstrap steps complete and whose backend keeps
    asking for a tool call, [read_file] and [write_file] in turn: by C10 it
    has at most 17 main-loop turns; it has 17, and ends asleep. *)
Lemma C10_bootstrap_turns_witness :
  let ask := fun name => Fixture.reply (Some [Fixture.call "c" name "{}"]) "tool_calls" in
  let responses :=
    [ask "read_file"; ask "write_file"; ask "read_file"; ask "write_file";
     ask "read_file"; ask "write_file"; ask "read_file"; ask "write_file";
     ask "read_file"; ask "write_file"; ask "read_file"; ask "write_file";
     ask "read_file"; ask "write_file"; ask "read_file"; ask "write_file";
     ask "read_file"; ask "write_file"; ask "read_file"; ask "write_file"] in
  let r := Loop.runAgentLoop Fixture.config Fixture.client Fixture.emptyDb
             (Fixture.world responses) in
  Spec.mainLoopTurns (snd r) <= 17 /\
  Spec.mainLoopTurns (snd r) = 17 /\
  db_agentState (Loop.ls_db (fst r)) = as_sleeping.
Proof.
  intros ask responses r.
  destruct (@C10_bootstrap_turns_count_toward_cap Fixture.builtins Fixture.collaborators
              Fixture.config Fixture.client Fixture.emptyDb (Fixture.world responses))
    as (_ & _ & _ & _ & _ & Hcap).
  assert (Hall : Spec.completedSteps
                   (Loop.history
                      (Loop.bootstrapped Fixture.config Fixture.client Fixture.emptyDb
                         (Fixture.world responses))) = 3)
    by (vm_compute; reflexivity).
  destruct (Hcap Hall) as (Hle & Hsleep).
  assert (H17 : Spec.mainLoopTurns (snd r) = 17) by (vm_compute; reflexivity).
  split; [exact Hle |]. split; [exact H17 |]. exact (Hsleep H17).
Defined.

(** ** The Anthropic round trip *)

Section AnthropicFacts.

Context `{Builtins}.

Import Anthropic.

Lemma transform_fold (messages : list ChatMessage) (systemParts : list string)
    (transformed : list WireMessage) :
  snd (fold_left transformMessage messages (systemParts, transformed))
  = transformed ++ concat (List.map wireOf messages).
Proof.
  revert systemParts transformed.
  induction messages as [| msg rest IH]; intros systemParts transformed.
  - simpl. rewrite app_nil_r. reflexivity.
  - change (fold_left transformMessage (msg :: rest) (systemParts, transformed))
      with (fold_left transformMessage rest
              (transformMessage (systemParts, transformed) msg)).
    change (concat (List.map wireOf (msg :: rest)))
      with (wireOf msg ++ concat (List.map wireOf rest)).
    unfold transformMessage, wireOf.
    destruct (role msg); rewrite IH; try rewrite <- app_assoc; reflexivity.
Qed.

Lemma transform_messages (messages : list ChatMessage) :
  tr_messages (transformMessagesForAnthropic messages)
  = concat (List.map wireOf messages).
Proof.
  unfold transformMessagesForAnthropic.
  pose proof (transform_fold messages [] []) as Hfold.
  destruct (fold_left transformMessage messages ([], [])) as [systemParts transformed].
  simpl in *. exact Hfold.
Qed.







End AnthropicFacts.


(** ** The JSON codec round-trips *)

Section JsonFacts.

Import Json.

Lemma append_assoc (a b c : string) : (a +:+ b) +:+ c = a +:+ (b +:+ c).
Proof.
  induction a as [| x a IH]; [reflexivity |].
  change (String x ((a +:+ b) +:+ c) = String x (a +:+ (b +:+ c))).
  f_equal. exact IH.
Qed.

Lemma length_append (a b : string) :
  String.length (a +:+ b) = String.length a + String.length b.
Proof.
  induction a as [| x a IH]; [reflexivity |].
  change (S (String.length (a +:+ b)) = S (String.length a + String.length b)).
  f_equal. exact IH.
Qed.

(** *** Numbers *)

Lemma digit_char_spec (d : N) :
  (d < 10)%N ->
  is_digit (digit_char d) = true /\
  N.of_nat (nat_of_ascii (digit_char d) - 48) = d.
Proof.
  intros Hd.
  assert (Hcases : d = 0%N \/ d = 1%N \/ d = 2%N \/ d = 3%N \/ d = 4%N \/ d = 5%N
                   \/ d = 6%N \/ d = 7%N \/ d = 8%N \/ d = 9%N) by lia.
  repeat (destruct Hcases as [-> | Hcases]; [split; reflexivity |]).
  subst d. split; reflexivity.
Qed.

Lemma read_digits_stop (rest : string) (k : N) :
  no_digit rest -> read_digits rest k = (k, rest).
Proof.
  destruct rest as [| c rest]; intros Hno; [reflexivity |].
  simpl in *. rewrite Hno. reflexivity.
Qed.

Lemma read_digits_cons (c : ascii) (rest : string) (acc : N) :
  read_digits (String c rest) acc
  = if is_digit c
    then read_digits rest (acc * 10 + N.of_nat (nat_of_ascii c - 48))%N
    else (acc, String c rest).
Proof. reflexivity. Qed.

Lemma digits_S (fuel : nat) (n : N) (acc : string) :
  digits (S fuel) n acc
  = if (n <? 10)%N then String (digit_char (n mod 10)) acc
    else digits fuel (n / 10)%N (String (digit_char (n mod 10)) acc).
Proof. reflexivity. Qed.

Lemma read_digits_digits (fuel : nat) :
  forall (n : N) (acc : string) (k : N),
    (n < 10 ^ N.of_nat fuel)%N ->
    exists p, read_digits (digits fuel n acc) k = read_digits acc (k * p + n)%N.
Proof.
  induction fuel as [| fuel IH]; intros n acc k Hn.
  - exists 1%N. change (10 ^ N.of_nat 0)%N with 1%N in Hn.
    assert (Hz : n = 0%N) by lia. subst n.
    replace (k * 1 + 0)%N with k by lia. reflexivity.
  - rewrite digits_S. destruct (N.ltb_spec n 10) as [Hlt | Hge].
    + exists 10%N. rewrite (N.mod_small n 10 Hlt).
      destruct (digit_char_spec n Hlt) as (Hd & Hv).
      rewrite read_digits_cons, Hd, Hv. reflexivity.
    + assert (Hpow : (10 ^ N.of_nat (S fuel) = 10 * 10 ^ N.of_nat fuel)%N).
      { rewrite Nat2N.inj_succ, N.pow_succ_r'. reflexivity. }
      assert (Hdiv : (n / 10 < 10 ^ N.of_nat fuel)%N).
      { apply N.Div0.div_lt_upper_bound. rewrite <- Hpow. exact Hn. }
      destruct (IH (n / 10)%N (String (digit_char (n mod 10)) acc) k Hdiv) as (p & Hp).
      exists (p * 10)%N. rewrite Hp.
      assert (Hmod : (n mod 10 < 10)%N) by (apply N.mod_lt; discriminate).
      destruct (digit_char_spec (n mod 10)%N Hmod) as (Hd & Hv).
      rewrite read_digits_cons, Hd, Hv. f_equal.
      pose proof (N.div_mod n 10) as Hdm.
      assert (Hne : 10%N <> 0%N) by discriminate. specialize (Hdm Hne).
      clear - Hdm. lia.
Qed.

Lemma digits_append (fuel : nat) (n : N) (acc rest : string) :
  digits fuel n acc +:+ rest = digits fuel n (acc +:+ rest).
Proof.
  revert n acc. induction fuel as [| fuel IH]; intros n acc; [reflexivity |].
  rewrite !digits_S. destruct (n <? 10)%N; [reflexivity |]. rewrite IH. reflexivity.
Qed.

Lemma digits_head (fuel : nat) (n : N) (acc : string) :
  exists c s, digits (S fuel) n acc = String c s /\ is_digit c = true.
Proof.
  revert n acc. induction fuel as [| fuel IH]; intros n acc.
  - rewrite digits_S.
    assert (Hmod : (n mod 10 < 10)%N) by (apply N.mod_lt; discriminate).
    destruct (digit_char_spec _ Hmod) as (Hd & _).
    destruct (n <? 10)%N; eexists; eexists; split; try reflexivity; exact Hd.
  - rewrite digits_S. destruct (n <? 10)%N; [| apply IH].
    assert (Hmod : (n mod 10 < 10)%N) by (apply N.mod_lt; discriminate).
    destruct (digit_char_spec _ Hmod) as (Hd & _).
    eexists; eexists; split; [reflexivity | exact Hd].
Qed.

Lemma print_N_fuel (n : N) : (n < 10 ^ N.of_nat (S (N.to_nat (N.log2 n))))%N.
Proof.
  rewrite Nat2N.inj_succ, N2Nat.id.
  destruct n as [| p]; [reflexivity |].
  apply N.lt_le_trans with (2 ^ N.succ (N.log2 (N.pos p)))%N.
  - apply N.log2_spec. reflexivity.
  - apply N.pow_le_mono_l. lia.
Qed.

(** A digit is none of the characters that start another kind of value. *)
Lemma digit_not_special (c : ascii) :
  is_digit c = true ->
  Ascii.eqb c "-" = false /\ Ascii.eqb c "{" = false /\ Ascii.eqb c "[" = false /\
  Ascii.eqb c dq = false /\ Ascii.eqb "n" c = false /\ Ascii.eqb "t" c = false /\
  Ascii.eqb "f" c = false /\ is_ws c = false /\
  Ascii.eqb c "]" = false /\ Ascii.eqb c "}" = false.
Proof.
  destruct c as [[] [] [] [] [] [] [] []]; vm_compute; intros Hd;
    first [discriminate Hd | repeat split].
Qed.

Lemma read_number_print_Z (n : Z) (rest : string) :
  no_digit rest -> read_number (print_Z n +:+ rest) = Some (n, rest).
Proof.
  intros Hno. destruct n as [| p | p].
  - change (print_Z 0 +:+ rest) with (String "0" rest).
    unfold read_number. change (Ascii.eqb "0" "-") with false.
    change (is_digit "0") with true. cbv iota.
    rewrite read_digits_cons. change (is_digit "0") with true. cbv iota.
    rewrite (read_digits_stop rest _ Hno). reflexivity.
  - change (print_Z (Z.pos p)) with (print_N (N.pos p)).
    unfold print_N. rewrite digits_append.
    change (EmptyString +:+ rest) with rest.
    destruct (digits_head (N.to_nat (N.log2 (N.pos p))) (N.pos p) rest)
      as (c & s & Hhead & Hc).
    destruct (read_digits_digits _ (N.pos p) rest 0%N (print_N_fuel (N.pos p)))
      as (q & Hq).
    rewrite Hhead in *. destruct (digit_not_special c Hc) as (Hminus & _).
    unfold read_number. rewrite Hminus, Hc, Hq.
    change (0 * q + N.pos p)%N with (N.pos p).
    rewrite (read_digits_stop rest _ Hno). reflexivity.
  - change (print_Z (Z.neg p) +:+ rest) with (String "-" (print_N (N.pos p) +:+ rest)).
    unfold print_N. rewrite digits_append.
    change (EmptyString +:+ rest) with rest.
    destruct (digits_head (N.to_nat (N.log2 (N.pos p))) (N.pos p) rest)
      as (c & s & Hhead & Hc).
    destruct (read_digits_digits _ (N.pos p) rest 0%N (print_N_fuel (N.pos p)))
      as (q & Hq).
    unfold read_number. rewrite Hhead in *.
    change (Ascii.eqb "-" "-") with true. cbv iota. rewrite Hc, Hq.
    change (0 * q + N.pos p)%N with (N.pos p).
    rewrite (read_digits_stop rest _ Hno). reflexivity.
Qed.

(** *** Strings *)

Lemma read_string_escape_char (c : ascii) (rest : string) :
  read_string (escape_char c +:+ rest)
  = match read_string rest with
    | Some (t, rest') => Some (String c t, rest')
    | None => None
    end.
Proof.
  destruct c as [[] [] [] [] [] [] [] []]; reflexivity.
Qed.

Lemma read_string_escape (s rest : string) :
  read_string (escape s +:+ String dq rest) = Some (s, rest).
Proof.
  induction s as [| c s IH]; [reflexivity |].
  simpl escape. rewrite append_assoc, read_string_escape_char, IH. reflexivity.
Qed.

(** *** Values *)

Lemma print_Z_head (n : Z) :
  exists c s, print_Z n = String c s /\ (is_digit c = true \/ c = "-"%char).
Proof.
  destruct n as [| p | p].
  - exists "0"%char, EmptyString. split; [reflexivity | left; reflexivity].
  - destruct (digits_head (N.to_nat (N.log2 (N.pos p))) (N.pos p) EmptyString)
      as (c & s & Hhead & Hc).
    exists c, s. split; [exact Hhead | left; exact Hc].
  - eexists. eexists. split; [reflexivity | right; reflexivity].
Qed.

Lemma stringify_head (v : json) :
  exists c s, stringify v = String c s /\ head_ok c.
Proof.
  destruct v as [| [] | n | s | items | fields];
    try (eexists; eexists; split; [reflexivity | repeat split]).
  destruct (print_Z_head n) as (c & s & Hhead & [Hd | Hm]).
  - exists c, s. split; [exact Hhead |].
    destruct (digit_not_special c Hd) as (_ & _ & _ & _ & _ & _ & _ & Hws & Hb & Hc).
    repeat split; assumption.
  - exists c, s. split; [exact Hhead |]. subst c. repeat split.
Qed.

Lemma skip_ws_head (c : ascii) (s : string) :
  is_ws c = false -> skip_ws (String c s) = String c s.
Proof. intros Hc. simpl. rewrite Hc. reflexivity. Qed.

Lemma parse_value_number_head (fuel : nat) (c : ascii) (s : string) :
  is_digit c = true \/ c = "-"%char ->
  parse_value (S fuel) (String c s)
  = match read_number (String c s) with
    | Some (n, rest) => Some (JNum n, rest)
    | None => None
    end.
Proof.
  destruct c as [[] [] [] [] [] [] [] []]; intros [Hd | Hm];
    try (vm_compute in Hd; discriminate Hd); try discriminate Hm; reflexivity.
Qed.

Lemma parse_value_number (fuel : nat) (n : Z) (rest : string) :
  no_digit rest -> parse_value (S fuel) (print_Z n +:+ rest) = Some (JNum n, rest).
Proof.
  intros Hno. pose proof (read_number_print_Z n rest Hno) as Hread.
  destruct (print_Z_head n) as (c & s & Hhead & Hc).
  rewrite Hhead in *. change (String c s +:+ rest) with (String c (s +:+ rest)) in *.
  rewrite (parse_value_number_head fuel c _ Hc), Hread. reflexivity.
Qed.

Lemma parse_value_string (fuel : nat) (s rest : string) :
  parse_value (S fuel) (quote s +:+ rest) = Some (JStr s, rest).
Proof.
  unfold quote.
  change (String dq (escape s +:+ String dq EmptyString) +:+ rest)
    with (String dq ((escape s +:+ String dq EmptyString) +:+ rest)).
  rewrite append_assoc. change (String dq EmptyString +:+ rest) with (String dq rest).
  pose proof (read_string_escape s rest) as Hread.
  change (parse_value (S fuel) (String dq (escape s +:+ String dq rest)))
    with (match read_string (escape s +:+ String dq rest) with
          | Some (t, rest') => Some (JStr t, rest')
          | None => None
          end).
  rewrite Hread. reflexivity.
Qed.

Lemma parse_items_S (fuel : nat) (s : string) :
  parse_items (S fuel) s
  = match parse_value fuel s with
    | Some (v, rest) =>
        match skip_ws rest with
        | String c rest' =>
            if Ascii.eqb c "," then
              match parse_items fuel rest' with
              | Some (vs, rest'') => Some (v :: vs, rest'')
              | None => None
              end
            else if Ascii.eqb c "]" then Some ([v], rest')
            else None
        | EmptyString => None
        end
    | None => None
    end.
Proof. reflexivity. Qed.

Lemma concat_cons2 (sep x y : string) (l : list string) :
  String.concat sep (x :: y :: l) = x +:+ sep +:+ String.concat sep (y :: l).
Proof. reflexivity. Qed.

Lemma size_pos (v : json) : 1 <= size v.
Proof. destruct v; simpl; lia. Qed.

Lemma parse_items_stringify (items : list json) :
  items <> [] ->
  (forall x, In x items -> parses_back x) ->
  forall (fuel : nat) (rest : string),
    2 * list_sum (List.map size items) + 1 <= fuel ->
    parse_items fuel (String.concat "," (List.map stringify items) +:+ String "]" rest)
    = Some (items, rest).
Proof.
  induction items as [| x l IH]; intros Hne Hall fuel rest Hfuel; [contradiction |].
  destruct fuel as [| fuel]; [lia |].
  rewrite parse_items_S.
  assert (Hx : parses_back x) by (apply Hall; left; reflexivity).
  pose proof (size_pos x) as Hpos.
  simpl List.map in *. simpl list_sum in Hfuel.
  destruct l as [| y l'].
  - simpl String.concat. simpl in Hfuel.
    rewrite (Hx fuel (String "]" rest)); [| lia | reflexivity].
    reflexivity.
  - change (List.map stringify (y :: l')) with (stringify y :: List.map stringify l').
    rewrite concat_cons2, !append_assoc.
    change ("," +:+ ?a) with (String "," a).
    rewrite (Hx fuel); [| lia | reflexivity].
    change (skip_ws (String "," ?a)) with (String "," a).
    change (Ascii.eqb "," ",") with true. cbv iota.
    change (stringify y :: List.map stringify l') with (List.map stringify (y :: l')).
    rewrite IH; [reflexivity | discriminate | |].
    + intros z Hz. apply Hall. right. exact Hz.
    + pose proof (size_pos y). simpl list_sum in *. lia.
Qed.

Lemma parse_members_S (fuel : nat) (s : string) :
  parse_members (S fuel) s
  = match skip_ws s with
    | String q rest =>
        if Ascii.eqb q dq then
          match read_string rest with
          | Some (k, rest1) =>
              match skip_ws rest1 with
              | String colon rest2 =>
                  if Ascii.eqb colon ":" then
                    match parse_value fuel rest2 with
                    | Some (v, rest3) =>
                        match skip_ws rest3 with
                        | String c rest4 =>
                            if Ascii.eqb c "," then
                              match parse_members fuel rest4 with
                              | Some (fields, rest5) => Some ((k, v) :: fields, rest5)
                              | None => None
                              end
                            else if Ascii.eqb c "}" then Some ([(k, v)], rest4)
                            else None
                        | EmptyString => None
                        end
                    | None => None
                    end
                  else None
              | EmptyString => None
              end
          | None => None
          end
        else None
    | EmptyString => None
    end.
Proof. reflexivity. Qed.

Lemma append_String (c : ascii) (s t : string) :
  String c s +:+ t = String c (s +:+ t).
Proof. reflexivity. Qed.

Lemma append_empty (t : string) : EmptyString +:+ t = t.
Proof. reflexivity. Qed.

Lemma member_append (kv : string * json) (rest : string) :
  member kv +:+ rest
  = String dq (escape (fst kv) +:+ String dq (String ":" (stringify (snd kv) +:+ rest))).
Proof.
  unfold member, quote.
  repeat (rewrite ?append_assoc, ?append_String, ?append_empty).
  reflexivity.
Qed.

Lemma parse_members_stringify (fields : list (string * json)) :
  fields <> [] ->
  (forall kv, In kv fields -> parses_back (snd kv)) ->
  forall (fuel : nat) (rest : string),
    2 * list_sum (List.map (fun kv => size (snd kv)) fields) + 1 <= fuel ->
    parse_members fuel (String.concat "," (List.map member fields) +:+ String "}" rest)
    = Some (fields, rest).
Proof.
  induction fields as [| [k v] l IH]; intros Hne Hall fuel rest Hfuel; [contradiction |].
  destruct fuel as [| fuel]; [lia |].
  rewrite parse_members_S.
  assert (Hv : parses_back v) by (apply (Hall (k, v)); left; reflexivity).
  pose proof (size_pos v) as Hpos.
  simpl List.map in *. simpl list_sum in Hfuel.
  destruct l as [| kv' l'].
  - simpl String.concat. simpl in Hfuel.
    rewrite member_append. simpl fst. simpl snd.
    change (skip_ws (String dq ?a)) with (String dq a).
    change (Ascii.eqb dq dq) with true. cbv iota.
    rewrite read_string_escape.
    change (skip_ws (String ":" ?a)) with (String ":" a).
    change (Ascii.eqb ":" ":") with true. cbv iota.
    rewrite (Hv fuel (String "}" rest)); [| lia | reflexivity].
    reflexivity.
  - change (List.map member (kv' :: l')) with (member kv' :: List.map member l').
    rewrite concat_cons2, !append_assoc, member_append. simpl fst. simpl snd.
    change (skip_ws (String dq ?a)) with (String dq a).
    change (Ascii.eqb dq dq) with true. cbv iota.
    rewrite read_string_escape.
    change (skip_ws (String ":" ?a)) with (String ":" a).
    change (Ascii.eqb ":" ":") with true. cbv iota.
    change ("," +:+ ?a) with (String "," a).
    rewrite (Hv fuel); [| lia | reflexivity].
    change (skip_ws (String "," ?a)) with (String "," a).
    change (Ascii.eqb "," ",") with true. cbv iota.
    change (member kv' :: List.map member l') with (List.map member (kv' :: l')).
    rewrite IH; [reflexivity | discriminate | |].
    + intros z Hz. apply Hall. right. exact Hz.
    + pose proof (size_pos (snd kv')). simpl list_sum in *. lia.
Qed.

Lemma in_list_sum {A : Type} (f : A -> nat) (x : A) (l : list A) :
  In x l -> f x <= list_sum (List.map f l).
Proof.
  induction l as [| y l IH]; intros Hin; [contradiction |].
  simpl. destruct Hin as [-> | Hin]; [lia |]. specialize (IH Hin). lia.
Qed.

Lemma stringify_array (x : json) (l : list json) (rest : string) :
  stringify (JArr (x :: l)) +:+ rest
  = String "[" (String.concat "," (List.map stringify (x :: l)) +:+ String "]" rest).
Proof.
  change (stringify (JArr (x :: l)))
    with ("[" +:+ String.concat "," (List.map stringify (x :: l)) +:+ "]").
  rewrite !append_assoc. reflexivity.
Qed.

Lemma stringify_object (kv : string * json) (l : list (string * json)) (rest : string) :
  stringify (JObj (kv :: l)) +:+ rest
  = String "{" (String.concat "," (List.map member (kv :: l)) +:+ String "}" rest).
Proof.
  change (stringify (JObj (kv :: l)))
    with ("{" +:+ String.concat "," (List.map member (kv :: l)) +:+ "}").
  rewrite !append_assoc. reflexivity.
Qed.

Lemma concat_head (sep : string) (x : string) (l : list string) (c : ascii) (s : string) :
  x = String c s -> exists s', String.concat sep (x :: l) = String c s'.
Proof.
  intros ->. destruct l as [| y l]; [exists s; reflexivity |].
  rewrite concat_cons2. eexists. reflexivity.
Qed.

(** Every value parses back from its printed form. *)
Lemma parse_value_stringify (n : nat) :
  forall v : json, size v <= n -> parses_back v.
Proof.
  induction n as [| n IH]; intros v Hsize.
  { pose proof (size_pos v). lia. }
  intros fuel rest Hfuel Hno.
  pose proof (size_pos v) as Hpos.
  destruct fuel as [| fuel]; [lia |].
  destruct v as [| b | z | s | items | fields].
  - reflexivity.
  - destruct b; reflexivity.
  - apply parse_value_number. exact Hno.
  - apply parse_value_string.
  - destruct items as [| x l]; [reflexivity |].
    rewrite stringify_array.
    destruct (stringify_head x) as (c & s & Hhead & Hws & Hclose & _).
    destruct (concat_head "," (stringify x) (List.map stringify l) c s Hhead)
      as (s' & Hconcat).
    assert (Hitems :
      parse_items fuel
        (String.concat "," (List.map stringify (x :: l)) +:+ String "]" rest)
      = Some (x :: l, rest)).
    { apply parse_items_stringify; [discriminate | |].
      - intros y Hy. apply IH.
        pose proof (in_list_sum size y (x :: l) Hy) as Hle.
        change (size (JArr (x :: l))) with (S (list_sum (List.map size (x :: l))))
          in Hsize.
        lia.
      - change (size (JArr (x :: l))) with (S (list_sum (List.map size (x :: l))))
          in Hfuel.
        lia. }
    change (List.map stringify (x :: l)) with (stringify x :: List.map stringify l)
      in Hitems |- *.
    rewrite Hconcat in Hitems |- *.
    change (String c s' +:+ ?a) with (String c (s' +:+ a)) in Hitems |- *.
    change (parse_value (S fuel) (String "[" (String c (s' +:+ String "]" rest))))
      with (match skip_ws (String c (s' +:+ String "]" rest)) with
            | String c' rest' =>
                if Ascii.eqb c' "]" then Some (JArr [], rest')
                else
                  match parse_items fuel (String c (s' +:+ String "]" rest)) with
                  | Some (items, rest'') => Some (JArr items, rest'')
                  | None => None
                  end
            | EmptyString => None
            end).
    rewrite (skip_ws_head c _ Hws), Hclose, Hitems. reflexivity.
  - destruct fields as [| kv l]; [reflexivity |].
    rewrite stringify_object.
    assert (Hmembers :
      parse_members fuel
        (String.concat "," (List.map member (kv :: l)) +:+ String "}" rest)
      = Some (kv :: l, rest)).
    { apply parse_members_stringify; [discriminate | |].
      - intros y Hy. apply IH.
        pose proof (in_list_sum (fun kv => size (snd kv)) y (kv :: l) Hy) as Hle.
        change (size (JObj (kv :: l)))
          with (S (list_sum (List.map (fun kv => size (snd kv)) (kv :: l)))) in Hsize.
        cbv beta in Hle. lia.
      - change (size (JObj (kv :: l)))
          with (S (list_sum (List.map (fun kv => size (snd kv)) (kv :: l)))) in Hfuel.
        lia. }
    assert (Hhead : exists s', String.concat "," (List.map member (kv :: l))
                               = String dq s').
    { apply (concat_head "," (member kv) (List.map member l) dq
               ((escape (fst kv) +:+ String dq EmptyString) +:+ ":" +:+ stringify (snd kv))).
      reflexivity. }
    destruct Hhead as (s' & Hconcat).
    rewrite Hconcat in Hmembers |- *.
    change (String dq s' +:+ ?a) with (String dq (s' +:+ a)) in Hmembers |- *.
    change (parse_value (S fuel) (String "{" (String dq (s' +:+ String "}" rest))))
      with (match parse_members fuel (String dq (s' +:+ String "}" rest)) with
            | Some (fields, rest'') => Some (JObj fields, rest'')
            | None => None
            end).
    rewrite Hmembers. reflexivity.
Qed.

Lemma append_empty_r (s : string) : s +:+ EmptyString = s.
Proof. induction s as [| c s IH]; [reflexivity |]. rewrite append_String, IH. reflexivity. Qed.

Lemma length_concat {A : Type} (f : A -> nat) (g : A -> string) (l : list A) :
  (forall x, In x l -> f x <= String.length (g x)) ->
  list_sum (List.map f l) <= String.length (String.concat "," (List.map g l)).
Proof.
  induction l as [| x l IH]; intros Hall; [apply Nat.le_refl |].
  assert (Hx : f x <= String.length (g x)) by (apply Hall; left; reflexivity).
  assert (Hl : list_sum (List.map f l) <= String.length (String.concat "," (List.map g l))).
  { apply IH. intros y Hy. apply Hall. right. exact Hy. }
  destruct l as [| y l].
  - simpl. simpl in Hx. lia.
  - change (List.map g (x :: y :: l)) with (g x :: List.map g (y :: l)).
    change (List.map g (y :: l)) with (g y :: List.map g l) in Hl |- *.
    rewrite concat_cons2, !length_append.
    change (List.map f (x :: y :: l)) with (f x :: List.map f (y :: l)).
    change (list_sum (f x :: List.map f (y :: l)))
      with (f x + list_sum (List.map f (y :: l))).
    lia.
Qed.

Lemma size_le_length (n : nat) :
  forall v : json, size v <= n -> size v <= String.length (stringify v).
Proof.
  induction n as [| n IH]; intros v Hsize.
  { pose proof (size_pos v). lia. }
  destruct v as [| b | z | s | items | fields].
  - simpl. lia.
  - destruct b; simpl; lia.
  - change (stringify (JNum z)) with (print_Z z).
    destruct (print_Z_head z) as (c & s & -> & _). simpl. lia.
  - change (stringify (JStr s)) with (quote s). unfold quote. simpl. lia.
  - change (stringify (JArr items))
      with ("[" +:+ String.concat "," (List.map stringify items) +:+ "]").
    change (size (JArr items)) with (S (list_sum (List.map size items))) in Hsize |- *.
    rewrite !length_append.
    assert (Hsum : list_sum (List.map size items)
                   <= String.length (String.concat "," (List.map stringify items))).
    { apply length_concat. intros x Hx. apply IH.
      pose proof (in_list_sum size x items Hx). lia. }
    change (String.length "[") with 1. lia.
  - change (stringify (JObj fields))
      with ("{" +:+ String.concat "," (List.map member fields) +:+ "}").
    change (size (JObj fields))
      with (S (list_sum (List.map (fun kv => size (snd kv)) fields))) in Hsize |- *.
    rewrite !length_append.
    assert (Hsum : list_sum (List.map (fun kv => size (snd kv)) fields)
                   <= String.length (String.concat "," (List.map member fields))).
    { apply length_concat. intros x Hx. unfold member. rewrite !length_append.
      assert (size (snd x) <= String.length (stringify (snd x))); [| lia].
      apply IH.
      pose proof (in_list_sum (fun kv => size (snd kv)) x fields Hx) as Hle.
      cbv beta in Hle. lia. }
    change (String.length "{") with 1. lia.
Qed.

(** The codec of the concrete world reads back what it printed, for every
    value: [JSON.parse(JSON.stringify(v))] is [v]. *)
Lemma parse_stringify (v : json) : parse (stringify v) = Some v.
Proof.
  unfold parse.
  pose proof (size_le_length (size v) v (Nat.le_refl _)) as Hlen.
  rewrite <- (append_empty_r (stringify v)) at 2.
  rewrite (parse_value_stringify (size v) v (Nat.le_refl _)); [reflexivity | lia | exact I].
Qed.

End JsonFacts.

(** The builtins of the concrete world satisfy the round-trip of
    [JSON.parse] after [JSON.stringify] at every value. *)
Lemma fixture_codec_round_trip (v : json) :
  @JSON_parse Fixture.builtins (@JSON_stringify Fixture.builtins v) = Some v.
Proof. exact (parse_stringify v). Qed.

(** * Further properties of the code *)

(** ** The economics engine *)

Section EconomicsMore.

Context `{Builtins}.

Import Economics.

Lemma getRunwayTier_infinite (tiers : RunwayTiers) :
  getRunwayTier tiers Infinity = normal.
Proof. reflexivity. Qed.

Lemma tier_rank_le_normal (t : SurvivalTier) : (tier_rank t <= 3)%nat.
Proof. destruct t; simpl; lia. Qed.

Lemma getRunwayTier_rank_mono (tiers : RunwayTiers) (r1 r2 : Q) :
  (r1 <= r2)%Q ->
  (tier_rank (getRunwayTier tiers (Finite r1))
   <= tier_rank (getRunwayTier tiers (Finite r2)))%nat.
Proof.
  intros Hle. apply getRunwayTier_highest.
  pose proof (getRunwayTier_exceeds tiers (Finite r1)) as Hex.
  unfold Spec.exceeds in *.
  destruct (Spec.lower_bound tiers (getRunwayTier tiers (Finite r1))); [| exact I].
  eapply hours_gt_mono; eassumption.
Qed.

(** X1.  The tier never gets less safe when the runway grows, an unlimited
    runway is [normal]; hence, through [calculateRunway], the tier never
    gets less safe when the balance grows at a fixed burn rate, and never
    gets safer when the burn rate grows at a fixed balance that is not
    negative. *)
Theorem X1_tier_monotone_in_balance_and_burn_rate :
  forall tiers : RunwayTiers,
    (forall r1 r2 : Q,
        (r1 <= r2)%Q ->
        (tier_rank (getRunwayTier tiers (Finite r1))
         <= tier_rank (getRunwayTier tiers (Finite r2)))%nat) /\
    getRunwayTier tiers Infinity = normal /\
    (forall b1 b2 burn : Q,
        (b1 <= b2)%Q ->
        (tier_rank (getRunwayTier tiers (calculateRunway b1 burn))
         <= tier_rank (getRunwayTier tiers (calculateRunway b2 burn)))%nat) /\
    (forall b burn1 burn2 : Q,
        (0 <= b)%Q -> (burn1 <= burn2)%Q ->
        (tier_rank (getRunwayTier tiers (calculateRunway b burn2))
         <= tier_rank (getRunwayTier tiers (calculateRunway b burn1)))%nat).
Proof.
  intros tiers. split; [apply getRunwayTier_rank_mono |]. split; [reflexivity |].
  split.
  - intros b1 b2 burn Hb. unfold calculateRunway.
    destruct (Num.le burn 0) eqn:E; [apply Nat.le_refl |].
    apply le_false in E. apply getRunwayTier_rank_mono.
    unfold Qdiv. apply Qmult_le_compat_r; [exact Hb |].
    apply Qlt_le_weak, Qinv_lt_0_compat. exact E.
  - intros b burn1 burn2 Hb Hburn. unfold calculateRunway.
    destruct (Num.le burn1 0) eqn:E1.
    { rewrite getRunwayTier_infinite. apply tier_rank_le_normal. }
    apply le_false in E1.
    destruct (Num.le burn2 0) eqn:E2.
    { apply le_true in E2. exfalso. lra. }
    apply le_false in E2. apply getRunwayTier_rank_mono.
    apply Qle_shift_div_l; [exact E1 |].
    assert (Heq : (b / burn2 * burn1 == b * burn1 / burn2)%Q).
    { field. intros Hz. rewrite Hz in E2. discriminate E2. }
    rewrite Heq.
    apply Qle_shift_div_r; [exact E2 |].
    rewrite (Qmult_comm b burn1), (Qmult_comm b burn2).
    apply Qmult_le_compat_r; [exact Hburn | exact Hb].
Qed.

(** *** A store without a start time *)

Lemma getUptimeHours_unstarted (db : AutomatonDatabase) (now : Q) :
  or_default (Db.getKV db "start_time") "" = "" -> getUptimeHours db now = 0%Q.
Proof.
  unfold getUptimeHours, or_default.
  destruct (Db.getKV db "start_time") as [s |]; [| reflexivity].
  destruct (String.eqb s "") eqn:E; [reflexivity |].
  intros ->. discriminate E.
Qed.

Lemma calculateBurnRate_unstarted (db : AutomatonDatabase) (now : Q) :
  or_default (Db.getKV db "start_time") "" = "" -> calculateBurnRate db now = 0%Q.
Proof.
  intros Hun. unfold calculateBurnRate. rewrite (getUptimeHours_unstarted db now Hun).
  reflexivity.
Qed.

Lemma calculateEarnRate_unstarted (db : AutomatonDatabase) (now : Q) :
  or_default (Db.getKV db "start_time") "" = "" -> calculateEarnRate db now = 0%Q.
Proof.
  intros Hun. unfold calculateEarnRate. rewrite (getUptimeHours_unstarted db now Hun).
  reflexivity.
Qed.

(** X2.  While the store has no [start_time] (the key is missing or
    empty), the engine sees no uptime and therefore no burn, whatever has
    been recorded as spent: burn rate, earn rate and their ratio are 0, the
    runway is the sentinel 99999, which every table whose [normal] boundary
    is below 99999 makes [normal], [shouldSleep] is false and the spawn gate
    is open with a threshold of 0. *)
Theorem X2_no_start_time_means_no_burn :
  forall (db : AutomatonDatabase) (config : AutomatonConfig) (clk : SnapshotClock)
         (tiers : RunwayTiers) (pendingTasks numChildren now : Q),
    or_default (Db.getKV db "start_time") "" = "" ->
    let snap := getEconomicsSnapshot db config clk in
    let gate := checkSpawnGate db config numChildren now in
    uptimeHours snap = 0%Q /\
    burnRatePerHour snap = 0%Q /\
    earnRatePerHour snap = 0%Q /\
    earnBurnRatio snap = 0%Q /\
    runwayHours snap = 99999%Q /\
    ((rt_normal tiers < 99999)%Q ->
     getRunwayTier tiers (Finite (runwayHours snap)) = normal) /\
    shouldSleep snap pendingTasks = false /\
    canSpawn gate = true /\
    (spawnThreshold gate == 0)%Q /\
    deficit gate = 0%Q.
Proof.
  intros db config clk tiers pendingTasks numChildren now Hun snap gate.
  assert (Hup : uptimeHours snap = 0%Q).
  { apply (getUptimeHours_unstarted db _ Hun). }
  assert (Hburn : burnRatePerHour snap = 0%Q).
  { apply (calculateBurnRate_unstarted db _ Hun). }
  assert (Hearn : earnRatePerHour snap = 0%Q).
  { apply (calculateEarnRate_unstarted db _ Hun). }
  assert (Hratio : earnBurnRatio snap = 0%Q).
  { subst snap. unfold getEconomicsSnapshot. simpl.
    rewrite (calculateBurnRate_unstarted db _ Hun). reflexivity. }
  assert (Hrunway : runwayHours snap = 99999%Q).
  { subst snap. unfold getEconomicsSnapshot. simpl.
    rewrite (calculateBurnRate_unstarted db _ Hun). reflexivity. }
  split; [exact Hup |]. split; [exact Hburn |]. split; [exact Hearn |].
  split; [exact Hratio |]. split; [exact Hrunway |].
  split.
  { intros Hn. rewrite Hrunway. apply getRunwayTier_normal. simpl.
    apply gt_true. exact Hn. }
  split.
  { unfold shouldSleep. rewrite Hratio, Hrunway.
    destruct (Num.gt pendingTasks 0); reflexivity. }
  subst gate. unfold checkSpawnGate.
  rewrite (calculateBurnRate_unstarted db now Hun).
  set (balance := Num.max _ 0).
  assert (Hlt : Num.lt balance (0 * HOURS_PER_MONTH + numChildren * (0 * HOURS_PER_MONTH * 0.8))
                = false).
  { apply lt_false.
    assert (Hz : (0 * HOURS_PER_MONTH + numChildren * (0 * HOURS_PER_MONTH * 0.8) == 0)%Q)
      by ring.
    rewrite Hz. apply max_zero_nonneg. }
  rewrite Hlt. simpl. split; [reflexivity |]. split; [ring | reflexivity].
Qed.

(** *** A store with a start time *)

Lemma getUptimeHours_started (db : AutomatonDatabase) (now t : Q) (startTime : string) :
  Db.getKV db "start_time" = Some startTime -> startTime <> "" ->
  Date_getTime startTime = Some t ->
  getUptimeHours db now = Qmax ((now - t) / (1000 * 60 * 60)) 0.001.
Proof.
  intros Hkv Hne Ht. unfold getUptimeHours. rewrite Hkv.
  destruct (String.eqb startTime "") eqn:E.
  { apply String.eqb_eq in E. contradiction. }
  rewrite Ht. reflexivity.
Qed.


(** *** Recording the cost of a turn *)

Lemma turn_cost_key_fresh (turnId : string) :
  "turn_cost_" +:+ turnId <> "total_spent_cents" /\
  "turn_cost_" +:+ turnId <> "total_earned_cents" /\
  "turn_cost_" +:+ turnId <> "start_time" /\
  "turn_cost_" +:+ turnId <> "child_tribute_total_cents".
Proof. repeat split; discriminate. Qed.

Lemma getKV_setKV (db : AutomatonDatabase) (k k' v : string) :
  Db.getKV (Db.setKV db k v) k' = if String.eqb k k' then Some v else Db.getKV db k'.
Proof.
  unfold Db.getKV, Db.setKV. simpl.
  destruct (String.eqb k k') eqn:E.
  - apply String.eqb_eq in E. subst k'. apply lookup_insert_eq.
  - apply String.eqb_neq in E. apply lookup_insert_ne. exact E.
Qed.

Lemma getKV_recordTurnCost (db : AutomatonDatabase) (turnId : string) (c : Q) (k : string) :
  Db.getKV (recordTurnCost db turnId c) k
  = if String.eqb "total_spent_cents" k
    then Some (String_of_number (getTotalSpent db + c)%Q)
    else if String.eqb ("turn_cost_" +:+ turnId) k then Some (String_of_number c)
         else Db.getKV db k.
Proof.
  unfold recordTurnCost. rewrite !getKV_setKV.
  destruct (turn_cost_key_fresh turnId) as (Hne & _).
  assert (E : String.eqb ("turn_cost_" +:+ turnId) "total_spent_cents" = false)
    by (apply String.eqb_neq; exact Hne).
  rewrite E. reflexivity.
Qed.

(** X4.  [recordTurnCost] stores the cost of the turn under
    [turn_cost_<id>] and adds it to the running total: provided [String]
    and [Number] read the new total back, the amount spent afterwards is
    the amount spent before plus the cost, whatever the turn id is; every
    other key, the earnings and the uptime among them, and every table of
    the store are as before; and the balance of the next snapshot is the
    budget minus the new total plus the earnings, clamped at 0. *)
Theorem X4_recordTurnCost_adds_to_total :
  forall (db : AutomatonDatabase) (config : AutomatonConfig) (clk : SnapshotClock)
         (turnId : string) (c : Q),
    String_of_number (getTotalSpent db + c)%Q <> "" ->
    (Number (String_of_number (getTotalSpent db + c)%Q) == getTotalSpent db + c)%Q ->
    let db' := recordTurnCost db turnId c in
    (getTotalSpent db' == getTotalSpent db + c)%Q /\
    Db.getKV db' ("turn_cost_" +:+ turnId) = Some (String_of_number c) /\
    (forall k : string,
        k <> "total_spent_cents" -> k <> "turn_cost_" +:+ turnId ->
        Db.getKV db' k = Db.getKV db k) /\
    getTotalEarned db' = getTotalEarned db /\
    (forall now : Q, getUptimeHours db' now = getUptimeHours db now) /\
    (db_agentState db', db_turns db', db_toolCalls db', db_snapshots db',
     db_inbox db', db_processed db')
    = (db_agentState db, db_turns db, db_toolCalls db, db_snapshots db,
       db_inbox db, db_processed db) /\
    (balanceCents (getEconomicsSnapshot db' config clk)
     == Qmax (cfg_budgetCents config - (getTotalSpent db + c) + getTotalEarned db) 0)%Q.
Proof.
  intros db config clk turnId c Hne Hrt db'.
  destruct (turn_cost_key_fresh turnId) as (Hk1 & Hk2 & Hk3 & _).
  assert (Hother : forall k : string,
             k <> "total_spent_cents" -> k <> "turn_cost_" +:+ turnId ->
             Db.getKV db' k = Db.getKV db k).
  { intros k H1 H2. subst db'. rewrite getKV_recordTurnCost.
    assert (E1 : String.eqb "total_spent_cents" k = false).
    { apply String.eqb_neq. intros Heq. apply H1. symmetry. exact Heq. }
    assert (E2 : String.eqb ("turn_cost_" +:+ turnId) k = false).
    { apply String.eqb_neq. intros Heq. apply H2. symmetry. exact Heq. }
    rewrite E1, E2. reflexivity. }
  assert (Hspent : (getTotalSpent db' == getTotalSpent db + c)%Q).
  { unfold getTotalSpent at 1. subst db'. rewrite getKV_recordTurnCost.
    rewrite String.eqb_refl. unfold or_default.
    destruct (String.eqb (String_of_number (getTotalSpent db + c)%Q) "") eqn:E.
    { apply String.eqb_eq in E. contradiction. }
    exact Hrt. }
  assert (Hearned : getTotalEarned db' = getTotalEarned db).
  { unfold getTotalEarned. rewrite Hother; [reflexivity | discriminate |].
    intros Heq. apply Hk2. symmetry. exact Heq. }
  split; [exact Hspent |].
  split.
  { subst db'. rewrite getKV_recordTurnCost.
    assert (E1 : String.eqb "total_spent_cents" ("turn_cost_" +:+ turnId) = false).
    { apply String.eqb_neq. intros Heq. apply Hk1. symmetry. exact Heq. }
    rewrite E1, String.eqb_refl. reflexivity. }
  split; [exact Hother |].
  split; [exact Hearned |].
  split.
  { intros now. unfold getUptimeHours. rewrite Hother; [reflexivity | discriminate |].
    intros Heq. apply Hk3. symmetry. exact Heq. }
  split; [reflexivity |].
  unfold getEconomicsSnapshot. simpl. unfold Num.max.
  rewrite Hearned. rewrite Hspent. reflexivity.
Qed.

(** *** The sleep decision and the spawn gate *)

(** X5.  [shouldSleep] is true exactly when there is no pending task, the
    earn/burn ratio is below 0.5 and the runway is below 24 hours.  So it is
    false for every snapshot of the engine whose burn rate is not positive,
    and when it is true the runway tier, for every table whose [normal] and
    [low_compute] boundaries are at least 24 hours, is [critical] or
    [dead]. *)
Theorem X5_shouldSleep_only_on_short_runway :
  forall (snapshot : EconomicsSnapshot) (pendingTasks : Q),
    (shouldSleep snapshot pendingTasks = true <->
     (pendingTasks <= 0)%Q /\ (earnBurnRatio snapshot < 0.5)%Q
     /\ (runwayHours snapshot < 24)%Q) /\
    (forall tiers : RunwayTiers,
        (24 <= rt_low_compute tiers)%Q -> (24 <= rt_normal tiers)%Q ->
        shouldSleep snapshot pendingTasks = true ->
        (tier_rank (getRunwayTier tiers (Finite (runwayHours snapshot))) <= 1)%nat) /\
    (forall (db : AutomatonDatabase) (config : AutomatonConfig) (clk : SnapshotClock),
        (burnRatePerHour (getEconomicsSnapshot db config clk) <= 0)%Q ->
        shouldSleep (getEconomicsSnapshot db config clk) pendingTasks = false).
Proof.
  intros snapshot pendingTasks.
  assert (Hiff : shouldSleep snapshot pendingTasks = true <->
                 (pendingTasks <= 0)%Q /\ (earnBurnRatio snapshot < 0.5)%Q
                 /\ (runwayHours snapshot < 24)%Q).
  { unfold shouldSleep, Num.ge.
    destruct (Num.gt pendingTasks 0) eqn:E1.
    { apply gt_true in E1. split; [discriminate |]. intros (Hp & _). exfalso. lra. }
    apply gt_false in E1.
    destruct (Num.le 0.5 (earnBurnRatio snapshot)) eqn:E2.
    { apply le_true in E2. split; [discriminate |]. intros (_ & Hr & _). exfalso. lra. }
    apply le_false in E2.
    destruct (Num.le 24 (runwayHours snapshot)) eqn:E3.
    { apply le_true in E3. split; [discriminate |]. intros (_ & _ & Hr). exfalso. lra. }
    apply le_false in E3. split; [intros _; repeat split; assumption | reflexivity]. }
  split; [exact Hiff |]. split.
  - intros tiers Hlow Hnormal Hsleep. apply Hiff in Hsleep.
    destruct Hsleep as (_ & _ & Hr).
    unfold getRunwayTier. simpl.
    assert (E1 : Num.gt (runwayHours snapshot) (rt_normal tiers) = false)
      by (apply gt_false; lra).
    assert (E2 : Num.gt (runwayHours snapshot) (rt_low_compute tiers) = false)
      by (apply gt_false; lra).
    rewrite E1, E2.
    destruct (Num.gt (runwayHours snapshot) (rt_critical tiers)); simpl; lia.
  - intros db config clk Hburn.
    destruct (shouldSleep (getEconomicsSnapshot db config clk) pendingTasks) eqn:E;
      [| reflexivity].
    exfalso. revert E. unfold shouldSleep, Num.ge.
    destruct (Num.gt pendingTasks 0); [discriminate |].
    destruct (Num.le 0.5 _); [discriminate |].
    assert (Hr : runwayHours (getEconomicsSnapshot db config clk) = 99999%Q).
    { unfold getEconomicsSnapshot. simpl. unfold calculateRunway.
      assert (E : Num.le (calculateBurnRate db (clk_burn clk)) 0 = true)
        by (apply le_true; exact Hburn).
      rewrite E. reflexivity. }
    rewrite Hr. discriminate.
Qed.

Lemma checkSpawnGate_canSpawn (db : AutomatonDatabase) (config : AutomatonConfig)
    (n now : Q) :
  canSpawn (checkSpawnGate db config n now) = true <->
  (calculateBurnRate db now * 720 + n * (calculateBurnRate db now * 720 * 0.8)
   <= Qmax (cfg_budgetCents config - getTotalSpent db + getTotalEarned db) 0)%Q.
Proof.
  unfold checkSpawnGate, HOURS_PER_MONTH, Num.max.
  destruct (Num.lt _ _) eqn:E; simpl.
  - apply lt_true in E. split; [discriminate |]. intros Hle. exfalso.
    exact (Qlt_not_le _ _ E Hle).
  - apply lt_false in E. split; [intros _; exact E | reflexivity].
Qed.

(** X6.  The spawn threshold is the monthly cost at the current burn rate
    times [1 + 0.8 n] for [n] children; so, at a burn rate that is not
    negative, a store that can afford more children can afford fewer, and
    at a burn rate of 0 the gate is open for every number of children. *)
Theorem X6_spawn_gate_monotone_in_children :
  forall (db : AutomatonDatabase) (config : AutomatonConfig) (now : Q),
    (forall n : Q,
        (spawnThreshold (checkSpawnGate db config n now)
         == calculateBurnRate db now * 720 * (1 + 0.8 * n))%Q) /\
    (forall n1 n2 : Q,
        (0 <= calculateBurnRate db now)%Q -> (n1 <= n2)%Q ->
        canSpawn (checkSpawnGate db config n2 now) = true ->
        canSpawn (checkSpawnGate db config n1 now) = true) /\
    (forall n : Q,
        (calculateBurnRate db now == 0)%Q ->
        canSpawn (checkSpawnGate db config n now) = true).
Proof.
  intros db config now. split; [| split].
  - intros n. destruct (checkSpawnGate_fields db config n now) as (Hown & Hchild & Hthr & _).
    rewrite Hthr, Hchild, Hown. ring.
  - intros n1 n2 Hburn Hn Hcan. apply checkSpawnGate_canSpawn.
    apply checkSpawnGate_canSpawn in Hcan.
    eapply Qle_trans; [| exact Hcan].
    apply Qplus_le_r.
    apply Qmult_le_compat_r; [exact Hn |].
    assert (Hz : (0 == 0 * 720 * 0.8)%Q) by reflexivity.
    rewrite Hz. apply Qmult_le_compat_r; [| discriminate].
    apply Qmult_le_compat_r; [exact Hburn | discriminate].
  - intros n Hzero. apply checkSpawnGate_canSpawn. rewrite Hzero.
    assert (Hz : (0 * 720 + n * (0 * 720 * 0.8) == 0)%Q) by ring.
    rewrite Hz. apply Q.le_max_r.
Qed.

(** X7.  A store that burns and whose budget plus earnings do not exceed
    what it spent has a balance of 0 and a runway of 0 hours, which every
    table without a negative boundary makes [dead]. *)
Theorem X7_exhausted_budget_is_dead :
  forall (db : AutomatonDatabase) (config : AutomatonConfig) (clk : SnapshotClock)
         (tiers : RunwayTiers),
    let snap := getEconomicsSnapshot db config clk in
    (0 < burnRatePerHour snap)%Q ->
    (cfg_budgetCents config + getTotalEarned db <= getTotalSpent db)%Q ->
    (balanceCents snap == 0)%Q /\
    (runwayHours snap == 0)%Q /\
    ((0 <= rt_normal tiers)%Q -> (0 <= rt_low_compute tiers)%Q ->
     (0 <= rt_critical tiers)%Q ->
     getRunwayTier tiers (Finite (runwayHours snap)) = dead).
Proof.
  intros db config clk tiers snap Hburn Hspent.
  pose proof (snapshot_balance db config clk) as Hbal.
  pose proof (snapshot_runway_burning db config clk Hburn) as Hrun.
  fold snap in Hbal, Hrun.
  assert (Hb : (balanceCents snap == 0)%Q).
  { rewrite Hbal. apply Q.max_r.
    change (budgetCents snap) with (cfg_budgetCents config).
    change (totalSpentCents snap) with (getTotalSpent db).
    change (totalEarnedCents snap) with (getTotalEarned db). lra. }
  assert (Hr : (runwayHours snap == 0)%Q).
  { rewrite Hrun, Hb. unfold Qdiv. apply Qmult_0_l. }
  split; [exact Hb |]. split; [exact Hr |].
  intros Hn Hl Hc.
  rewrite (getRunwayTier_compat tiers _ _ Hr).
  unfold getRunwayTier. simpl.
  assert (E1 : Num.gt 0 (rt_normal tiers) = false) by (apply gt_false; exact Hn).
  assert (E2 : Num.gt 0 (rt_low_compute tiers) = false) by (apply gt_false; exact Hl).
  assert (E3 : Num.gt 0 (rt_critical tiers) = false) by (apply gt_false; exact Hc).
  rewrite E1, E2, E3. reflexivity.
Qed.

End EconomicsMore.

(** X1 on the boundaries 72, 24 and 4 at a burn rate of 10 cents per hour:
    a balance of 100 cents is [critical], one of 1000 cents [normal]. *)
Lemma X1_tier_monotone_witness :
  (tier_rank (Economics.getRunwayTier RUNWAY_TIERS (Economics.calculateRunway 100 10))
   <= tier_rank (Economics.getRunwayTier RUNWAY_TIERS (Economics.calculateRunway 1000 10)))%nat
  /\ Economics.getRunwayTier RUNWAY_TIERS (Economics.calculateRunway 100 10) = critical
  /\ Economics.getRunwayTier RUNWAY_TIERS (Economics.calculateRunway 1000 10) = normal.
Proof.
  destruct (X1_tier_monotone_in_balance_and_burn_rate RUNWAY_TIERS) as (_ & _ & Hbal & _).
  split; [| split; reflexivity].
  apply (Hbal 100%Q 1000%Q 10%Q). unfold Qle. simpl. lia.
Defined.

(** X2 on the empty store, although the budget is 2000 cents and three
    children are asked for. *)
Lemma X2_no_start_time_witness :
  canSpawn (Economics.checkSpawnGate Fixture.emptyDb Fixture.config 3 0) = true /\
  runwayHours (Economics.getEconomicsSnapshot Fixture.emptyDb Fixture.config
                 Fixture.scenarioClock) = 99999%Q.
Proof.
  destruct (X2_no_start_time_means_no_burn Fixture.emptyDb Fixture.config
              Fixture.scenarioClock RUNWAY_TIERS 0 3 0)
    as (_ & _ & _ & _ & Hrunway & _ & _ & Hspawn & _).
  { vm_compute. reflexivity. }
  split; [exact Hspawn | exact Hrunway].
Defined.


(** X4 on the store of the scenario: 7 cents on top of 500. *)
Lemma X4_recordTurnCost_witness :
  (Economics.getTotalSpent (Economics.recordTurnCost Fixture.scenarioDb "t1" 7) == 507)%Q /\
  (balanceCents
     (Economics.getEconomicsSnapshot (Economics.recordTurnCost Fixture.scenarioDb "t1" 7)
        Fixture.config Fixture.scenarioClock) == 1493)%Q.
Proof.
  destruct (X4_recordTurnCost_adds_to_total Fixture.scenarioDb Fixture.config
              Fixture.scenarioClock "t1" 7)
    as (Hspent & _ & _ & _ & _ & _ & Hbalance).
  { vm_compute. discriminate. }
  { vm_compute. reflexivity. }
  split.
  - rewrite Hspent. vm_compute. reflexivity.
  - rewrite Hbalance. vm_compute. reflexivity.
Defined.

(** X5 on the snapshot of the scenario: nothing earned, 15 hours of
    runway, no pending task. *)
Lemma X5_shouldSleep_witness :
  (tier_rank
     (Economics.getRunwayTier RUNWAY_TIERS
        (Finite (runwayHours
                   (Economics.getEconomicsSnapshot Fixture.scenarioDb Fixture.config
                      Fixture.scenarioClock)))) <= 1)%nat.
Proof.
  destruct (X5_shouldSleep_only_on_short_runway
              (Economics.getEconomicsSnapshot Fixture.scenarioDb Fixture.config
                 Fixture.scenarioClock) 0) as (_ & Htier & _).
  apply (Htier RUNWAY_TIERS).
  - unfold Qle. simpl. lia.
  - unfold Qle. simpl. lia.
  - vm_compute. reflexivity.
Defined.

(** X6 on the store of the scenario with a budget of 10000 dollars: one
    child is affordable, so none is. *)
Lemma X6_spawn_gate_witness :
  canSpawn (Economics.checkSpawnGate Fixture.scenarioDb
              {| cfg_budgetCents := 1000000; cfg_name := "automaton" |} 0 18000000) = true.
Proof.
  destruct (X6_spawn_gate_monotone_in_children Fixture.scenarioDb
              {| cfg_budgetCents := 1000000; cfg_name := "automaton" |} 18000000)
    as (_ & Hmono & _).
  apply (Hmono 0%Q 1%Q).
  - vm_compute. discriminate.
  - unfold Qle. simpl. lia.
  - vm_compute. reflexivity.
Defined.

(** X7 on the store of the scenario with a budget of 300 cents, of which
    500 are spent. *)
Lemma X7_exhausted_budget_witness :
  Economics.getRunwayTier RUNWAY_TIERS
    (Finite (runwayHours
               (Economics.getEconomicsSnapshot Fixture.scenarioDb
                  {| cfg_budgetCents := 300; cfg_name := "automaton" |}
                  Fixture.scenarioClock))) = dead.
Proof.
  destruct (X7_exhausted_budget_is_dead Fixture.scenarioDb
              {| cfg_budgetCents := 300; cfg_name := "automaton" |}
              Fixture.scenarioClock RUNWAY_TIERS) as (_ & _ & Hdead).
  { vm_compute. reflexivity. }
  { vm_compute. discriminate. }
  apply Hdead; unfold Qle; simpl; lia.
Defined.

(** ** The inference client *)

Section InferenceFacts.

Context `{Builtins}.

Import Inference.

Lemma starts_i_cons (a : ascii) (p : string) (s : string) :
  starts_i (String a p) s = true ->
  exists b s', s = String b s' /\ fold_case b = a /\ starts_i p s' = true.
Proof.
  destruct s as [| b s']; [discriminate |].
  simpl. intros Hand. apply andb_prop in Hand as [Ha Hp].
  apply Ascii.eqb_eq in Ha. exists b, s'. repeat split; [symmetry; exact Ha | exact Hp].
Qed.

(** The patterns of the two backends exclude each other. *)
Lemma claude_not_openai (model : string) :
  isClaudeModel model = true -> isOpenAiModel model = false.
Proof.
  unfold isClaudeModel, isOpenAiModel. intros Hc.
  apply starts_i_cons in Hc as (b1 & s1 & -> & Hb1 & Hc).
  apply starts_i_cons in Hc as (b2 & s2 & -> & Hb2 & _).
  unfold o_series_i. simpl. rewrite Hb1, Hb2. reflexivity.
Qed.

(** X8.  No model name matches both the Anthropic and the OpenAI pattern,
    so the backend is [anthropic] exactly when an Anthropic key is set and
    the model name starts with [claude], [openai] exactly when an OpenAI key
    is set and the name starts with [gpt], [chatgpt] or [o] and a digit from
    1 to 9 (letters in either case), and [conway] otherwise; without keys
    it is always [conway]. *)
Theorem X8_backend_follows_key_and_model_prefix :
  forall (model : string) (openaiApiKey anthropicApiKey : option string),
    (isClaudeModel model = true -> isOpenAiModel model = false) /\
    (resolveInferenceBackend model openaiApiKey anthropicApiKey = anthropic <->
     given anthropicApiKey = true /\ isClaudeModel model = true) /\
    (resolveInferenceBackend model openaiApiKey anthropicApiKey = openai <->
     given openaiApiKey = true /\ isOpenAiModel model = true) /\
    (given openaiApiKey = false -> given anthropicApiKey = false ->
     resolveInferenceBackend model openaiApiKey anthropicApiKey = conway).
Proof.
  intros model ok ak. split; [apply claude_not_openai |].
  unfold resolveInferenceBackend.
  destruct (given ak) eqn:Ea, (isClaudeModel model) eqn:Ec;
    try rewrite (claude_not_openai model Ec);
    destruct (given ok) eqn:Eo; destruct (isOpenAiModel model) eqn:Em; simpl;
    repeat split; try discriminate; try reflexivity; try tauto;
    intros [Hx Hy]; discriminate.
Qed.

Lemma given_some (k : string) : k <> "" -> given (Some k) = true.
Proof.
  intros Hne. unfold given, or_default.
  destruct (String.eqb k "") eqn:E.
  - apply String.eqb_eq in E. contradiction.
  - rewrite E. reflexivity.
Qed.

Lemma given_none : given None = false.
Proof. reflexivity. Qed.

(** X9.  Where [chat] sends a request and which credential goes with it.
    With an Anthropic key and a [claude] model: to the Anthropic API, the
    key in [x-api-key].  Otherwise, with [MOAT_GATEWAY_URL] set and an
    OpenAI model name: to the gateway, with a tenant header and no key at
    all, whether an OpenAI key is set or not.  Otherwise, with an OpenAI key
    and an OpenAI model name: to [api.openai.com], the OpenAI key as a
    bearer token.  Otherwise: to the configured [apiUrl], with the
    configured [apiKey] as it is. *)
Theorem X9_chat_sends_each_key_to_its_own_service :
  forall (e : Endpoints) (c : InferenceClient) (MOAT_GATEWAY_URL MOAT_TENANT_ID : option string)
         (messages : list ChatMessage) (opts : option InferenceOptions),
    let model := modelOf c opts in
    let r := requestOf MOAT_TENANT_ID (chat e c MOAT_GATEWAY_URL messages opts) in
    (forall k : string,
        anthropicApiKey e = Some k -> k <> "" -> isClaudeModel model = true ->
        req_url r = "https://api.anthropic.com/v1/messages" /\
        req_headers r = [ ("Content-Type", "application/json"); ("x-api-key", k);
                          ("anthropic-version", "2023-06-01") ]) /\
    ((given (anthropicApiKey e) && isClaudeModel model)%bool = false ->
     (forall url : string,
         MOAT_GATEWAY_URL = Some url -> url <> "" -> isOpenAiModel model = true ->
         req_url r = url +:+ "/execute/openai.inference" /\
         req_headers r = [ ("Content-Type", "application/json");
                           ("X-Tenant-ID", or_default MOAT_TENANT_ID "automaton") ]) /\
     ((given MOAT_GATEWAY_URL && isOpenAiModel model)%bool = false ->
      (forall k : string,
          openaiApiKey e = Some k -> k <> "" -> isOpenAiModel model = true ->
          req_url r = "https://api.openai.com/v1/chat/completions" /\
          req_headers r = [ ("Content-Type", "application/json");
                            ("Authorization", "Bearer " +:+ k) ]) /\
      ((given (openaiApiKey e) && isOpenAiModel model)%bool = false ->
       req_url r = apiUrl e +:+ "/v1/chat/completions" /\
       req_headers r = [ ("Content-Type", "application/json");
                         ("Authorization", apiKey e) ]))).
Proof.
  intros e c moat tenant messages opts model r.
  subst r. unfold chat. fold model. unfold resolveInferenceBackend.
  split.
  { intros k Hk Hne Hclaude. rewrite Hk, (given_some k Hne), Hclaude. simpl.
    unfold or_default. destruct (String.eqb k "") eqn:E.
    { apply String.eqb_eq in E. contradiction. }
    split; reflexivity. }
  intros Hnot. rewrite Hnot. split.
  { intros url Hmoat Hne Hopen. rewrite Hmoat, (given_some url Hne), Hopen.
    assert (Hurl : or_default (Some url) "" = url).
    { unfold or_default. destruct (String.eqb url "") eqn:E; [| reflexivity].
      apply String.eqb_eq in E. contradiction. }
    rewrite Hurl. destruct (given (openaiApiKey e)); simpl; split; reflexivity. }
  intros Hnomoat. split.
  { intros k Hk Hne Hopen. rewrite Hk, (given_some k Hne), Hopen. simpl.
    rewrite Hopen in Hnomoat. rewrite andb_true_r in Hnomoat. rewrite Hnomoat. simpl.
    unfold or_default. destruct (String.eqb k "") eqn:E.
    { apply String.eqb_eq in E. contradiction. }
    split; reflexivity. }
  intros Hnokey. rewrite Hnokey.
  destruct (given moat) eqn:Em; simpl in Hnomoat |- *.
  - rewrite Hnomoat. simpl. split; reflexivity.
  - split; reflexivity.
Qed.

(** X10.  [setLowComputeMode] reads only the options the client was
    created with, so of two calls the later one decides and the options stay
    as they were: low-compute mode runs the low-compute model of the
    options, or [gpt-4.1] when none is given, with a ceiling of 4096 tokens,
    and leaving it restores the default model and ceiling.  In low-compute
    mode without a low-compute model in the options, a request without
    options of its own carries the model [gpt-4.1] and the ceiling 4096
    under [max_completion_tokens], not under [max_tokens]. *)
Theorem X10_low_compute_mode_last_call_wins :
  forall (c : InferenceClient) (first second : bool),
    setLowComputeMode (setLowComputeMode c first) second = setLowComputeMode c second /\
    (opt_defaultModel (setLowComputeMode c first), opt_maxTokens (setLowComputeMode c first),
     opt_lowComputeModel (setLowComputeMode c first))
    = (opt_defaultModel c, opt_maxTokens c, opt_lowComputeModel c) /\
    getDefaultModel (setLowComputeMode c true)
    = or_default (opt_lowComputeModel c) "gpt-4.1" /\
    maxTokens (setLowComputeMode c true) = 4096%Q /\
    getDefaultModel (setLowComputeMode c false) = opt_defaultModel c /\
    maxTokens (setLowComputeMode c false) = opt_maxTokens c /\
    (forall (e : Endpoints) (MOAT_GATEWAY_URL : option string) (messages : list ChatMessage),
        given (opt_lowComputeModel c) = false ->
        exists body : Body,
          bodyOf (chat e (setLowComputeMode c true) MOAT_GATEWAY_URL messages None)
          = Some body /\
          body_model body = "gpt-4.1" /\
          body_max_completion_tokens body = Some 4096%Q /\
          body_max_tokens body = None).
Proof.
  intros c first second.
  split; [destruct first, second; reflexivity |].
  split; [destruct first; reflexivity |].
  split; [reflexivity |]. split; [reflexivity |].
  split; [reflexivity |]. split; [reflexivity |].
  intros e moat messages Hlow.
  assert (Hmodel : modelOf (setLowComputeMode c true) None = "gpt-4.1").
  { unfold modelOf. simpl. unfold given in Hlow.
    apply negb_false_iff, String.eqb_eq in Hlow.
    unfold or_default in *. destruct (opt_lowComputeModel c) as [m |]; [| reflexivity].
    destruct (String.eqb m "") eqn:E; [reflexivity |].
    subst m. discriminate E. }
  unfold chat. rewrite Hmodel. unfold resolveInferenceBackend.
  change (isClaudeModel "gpt-4.1") with false.
  change (isOpenAiModel "gpt-4.1") with true.
  change (usesCompletionTokens "gpt-4.1") with true.
  rewrite andb_false_r, andb_true_r, orb_true_r, andb_true_r.
  destruct (given (openaiApiKey e)); destruct (given moat); simpl;
    eexists; (split; [reflexivity |]); repeat split; reflexivity.
Qed.

End InferenceFacts.

(** X8 on a model name in capitals, with both keys set. *)
Lemma X8_backend_witness :
  Inference.resolveInferenceBackend "Claude-Sonnet-4-5" (Some "sk-o") (Some "sk-a")
  = Inference.anthropic /\
  Inference.isOpenAiModel "Claude-Sonnet-4-5" = false.
Proof.
  destruct (X8_backend_follows_key_and_model_prefix "Claude-Sonnet-4-5"
              (Some "sk-o") (Some "sk-a")) as (Hdisjoint & Hanthropic & _).
  split.
  - apply Hanthropic. split; vm_compute; reflexivity.
  - apply Hdisjoint. vm_compute. reflexivity.
Defined.

(** X9 on a client for [gpt-4o] behind a gateway, with an OpenAI key set:
    the request goes to the gateway and carries no key. *)
Lemma X9_chat_routing_witness :
  let e := {| Inference.apiUrl := "https://api.conway.tech";
              Inference.apiKey := "cw-key";
              Inference.openaiApiKey := Some "sk-o";
              Inference.anthropicApiKey := None |} in
  let r := Inference.requestOf None
             (Inference.chat e Fixture.client (Some "http://moat:8080") [] None) in
  Inference.req_url r = "http://moat:8080/execute/openai.inference" /\
  Inference.req_headers r = [ ("Content-Type", "application/json");
                              ("X-Tenant-ID", "automaton") ].
Proof.
  intros e r.
  destruct (X9_chat_sends_each_key_to_its_own_service e Fixture.client
              (Some "http://moat:8080") None [] None) as (_ & Hrest).
  destruct Hrest as (Hmoat & _); [vm_compute; reflexivity |].
  apply (Hmoat "http://moat:8080"); [reflexivity | discriminate | vm_compute; reflexivity].
Defined.

(** X10 on the client of the concrete world, whose options name no
    low-compute model. *)
Lemma X10_low_compute_witness :
  exists body : Inference.Body,
    Inference.bodyOf
      (Inference.chat {| Inference.apiUrl := "https://api.conway.tech";
                         Inference.apiKey := "cw-key";
                         Inference.openaiApiKey := None;
                         Inference.anthropicApiKey := None |}
         (setLowComputeMode Fixture.client true) None [] None) = Some body /\
    Inference.body_model body = "gpt-4.1" /\
    Inference.body_max_completion_tokens body = Some 4096%Q /\
    Inference.body_max_tokens body = None.
Proof.
  destruct (X10_low_compute_mode_last_call_wins Fixture.client true true)
    as (_ & _ & _ & _ & _ & _ & Hbody).
  apply Hbody. vm_compute. reflexivity.
Defined.

(** ** The Anthropic translation, further *)

Section AnthropicMore.

Context `{Builtins}.

Import Anthropic Inference.

Lemma transform_system_fold (messages : list ChatMessage) (systemParts : list string)
    (transformed : list WireMessage) :
  fst (fold_left transformMessage messages (systemParts, transformed))
  = systemParts
    ++ List.map content
         (List.filter (fun m => match role m with
                                | system => negb (String.eqb (content m) "")
                                | _ => false
                                end) messages).
Proof.
  revert systemParts transformed.
  induction messages as [| msg rest IH]; intros systemParts transformed.
  - simpl. rewrite app_nil_r. reflexivity.
  - change (fold_left transformMessage (msg :: rest) (systemParts, transformed))
      with (fold_left transformMessage rest
              (transformMessage (systemParts, transformed) msg)).
    unfold transformMessage. simpl List.filter.
    destruct (role msg); rewrite IH; try reflexivity.
    destruct (String.eqb (content msg) ""); simpl; [reflexivity |].
    rewrite <- app_assoc. reflexivity.
Qed.

Lemma transform_system (messages : list ChatMessage) :
  tr_system (transformMessagesForAnthropic messages)
  = match List.map content
            (List.filter (fun m => match role m with
                                   | system => negb (String.eqb (content m) "")
                                   | _ => false
                                   end) messages) with
    | [] => None
    | parts => Some (String.concat (Js.nl +:+ Js.nl) parts)
    end.
Proof.
  unfold transformMessagesForAnthropic.
  pose proof (transform_system_fold messages [] []) as Hfold.
  destruct (fold_left transformMessage messages ([], [])) as [systemParts transformed].
  simpl in Hfold. subst systemParts. cbn [tr_system].
  destruct (List.map content _); reflexivity.
Qed.

Lemma string_app_empty (a b : string) : a +:+ b = "" -> a = "".
Proof. destruct a; [reflexivity | discriminate]. Qed.

Lemma concat_empty_head (sep x : string) (l : list string) :
  String.concat sep (x :: l) = "" -> x = "".
Proof.
  destruct l as [| y l]; simpl; [tauto |]. apply string_app_empty.
Qed.

Lemma wireOf_roles (msg : ChatMessage) :
  Forall (fun w => (wm_role w = user \/ wm_role w = assistant) /\
                   (wm_role w = assistant ->
                    exists b bs, wm_content w = Blocks (b :: bs)))
    (wireOf msg).
Proof.
  unfold wireOf. destruct (role msg).
  - constructor.
  - constructor; [| constructor]. simpl. split; [left; reflexivity | discriminate].
  - constructor; [| constructor]. simpl. split; [right; reflexivity |].
    intros _. unfold assistantBlocks.
    destruct (_ ++ _) as [| b bs]; eauto.
  - constructor; [| constructor]. simpl. split; [left; reflexivity | discriminate].
Qed.

Lemma wireOf_length (msg : ChatMessage) :
  length (wireOf msg) = match role msg with system => 0 | _ => 1 end.
Proof. unfold wireOf. destruct (role msg); reflexivity. Qed.

(** X11.  [transformMessagesForAnthropic] works message by message: the
    result for a concatenation is the concatenation of the results, and
    there is one wire message for every message that is not a system
    message.  Every wire message has the role [user] or [assistant], and an
    assistant message always carries at least one content block.  The
    system prompt is absent exactly when every system message is empty,
    and is never the empty string. *)
Theorem X11_anthropic_translation_is_messagewise :
  forall messages more : list ChatMessage,
    tr_messages (transformMessagesForAnthropic (messages ++ more))
    = tr_messages (transformMessagesForAnthropic messages)
      ++ tr_messages (transformMessagesForAnthropic more) /\
    length (tr_messages (transformMessagesForAnthropic messages))
    = length (List.filter (fun m => match role m with system => false | _ => true end)
                messages) /\
    Forall (fun w => (wm_role w = user \/ wm_role w = assistant) /\
                     (wm_role w = assistant ->
                      exists b bs, wm_content w = Blocks (b :: bs)))
      (tr_messages (transformMessagesForAnthropic messages)) /\
    (tr_system (transformMessagesForAnthropic messages) = None <->
     forall m, In m messages -> role m = system -> content m = "") /\
    (forall s, tr_system (transformMessagesForAnthropic messages) = Some s -> s <> "").
Proof.
  intros messages more. rewrite !transform_messages.
  split; [rewrite map_app, concat_app; reflexivity |].
  split.
  { induction messages as [| m rest IH]; [reflexivity |].
    simpl List.map. simpl concat. rewrite length_app, IH, wireOf_length.
    simpl List.filter. destruct (role m); reflexivity. }
  split.
  { induction messages as [| m rest IH]; [constructor |].
    simpl List.map. simpl concat. apply Forall_app. split; [apply wireOf_roles | exact IH]. }
  rewrite transform_system.
  set (nonEmptySystem := fun m : ChatMessage =>
                           match role m with
                           | system => negb (String.eqb (content m) "")
                           | _ => false
                           end).
  split.
  - split.
    + intros Hnone m Hin Hrole.
      destruct (String.eqb (content m) "") eqn:E; [apply String.eqb_eq; exact E |].
      assert (Hm : In m (List.filter nonEmptySystem messages)).
      { apply filter_In. split; [exact Hin |]. unfold nonEmptySystem.
        rewrite Hrole, E. reflexivity. }
      destruct (List.filter nonEmptySystem messages) as [| x l]; [contradiction |].
      discriminate Hnone.
    + intros Hall.
      destruct (List.filter nonEmptySystem messages) as [| x l] eqn:E; [reflexivity |].
      exfalso.
      assert (Hx : In x (List.filter nonEmptySystem messages)) by (rewrite E; left; reflexivity).
      apply filter_In in Hx as [Hin Hsys]. unfold nonEmptySystem in Hsys.
      destruct (role x) eqn:Hrole; try discriminate.
      rewrite (Hall x Hin Hrole) in Hsys. discriminate.
  - intros s Hs Hempty. subst s.
    destruct (List.filter nonEmptySystem messages) as [| x l] eqn:E; [discriminate |].
    simpl List.map in Hs. injection Hs as Hs.
    apply concat_empty_head in Hs.
    assert (Hx : In x (List.filter nonEmptySystem messages)) by (rewrite E; left; reflexivity).
    apply filter_In in Hx as [_ Hsys]. unfold nonEmptySystem in Hsys.
    destruct (role x); try discriminate. rewrite Hs in Hsys. discriminate.
Qed.

Lemma kept_transformed_system (messages : list ChatMessage) :
  kept (tr_system (transformMessagesForAnthropic messages))
  = tr_system (transformMessagesForAnthropic messages).
Proof.
  unfold kept. destruct (tr_system (transformMessagesForAnthropic messages)) as [s |] eqn:E;
    [| reflexivity].
  rewrite transform_system in E.
  destruct (List.map content _) as [| x l] eqn:Eparts; [discriminate |].
  injection E as E.
  destruct (given (Some s)) eqn:Eg; [reflexivity |].
  exfalso. unfold given, or_default in Eg.
  destruct (String.eqb s "") eqn:Es; [| rewrite Es in Eg; discriminate Eg].
  apply String.eqb_eq in Es. rewrite Es in E.
  apply concat_empty_head in E.
  assert (Hx : In x (List.map content
                       (List.filter (fun m => match role m with
                                              | system => negb (String.eqb (content m) "")
                                              | _ => false
                                              end) messages)))
    by (rewrite Eparts; left; reflexivity).
  apply in_map_iff in Hx as (m & Hm & Hin).
  apply filter_In in Hin as [_ Hsys].
  destruct (role m); try discriminate. rewrite Hm, E in Hsys. discriminate.
Qed.

Lemma concat_wireOf_nil (messages : list ChatMessage) :
  concat (List.map wireOf messages) = [] <->
  forall m, In m messages -> role m = system.
Proof.
  induction messages as [| m rest IH]; simpl.
  - split; [intros _ m [] | reflexivity].
  - split.
    + intros Hnil. apply app_eq_nil in Hnil as [Hm Hrest].
      intros x [<- | Hin]; [| apply IH; assumption].
      unfold wireOf in Hm. destruct (role m); try discriminate. reflexivity.
    + intros Hall. assert (Hm : role m = system) by (apply Hall; left; reflexivity).
      unfold wireOf at 1. rewrite Hm. simpl. apply IH.
      intros x Hin. apply Hall. right. exact Hin.
Qed.

(** X12.  The request of [chatViaAnthropic] never has an empty message
    array: when the translation leaves no message, which is when every
    message is a system message, the array is the single user message
    [Continue.], and otherwise it is the translation.  The truthiness test
    on the system prompt never drops one; the token ceiling and the model are
    passed on; and [tools] and [tool_choice] are present together, exactly
    when the caller gave a tool list that is not empty. *)
Theorem X12_anthropic_request_never_empty :
  forall params : AnthropicParams,
    exists body : AnthropicBody,
      req_payload (requestAnthropic params) = AnthropicPayload body /\
      ab_messages body <> [] /\
      ((forall m, In m (ap_messages params) -> role m = system) ->
       ab_messages body = [{| wm_role := user; wm_content := Plain "Continue." |}]) /\
      ((exists m, In m (ap_messages params) /\ role m <> system) ->
       ab_messages body
       = tr_messages (transformMessagesForAnthropic (ap_messages params))) /\
      ab_system body = tr_system (transformMessagesForAnthropic (ap_messages params)) /\
      ab_model body = ap_model params /\
      ab_max_tokens body = ap_tokenLimit params /\
      (ab_tools body = None <-> ab_tool_choice body = None) /\
      (ab_tools body = None <-> ap_tools params = None \/ ap_tools params = Some []).
Proof.
  intros params. unfold requestAnthropic. eexists. split; [reflexivity |].
  cbn [ab_messages ab_system ab_model ab_max_tokens ab_tools ab_tool_choice].
  rewrite kept_transformed_system, transform_messages.
  split.
  { destruct (concat (List.map wireOf (ap_messages params))); discriminate. }
  split.
  { intros Hall. apply concat_wireOf_nil in Hall. rewrite Hall. reflexivity. }
  split.
  { intros (m & Hin & Hrole).
    destruct (concat (List.map wireOf (ap_messages params))) as [| w ws] eqn:E;
      [| reflexivity].
    exfalso. apply Hrole. exact (proj1 (concat_wireOf_nil _) E m Hin). }
  split; [reflexivity |]. split; [reflexivity |]. split; [reflexivity |].
  destruct (ap_tools params) as [[| t ts] |]; simpl; split; split;
    try discriminate; try reflexivity; try tauto;
    intros [Hx | Hx]; discriminate.
Qed.

(** X13.  [parseToolArguments] always yields an object: the parsed value
    when it is an object, [{ value: parsed }] for every other parsed value
    ([null] and arrays among them) and [{ _raw: raw }] when the string is no
    JSON.  So it is idempotent through [JSON.stringify] wherever
    [JSON.parse] reads the printed object back. *)
Theorem X13_parseToolArguments_always_object :
  forall raw : string,
    (exists fields, parseToolArguments raw = JObj fields) /\
    (forall fields, JSON_parse raw = Some (JObj fields) ->
                    parseToolArguments raw = JObj fields) /\
    (forall v, JSON_parse raw = Some v -> (forall fields, v <> JObj fields) ->
               parseToolArguments raw = JObj [("value", v)]) /\
    (JSON_parse raw = None -> parseToolArguments raw = JObj [("_raw", JStr raw)]) /\
    (JSON_parse (JSON_stringify (parseToolArguments raw)) = Some (parseToolArguments raw) ->
     parseToolArguments (JSON_stringify (parseToolArguments raw))
     = parseToolArguments raw).
Proof.
  intros raw.
  assert (Hobj : exists fields, parseToolArguments raw = JObj fields).
  { unfold parseToolArguments. destruct (JSON_parse raw) as [[] |]; eauto. }
  split; [exact Hobj |].
  split; [intros fields Hp; unfold parseToolArguments; rewrite Hp; reflexivity |].
  split.
  { intros v Hp Hno. unfold parseToolArguments. rewrite Hp.
    destruct v; try reflexivity. exfalso. exact (Hno fields eq_refl). }
  split; [intros Hp; unfold parseToolArguments; rewrite Hp; reflexivity |].
  destruct Hobj as (fields & Hf). rewrite Hf. intros Hrt.
  unfold parseToolArguments at 1. rewrite Hrt. reflexivity.
Qed.

Lemma omap_toolCall_nil (blocks : list ContentBlock) :
  omap toolCallOfBlock blocks = [] <->
  forall b, In b blocks -> forall id name input, b <> ToolUseBlock id name input.
Proof.
  induction blocks as [| b rest IH]; simpl.
  - split; [intros _ b [] | reflexivity].
  - split.
    + intros Hnil x [<- | Hin] id name input Heq.
      * subst b. discriminate Hnil.
      * destruct (toolCallOfBlock b); [discriminate |].
        exact (proj1 IH Hnil x Hin id name input Heq).
    + intros Hall.
      destruct b as [t | id name input | id c].
      * simpl. apply IH. intros x Hin. apply Hall. right. exact Hin.
      * exfalso. exact (Hall _ (or_introl eq_refl) id name input eq_refl).
      * simpl. apply IH. intros x Hin. apply Hall. right. exact Hin.
Qed.

(** X14.  The response that [chatViaAnthropic] builds.  Its [toolCalls] are
    [undefined] when the content has no [tool_use] block and otherwise one
    call per block, in order, never an empty array.  The call throws
    exactly when there is neither text (after trimming) nor a tool call.  A
    response that is returned is an assistant message with the same tool
    calls, a total of prompt plus completion tokens, no [costCents], and a
    finish reason that is never [tool_use]; the loop takes it as idle exactly
    when it has no tool call and the stop reason is missing or [stop]. *)
Theorem X14_anthropic_response_normalisation :
  forall (model : string) (data : ResponseData),
    let calls := normalizeToolCalls (data_content data) in
    calls <> Some [] /\
    (calls = None <->
     forall b, In b (data_content data) ->
               forall id name input, b <> ToolUseBlock id name input) /\
    (forall l, calls = Some l -> l = omap toolCallOfBlock (data_content data)) /\
    ((exists e, normalizeResponse model data = Threw e) <->
     textContentOf (data_content data) = "" /\ calls = None) /\
    (forall r : InferenceResponse,
        normalizeResponse model data = Returned r ->
        resp_toolCalls r = calls /\
        tool_calls (resp_message r) = calls /\
        role (resp_message r) = assistant /\
        content (resp_message r) = textContentOf (data_content data) /\
        totalTokens (resp_usage r)
        = (promptTokens (resp_usage r) + completionTokens (resp_usage r))%Q /\
        resp_costCents r = None /\
        resp_finishReason r <> "tool_use" /\
        (Loop.isIdle r = true <->
         calls = None /\
         (data_stop_reason data = None \/ data_stop_reason data = Some "stop"))).
Proof.
  intros model data calls.
  assert (Hne : calls <> Some []).
  { subst calls. unfold normalizeToolCalls.
    destruct (omap toolCallOfBlock (data_content data)); discriminate. }
  assert (Hnone : calls = None <->
                  forall b, In b (data_content data) ->
                            forall id name input, b <> ToolUseBlock id name input).
  { rewrite <- omap_toolCall_nil. subst calls. unfold normalizeToolCalls.
    destruct (omap toolCallOfBlock (data_content data)); split; try discriminate;
      reflexivity. }
  split; [exact Hne |]. split; [exact Hnone |].
  split.
  { intros l Hl. subst calls. unfold normalizeToolCalls in Hl.
    destruct (omap toolCallOfBlock (data_content data)); [discriminate |].
    injection Hl as <-. reflexivity. }
  unfold normalizeResponse. fold calls.
  destruct (String.eqb (textContentOf (data_content data)) "") eqn:Etext;
    destruct (bool_decide (calls = None)) eqn:Ecalls; simpl.
  - apply String.eqb_eq in Etext. apply bool_decide_eq_true in Ecalls.
    split; [split; [intros _; split; assumption | intros _; eauto] |].
    intros r Hr. discriminate Hr.
  - apply bool_decide_eq_false in Ecalls.
    split; [split; [intros [e He]; discriminate He | intros [_ Hc]; contradiction] |].
    intros r Hr. injection Hr as <-. simpl.
    repeat (split; [reflexivity |]).
    split.
    { unfold normalizeAnthropicFinishReason.
      destruct (data_stop_reason data) as [reason |]; [| discriminate].
      destruct (String.eqb reason "tool_use") eqn:E; [discriminate |].
      apply String.eqb_neq in E. exact E. }
    unfold Loop.isIdle. simpl.
    destruct calls as [[| c l] |]; try contradiction.
    simpl. split; [discriminate | intros [Hx _]; discriminate].
  - apply String.eqb_neq in Etext. apply bool_decide_eq_true in Ecalls.
    split; [split; [intros [e He]; discriminate He | intros [Ht _]; contradiction] |].
    intros r Hr. injection Hr as <-. simpl.
    repeat (split; [reflexivity |]).
    split.
    { unfold normalizeAnthropicFinishReason.
      destruct (data_stop_reason data) as [reason |]; [| discriminate].
      destruct (String.eqb reason "tool_use") eqn:E; [discriminate |].
      apply String.eqb_neq in E. exact E. }
    unfold Loop.isIdle. simpl. rewrite Ecalls. simpl.
    unfold normalizeAnthropicFinishReason.
    destruct (data_stop_reason data) as [reason |].
    + destruct (String.eqb reason "tool_use") eqn:E.
      * apply String.eqb_eq in E. subst reason. simpl.
        split; [discriminate | intros [_ [Hx | Hx]]; discriminate].
      * destruct (String.eqb reason "stop") eqn:Es.
        { apply String.eqb_eq in Es. subst reason. split; [| reflexivity].
          intros _. split; [reflexivity | right; reflexivity]. }
        { split; [discriminate |]. intros [_ [Hx | Hx]]; [discriminate |].
          injection Hx as ->. discriminate Es. }
    + simpl. split; [| reflexivity]. intros _. split; [reflexivity | left; reflexivity].
  - apply String.eqb_neq in Etext. apply bool_decide_eq_false in Ecalls.
    split; [split; [intros [e He]; discriminate He | intros [Ht _]; contradiction] |].
    intros r Hr. injection Hr as <-. simpl.
    repeat (split; [reflexivity |]).
    split.
    { unfold normalizeAnthropicFinishReason.
      destruct (data_stop_reason data) as [reason |]; [| discriminate].
      destruct (String.eqb reason "tool_use") eqn:E; [discriminate |].
      apply String.eqb_neq in E. exact E. }
    unfold Loop.isIdle. simpl.
    destruct calls as [[| c l] |]; try contradiction.
    simpl. split; [discriminate | intros [Hx _]; discriminate].
Qed.

End AnthropicMore.

(** X11 on a system prompt followed by a user message. *)
Lemma X11_anthropic_translation_witness :
  let messages :=
    [ {| role := system; content := "be brief"; name := None; tool_calls := None;
         tool_call_id := None |};
      {| role := user; content := "hi"; name := None; tool_calls := None;
         tool_call_id := None |} ] in
  Anthropic.tr_system (Anthropic.transformMessagesForAnthropic messages) = Some "be brief" /\
  "be brief" <> "".
Proof.
  intros messages.
  destruct (X11_anthropic_translation_is_messagewise messages []) as (_ & _ & _ & _ & Hsys).
  assert (Hprompt : Anthropic.tr_system (Anthropic.transformMessagesForAnthropic messages)
                    = Some "be brief") by (vm_compute; reflexivity).
  split; [exact Hprompt | exact (Hsys "be brief" Hprompt)].
Defined.

(** X12 on a conversation that holds nothing but a system prompt. *)
Lemma X12_anthropic_request_witness :
  let params :=
    {| Inference.ap_model := "claude-haiku-4-5";
       Inference.ap_tokenLimit := 1024;
       Inference.ap_messages :=
         [ {| role := system; content := "be brief"; name := None; tool_calls := None;
              tool_call_id := None |} ];
       Inference.ap_tools := None;
       Inference.ap_temperature := None;
       Inference.ap_anthropicApiKey := "sk-a" |} in
  exists body : Inference.AnthropicBody,
    Inference.req_payload (Inference.requestAnthropic params)
    = Inference.AnthropicPayload body /\
    Inference.ab_messages body
    = [ {| Anthropic.wm_role := user;
           Anthropic.wm_content := Anthropic.Plain "Continue." |} ].
Proof.
  intros params.
  destruct (X12_anthropic_request_never_empty params)
    as (body & Hpayload & _ & Hsystem & _).
  exists body. split; [exact Hpayload |].
  apply Hsystem. intros m [<- | []]. reflexivity.
Defined.

(** X13 on a string that is JSON but no object. *)
Lemma X13_parseToolArguments_witness :
  Anthropic.parseToolArguments "[1,2]" = JObj [("value", JArr [JNum 1; JNum 2])] /\
  Anthropic.parseToolArguments
    (JSON_stringify (Anthropic.parseToolArguments "[1,2]"))
  = Anthropic.parseToolArguments "[1,2]".
Proof.
  destruct (X13_parseToolArguments_always_object "[1,2]") as (_ & _ & Hvalue & _ & Hidem).
  split.
  - apply Hvalue; [vm_compute; reflexivity | discriminate].
  - apply Hidem. vm_compute. reflexivity.
Defined.

(** X14 on a text-only response with the stop reason [end_turn]: it is
    returned, and the loop does not take it as idle. *)
Lemma X14_anthropic_response_witness :
  let data := {| Anthropic.data_id := "msg_1";
                 Anthropic.data_model := "claude-haiku-4-5";
                 Anthropic.data_content := [Anthropic.TextBlock "done"];
                 Anthropic.data_stop_reason := Some "end_turn";
                 Anthropic.data_input_tokens := 10;
                 Anthropic.data_output_tokens := 2 |} in
  exists r : InferenceResponse,
    Anthropic.normalizeResponse "claude-haiku-4-5" data = Returned r /\
    resp_toolCalls r = None /\
    Loop.isIdle r = false.
Proof.
  intros data.
  destruct (X14_anthropic_response_normalisation "claude-haiku-4-5" data)
    as (_ & _ & _ & _ & Hreturned).
  destruct (Anthropic.normalizeResponse "claude-haiku-4-5" data) as [r | e] eqn:Hr;
    [| vm_compute in Hr; discriminate Hr].
  exists r. split; [reflexivity |].
  destruct (Hreturned r eq_refl) as (Hcalls & _ & _ & _ & _ & _ & _ & Hidle).
  split; [rewrite Hcalls; vm_compute; reflexivity |].
  destruct (Loop.isIdle r) eqn:E; [| reflexivity].
  destruct (proj1 Hidle eq_refl) as [_ [Hx | Hx]]; discriminate Hx.
Defined.

(** ** Cost estimates *)

Section CostFacts.

Import Loop.

Lemma price_of_positive (model : string) (p : Q * Q) :
  price_of model pricing = Some p -> (0 < fst p)%Q /\ (0 < snd p)%Q.
Proof.
  unfold pricing, price_of.
  repeat (destruct (String.eqb model _);
          [intros Hp; injection Hp as <-; split; reflexivity |]).
  discriminate.
Qed.

Lemma price_of_inference (model : string) (p : Q * Q) :
  price_of model Inference.pricing = Some p -> price_of model pricing = Some p.
Proof.
  unfold pricing, Inference.pricing, price_of.
  repeat (destruct (String.eqb model _); [intros Hp; exact Hp |]).
  discriminate.
Qed.

(** The two rates in force for a model: those of its entry in the table or, without
    one, those of [gpt-4o]. *)
Lemma rates_positive (table : list (string * (Q * Q))) (model : string) :
  (forall p, price_of model table = Some p -> (0 < fst p)%Q /\ (0 < snd p)%Q) ->
  let p := match price_of model table with Some p => p | None => (250, 1000)%Q end in
  (0 < fst p)%Q /\ (0 < snd p)%Q.
Proof.
  intros Hpos. destruct (price_of model table) as [p |].
  - apply Hpos. reflexivity.
  - split; reflexivity.
Qed.

Lemma raw_cost_mono (u1 u2 : TokenUsage) (pin pout : Q) :
  (0 < pin)%Q -> (0 < pout)%Q ->
  (promptTokens u1 <= promptTokens u2)%Q ->
  (completionTokens u1 <= completionTokens u2)%Q ->
  (promptTokens u1 / 1000000 * pin + completionTokens u1 / 1000000 * pout
   <= promptTokens u2 / 1000000 * pin + completionTokens u2 / 1000000 * pout)%Q.
Proof.
  intros Hin Hout Hp Hc.
  apply Qplus_le_compat.
  - apply Qmult_le_compat_r; [| apply Qlt_le_weak; exact Hin].
    apply Qmult_le_compat_r; [exact Hp | discriminate].
  - apply Qmult_le_compat_r; [| apply Qlt_le_weak; exact Hout].
    apply Qmult_le_compat_r; [exact Hc | discriminate].
Qed.

Lemma ceil_mono (a b : Q) : (a <= b)%Q -> (Num.ceil a <= Num.ceil b)%Q.
Proof.
  intros Hle. unfold Num.ceil. rewrite <- Zle_Qle. apply Qceiling_resp_le. exact Hle.
Qed.

Lemma ceil_positive (a : Q) : (0 < a)%Q -> (1 <= Num.ceil a)%Q.
Proof.
  intros Hpos. unfold Num.ceil.
  assert (Hz : (0 < Qceiling a)%Z).
  { apply Z.lt_nge. intros Hle.
    assert (Hq : (inject_Z (Qceiling a) <= 0)%Q) by (rewrite Zle_Qle in Hle; exact Hle).
    pose proof (Qle_ceiling a) as Hc. lra. }
  change 1%Q with (inject_Z 1). rewrite <- Zle_Qle. lia.
Qed.

Lemma ceil_zero : Num.ceil 0 = 0%Q.
Proof. reflexivity. Qed.

(** X15.  [estimateCostCents], for a model name that is not an inherited
    property name ([toString] and the like) and token counts that are not
    negative: the estimate is a whole number of cents; it is 0 when no token
    was used and at least 1 as soon as a token was used; it never decreases
    when the token counts grow; a model that is not in the price table is
    priced as [gpt-4o]; and for every model that [estimateInferenceCost]
    has in its own table, that estimate is a number and is at most this
    one. *)
Theorem X15_cost_estimates :
  forall (usage : TokenUsage) (model : string),
    Inference.inherited model = false ->
    (0 <= promptTokens usage)%Q -> (0 <= completionTokens usage)%Q ->
    (exists cents : Z, (0 <= cents)%Z /\ estimateCostCents usage model = inject_Z cents) /\
    ((promptTokens usage == 0)%Q -> (completionTokens usage == 0)%Q ->
     (estimateCostCents usage model == 0)%Q) /\
    ((0 < promptTokens usage)%Q \/ (0 < completionTokens usage)%Q ->
     (1 <= estimateCostCents usage model)%Q) /\
    (forall more : TokenUsage,
        (promptTokens usage <= promptTokens more)%Q ->
        (completionTokens usage <= completionTokens more)%Q ->
        (estimateCostCents usage model <= estimateCostCents more model)%Q) /\
    (price_of model pricing = None ->
     estimateCostCents usage model = estimateCostCents usage "gpt-4o") /\
    (forall p, price_of model Inference.pricing = Some p ->
               exists cents : Q,
                 Inference.estimateInferenceCost usage model = Some cents /\
                 (0 <= cents)%Q /\ (cents <= estimateCostCents usage model)%Q).
Proof.
  intros usage model Hown Hp Hc.
  pose proof (rates_positive pricing model (price_of_positive model)) as Hrates.
  unfold estimateCostCents.
  set (p := match price_of model pricing with Some p => p | None => (250, 1000)%Q end)
    in *.
  destruct Hrates as [Hin Hout].
  set (raw := (promptTokens usage / 1000000 * fst p
               + completionTokens usage / 1000000 * snd p)%Q).
  assert (Hraw : (0 <= raw)%Q).
  { subst raw. apply Qle_trans with (0 / 1000000 * fst p + 0 / 1000000 * snd p)%Q;
      [discriminate |].
    apply (raw_cost_mono {| promptTokens := 0; completionTokens := 0; totalTokens := 0 |}
             usage); assumption. }
  split.
  { exists (Qceiling (raw * 1.3)). split; [| reflexivity].
    apply Z.le_trans with (Qceiling 0); [discriminate |].
    apply Qceiling_resp_le. lra. }
  split.
  { intros Hp0 Hc0.
    assert (Hz : (raw * 1.3 == 0)%Q) by (subst raw; rewrite Hp0, Hc0; field).
    unfold Num.ceil. rewrite Hz. reflexivity. }
  split.
  { intros Hsome. apply ceil_positive.
    assert (Hpos : (0 < raw)%Q).
    { subst raw.
      assert (H1 : (0 <= promptTokens usage / 1000000 * fst p)%Q).
      { apply Qmult_le_0_compat; [| apply Qlt_le_weak; exact Hin].
        apply Qle_shift_div_l; [reflexivity | lra]. }
      assert (H2 : (0 <= completionTokens usage / 1000000 * snd p)%Q).
      { apply Qmult_le_0_compat; [| apply Qlt_le_weak; exact Hout].
        apply Qle_shift_div_l; [reflexivity | lra]. }
      destruct Hsome as [Hs | Hs].
      - assert (H3 : (0 < promptTokens usage / 1000000 * fst p)%Q).
        { apply Qmult_lt_0_compat; [| exact Hin].
          apply Qlt_shift_div_l; [reflexivity | lra]. }
        lra.
      - assert (H3 : (0 < completionTokens usage / 1000000 * snd p)%Q).
        { apply Qmult_lt_0_compat; [| exact Hout].
          apply Qlt_shift_div_l; [reflexivity | lra]. }
        lra. }
    lra. }
  split.
  { intros more Hmp Hmc. apply ceil_mono.
    pose proof (raw_cost_mono usage more (fst p) (snd p) Hin Hout Hmp Hmc) as Hmono.
    fold raw in Hmono. lra. }
  split.
  { intros Hnone. subst raw p. rewrite Hnone. reflexivity. }
  intros q Hq. unfold Inference.estimateInferenceCost. rewrite Hown, Hq.
  pose proof (price_of_inference model q Hq) as Hsame.
  assert (Hpq : p = q) by (subst p; rewrite Hsame; reflexivity).
  subst q. fold raw.
  eexists. split; [reflexivity |]. split.
  - apply Qle_trans with (Num.ceil 0); [discriminate |]. apply ceil_mono. exact Hraw.
  - apply ceil_mono. lra.
Qed.

End CostFacts.

(** X15 on 1200 prompt tokens and 300 completion tokens of [gpt-4o-mini]:
    both estimates are 1 cent. *)
Lemma X15_cost_estimates_witness :
  let usage := {| promptTokens := 1200; completionTokens := 300; totalTokens := 1500 |} in
  (1 <= Loop.estimateCostCents usage "gpt-4o-mini")%Q /\
  (exists cents : Q,
      Inference.estimateInferenceCost usage "gpt-4o-mini" = Some cents /\
      (0 <= cents)%Q /\ (cents <= Loop.estimateCostCents usage "gpt-4o-mini")%Q).
Proof.
  intros usage.
  destruct (X15_cost_estimates usage "gpt-4o-mini") as (_ & _ & Hpos & _ & _ & Hinf).
  { vm_compute. reflexivity. }
  { vm_compute. discriminate. }
  { vm_compute. discriminate. }
  split.
  - apply Hpos. left. vm_compute. reflexivity.
  - apply (Hinf (15, 60)%Q). vm_compute. reflexivity.
Defined.

(** ** The agent loop, further *)

Section LoopMore.

Context `{Builtins} `{Collaborators}.

Import Loop.

Lemma isoNow_reading (env : Env) :
  isoNow env = (toISOString (fst (Date_now env)), snd (Date_now env)).
Proof. unfold isoNow. destruct (Date_now env); reflexivity. Qed.

Lemma getKV_setAgentState (db : AutomatonDatabase) (a : AgentState) (k : string) :
  Db.getKV (Db.setAgentState db a) k = Db.getKV db k.
Proof. reflexivity. Qed.

(** The store after the wake-up, by cases on the start time. *)
Lemma wakeUp_db (config : AutomatonConfig) (inference : InferenceClient)
    (db : AutomatonDatabase) (env : Env) :
  ls_db (fst (fst (wakeUp config inference db env)))
  = Db.setKV
      (Db.setAgentState
         (Db.setAgentState
            (if String.eqb (or_default (Db.getKV db "start_time") "") ""
             then Db.setKV db "start_time" (toISOString (fst (Date_now env)))
             else db)
            as_waking)
         as_running)
      "sleep_until" "".
Proof.
  unfold wakeUp. rewrite isoNow_reading.
  destruct (String.eqb (or_default (Db.getKV db "start_time") "") "");
    destruct OPENAI_API_KEY;
    repeat match goal with
           | |- context [isoNow ?e] => rewrite (isoNow_reading e)
           | |- context [getFinancialState ?e] => destruct (getFinancialState e)
           end; reflexivity.
Qed.

Lemma wakeUp_rest (config : AutomatonConfig) (inference : InferenceClient)
    (db : AutomatonDatabase) (env : Env) :
  let s0 := fst (fst (wakeUp config inference db env)) in
  ls_inference s0 = inference /\
  ls_pendingInput s0 = None /\
  snd (fst (wakeUp config inference db env)) = Nat.eqb (length (db_turns db)) 0 /\
  (OPENAI_API_KEY = true ->
   creditsCents (ls_financial s0) = 99999%Q /\ usdcBalance (ls_financial s0) = 0%Q).
Proof.
  unfold wakeUp. rewrite isoNow_reading.
  destruct (String.eqb (or_default (Db.getKV db "start_time") "") "");
    destruct OPENAI_API_KEY;
    repeat match goal with
           | |- context [isoNow ?e] => rewrite (isoNow_reading e)
           | |- context [getFinancialState ?e] => destruct (getFinancialState e)
           end; cbn; repeat split; try reflexivity; discriminate.
Qed.

(** X16.  The wake-up writes [start_time] only when the store has none, so
    the uptime of the economics engine counts from the first wake; it clears
    the sleep timer, so the loop's own sleep check is negative on the store
    as the wake-up leaves it; it leaves the agent [running], every other key
    and every table as they were; the session is a first run exactly when the store
    has no turn; and with [OPENAI_API_KEY] set the credits read 99999 cents
    and the USDC balance 0. *)
Theorem X16_wake_up_keeps_first_start_time :
  forall (config : AutomatonConfig) (inference : InferenceClient)
         (db : AutomatonDatabase) (env : Env),
    let s0 := fst (fst (wakeUp config inference db env)) in
    (forall t : string,
        Db.getKV db "start_time" = Some t -> t <> "" ->
        Db.getKV (ls_db s0) "start_time" = Some t) /\
    (or_default (Db.getKV db "start_time") "" = "" ->
     Db.getKV (ls_db s0) "start_time" = Some (toISOString (fst (Date_now env)))) /\
    Db.getKV (ls_db s0) "sleep_until" = Some "" /\
    fst (sleepPending s0) = false /\
    db_agentState (ls_db s0) = as_running /\
    (forall k : string,
        k <> "start_time" -> k <> "sleep_until" ->
        Db.getKV (ls_db s0) k = Db.getKV db k) /\
    (db_turns (ls_db s0), db_toolCalls (ls_db s0), db_snapshots (ls_db s0),
     db_inbox (ls_db s0), db_processed (ls_db s0))
    = (db_turns db, db_toolCalls db, db_snapshots db, db_inbox db, db_processed db) /\
    snd (fst (wakeUp config inference db env)) = Nat.eqb (length (db_turns db)) 0 /\
    ls_inference s0 = inference /\
    ls_pendingInput s0 = None /\
    (OPENAI_API_KEY = true ->
     creditsCents (ls_financial s0) = 99999%Q /\ usdcBalance (ls_financial s0) = 0%Q).
Proof.
  intros config inference db env s0.
  pose proof (wakeUp_db config inference db env) as Hdb. fold s0 in Hdb.
  destruct (wakeUp_rest config inference db env) as (Hinf & Hpending & Hfirst & Hfin).
  fold s0 in Hinf, Hpending, Hfin.
  assert (Htimer : Db.getKV (ls_db s0) "sleep_until" = Some "").
  { rewrite Hdb, getKV_setKV. reflexivity. }
  split.
  { intros t Ht Hne. rewrite Hdb, getKV_setKV. cbn [String.eqb Ascii.eqb Bool.eqb].
    rewrite !getKV_setAgentState.
    assert (E : String.eqb (or_default (Db.getKV db "start_time") "") "" = false).
    { rewrite Ht. unfold or_default. destruct (String.eqb t "") eqn:Et; [| exact Et].
      apply String.eqb_eq in Et. contradiction. }
    rewrite E. exact Ht. }
  split.
  { intros Hnone. rewrite Hdb, getKV_setKV. cbn [String.eqb Ascii.eqb Bool.eqb].
    rewrite !getKV_setAgentState, Hnone. cbn [String.eqb].
    rewrite getKV_setKV, String.eqb_refl. reflexivity. }
  split; [exact Htimer |].
  split; [unfold sleepPending; rewrite Htimer; reflexivity |].
  split; [rewrite Hdb; reflexivity |].
  split.
  { intros k Hk1 Hk2. rewrite Hdb, getKV_setKV.
    assert (E2 : String.eqb "sleep_until" k = false).
    { apply String.eqb_neq. intros Heq. apply Hk2. symmetry. exact Heq. }
    rewrite E2, !getKV_setAgentState.
    destruct (String.eqb (or_default (Db.getKV db "start_time") "") ""); [| reflexivity].
    rewrite getKV_setKV.
    assert (E1 : String.eqb "start_time" k = false).
    { apply String.eqb_neq. intros Heq. apply Hk1. symmetry. exact Heq. }
    rewrite E1. reflexivity. }
  split.
  { rewrite Hdb.
    destruct (String.eqb (or_default (Db.getKV db "start_time") "") ""); reflexivity. }
  split; [exact Hfirst |]. split; [exact Hinf |]. split; [exact Hpending | exact Hfin].
Qed.

(** *** What the steps before the inference call leave alone in the store *)

Lemma sleepPending_state (s : LoopState) :
  ls_db (snd (sleepPending s)) = ls_db s /\
  ls_inference (snd (sleepPending s)) = ls_inference s /\
  ls_pendingInput (snd (sleepPending s)) = ls_pendingInput s /\
  ls_financial (snd (sleepPending s)) = ls_financial s.
Proof. unfold sleepPending. repeat case_match; repeat split; reflexivity. Qed.

Lemma markProcessed_frame (messages : list InboxMessage) (db : AutomatonDatabase) :
  let db' := fold_left (fun d m => Db.markInboxMessageProcessed d (msg_id m)) messages db in
  db_kv db' = db_kv db /\ db_agentState db' = db_agentState db /\
  db_turns db' = db_turns db /\ db_toolCalls db' = db_toolCalls db /\
  db_snapshots db' = db_snapshots db /\ db_inbox db' = db_inbox db.
Proof.
  revert db. induction messages as [| m rest IH]; intros db; [repeat split |].
  simpl. destruct (IH (Db.markInboxMessageProcessed db (msg_id m)))
    as (H1 & H2 & H3 & H4 & H5 & H6).
  rewrite H1, H2, H3, H4, H5, H6. repeat split.
Qed.

Lemma pullInbox_state (s : LoopState) :
  db_kv (ls_db (pullInbox s)) = db_kv (ls_db s) /\
  db_agentState (ls_db (pullInbox s)) = db_agentState (ls_db s) /\
  db_turns (ls_db (pullInbox s)) = db_turns (ls_db s) /\
  db_toolCalls (ls_db (pullInbox s)) = db_toolCalls (ls_db s) /\
  db_snapshots (ls_db (pullInbox s)) = db_snapshots (ls_db s) /\
  ls_inference (pullInbox s) = ls_inference s /\
  ls_env (pullInbox s) = ls_env s /\
  ls_financial (pullInbox s) = ls_financial s.
Proof.
  unfold pullInbox. destruct (ls_pendingInput s); [repeat split |].
  destruct (Db.getUnprocessedInboxMessages (ls_db s) 5) as [| m rest]; [repeat split |].
  destruct (markProcessed_frame (m :: rest) (ls_db s)) as (H1 & H2 & H3 & H4 & H5 & _).
  cbn [ls_db with_db with_pendingInput ls_inference ls_env ls_financial].
  repeat split; assumption.
Qed.

Lemma refreshFinancial_state (s : LoopState) :
  ls_db (refreshFinancial s) = ls_db s /\
  ls_inference (refreshFinancial s) = ls_inference s /\
  ls_pendingInput (refreshFinancial s) = ls_pendingInput s.
Proof. unfold refreshFinancial. repeat case_match; repeat split; reflexivity. Qed.

Lemma surveyTier_state (config : AutomatonConfig) (s : LoopState) :
  ls_db (snd (surveyTier config s)) = ls_db s /\
  ls_inference (snd (surveyTier config s)) = ls_inference s /\
  ls_pendingInput (snd (surveyTier config s)) = ls_pendingInput s /\
  ls_financial (snd (surveyTier config s)) = ls_financial s.
Proof. unfold surveyTier. repeat case_match; repeat split; reflexivity. Qed.

(** The economics engine reads nothing of the store but its keys and the
    number of its turns. *)
Lemma economics_reads_keys (db db' : AutomatonDatabase) :
  db_kv db = db_kv db' ->
  Economics.getTotalSpent db = Economics.getTotalSpent db' /\
  Economics.getTotalEarned db = Economics.getTotalEarned db' /\
  (forall now, Economics.getUptimeHours db now = Economics.getUptimeHours db' now) /\
  (forall now, Economics.calculateBurnRate db now = Economics.calculateBurnRate db' now) /\
  (forall config clk,
      runwayHours (Economics.getEconomicsSnapshot db config clk)
      = runwayHours (Economics.getEconomicsSnapshot db' config clk)).
Proof.
  intros Hkv.
  assert (Hget : forall k, Db.getKV db k = Db.getKV db' k).
  { intros k. unfold Db.getKV. rewrite Hkv. reflexivity. }
  assert (Hspent : Economics.getTotalSpent db = Economics.getTotalSpent db').
  { unfold Economics.getTotalSpent. rewrite Hget. reflexivity. }
  assert (Hearned : Economics.getTotalEarned db = Economics.getTotalEarned db').
  { unfold Economics.getTotalEarned. rewrite Hget. reflexivity. }
  assert (Hup : forall now, Economics.getUptimeHours db now
                            = Economics.getUptimeHours db' now).
  { intros now. unfold Economics.getUptimeHours. rewrite Hget. reflexivity. }
  assert (Hburn : forall now, Economics.calculateBurnRate db now
                              = Economics.calculateBurnRate db' now).
  { intros now. unfold Economics.calculateBurnRate. rewrite Hup, Hspent. reflexivity. }
  split; [exact Hspent |]. split; [exact Hearned |]. split; [exact Hup |].
  split; [exact Hburn |].
  intros config clk. unfold Economics.getEconomicsSnapshot. simpl.
  rewrite Hburn, Hspent, Hearned. reflexivity.
Qed.

(** A store with a valid start time that has spent something burns. *)
Lemma burn_rate_positive (db : AutomatonDatabase) (now t : Q) (startTime : string) :
  Db.getKV db "start_time" = Some startTime -> startTime <> "" ->
  Date_getTime startTime = Some t ->
  (0 < Economics.getTotalSpent db)%Q ->
  (0 < Economics.calculateBurnRate db now)%Q.
Proof.
  intros Hkv Hne Ht Hspent.
  pose proof (getUptimeHours_started db now t startTime Hkv Hne Ht) as Hup.
  assert (Hpos : (0 < Economics.getUptimeHours db now)%Q).
  { rewrite Hup. eapply Qlt_le_trans; [| apply Q.le_max_r]. reflexivity. }
  unfold Economics.calculateBurnRate.
  assert (Hle : Num.le (Economics.getUptimeHours db now) 0 = false)
    by (apply le_false; exact Hpos).
  rewrite Hle. apply Qlt_shift_div_l; [exact Hpos |]. lra.
Qed.

(** X17.  On the OpenAI-direct path, an agent whose start time is valid and
    whose spending is positive and has reached its budget plus its earnings
    is found [dead] by its next iteration, whatever the clock reads (the
    boundaries are those of [RUNWAY_TIERS], none of them negative): the
    iteration calls neither the backend nor a tool, records no turn, leaves
    every key of the store, the turn counter and the inference client as
    they were, sets the agent state [dead] and ends the loop. *)
Theorem X17_exhausted_budget_ends_the_session :
  forall (config : AutomatonConfig) (isFirstRun : bool) (s : LoopState)
         (startTime : string) (t : Q),
    OPENAI_API_KEY = true ->
    fst (sleepPending s) = false ->
    Db.getKV (ls_db s) "start_time" = Some startTime -> startTime <> "" ->
    Date_getTime startTime = Some t ->
    (0 < Economics.getTotalSpent (ls_db s))%Q ->
    (cfg_budgetCents config + Economics.getTotalEarned (ls_db s)
     <= Economics.getTotalSpent (ls_db s))%Q ->
    let r := iteration config isFirstRun s in
    snd r = Died /\
    running (fst r) = false /\
    db_agentState (ls_db (fst r)) = as_dead /\
    db_kv (ls_db (fst r)) = db_kv (ls_db s) /\
    db_turns (ls_db (fst r)) = db_turns (ls_db s) /\
    db_toolCalls (ls_db (fst r)) = db_toolCalls (ls_db s) /\
    history (fst r) = history s /\
    turnsThisWake (fst r) = turnsThisWake s /\
    ls_inference (fst r) = ls_inference s.
Proof.
  intros config isFirstRun s startTime t Hkey Hawake Hstart Hne Ht Hspent Hbudget r.
  subst r. unfold iteration.
  destruct (sleepPending_frame s) as [Hc0 Hg0].
  destruct (sleepPending_state s) as (Hdb0 & Hinf0 & _).
  destruct (sleepPending s) as [pending s0]. simpl in Hawake, Hc0, Hg0, Hdb0, Hinf0.
  subst pending.
  destruct (pullInbox_frame s0) as [Hc1 Hg1].
  destruct (pullInbox_state s0) as (Hkv1 & _ & Hturns1 & Hcalls1 & _ & Hinf1 & _).
  destruct (refreshFinancial_frame (pullInbox s0)) as [Hc2 Hg2].
  destruct (refreshFinancial_state (pullInbox s0)) as (Hdb2 & Hinf2 & _).
  set (s1 := refreshFinancial (pullInbox s0)) in *.
  destruct (surveyTier_frame config s1) as [Hc3 Hg3].
  destruct (surveyTier_state config s1) as (Hdb3 & Hinf3 & _).
  assert (Hkv : db_kv (ls_db s1) = db_kv (ls_db s)).
  { rewrite Hdb2, Hkv1, Hdb0. reflexivity. }
  assert (Htier : fst (surveyTier config s1) = dead).
  { unfold surveyTier. rewrite Hkey.
    destruct (readSnapshotClock (ls_env s1)) as [clk env']. cbn [fst].
    destruct (economics_reads_keys (ls_db s1) (ls_db s) Hkv) as (_ & _ & _ & _ & Hrun).
    rewrite Hrun.
    pose proof (burn_rate_positive (ls_db s) (Economics.clk_burn clk) t startTime
                  Hstart Hne Ht Hspent) as Hburn.
    pose proof (snapshot_balance (ls_db s) config clk) as Hbal.
    pose proof (snapshot_runway_burning (ls_db s) config clk Hburn) as Hrunway.
    assert (Hzero : (runwayHours (Economics.getEconomicsSnapshot (ls_db s) config clk)
                     == 0)%Q).
    { rewrite Hrunway, Hbal.
      assert (Hmax : (Qmax (budgetCents (Economics.getEconomicsSnapshot (ls_db s) config clk)
                            - totalSpentCents (Economics.getEconomicsSnapshot (ls_db s) config clk)
                            + totalEarnedCents (Economics.getEconomicsSnapshot (ls_db s) config clk))
                        0 == 0)%Q).
      { apply Q.max_r. simpl. lra. }
      rewrite Hmax. unfold Qdiv. apply Qmult_0_l. }
    rewrite (getRunwayTier_compat RUNWAY_TIERS _ _ Hzero). reflexivity. }
  destruct (surveyTier config s1) as [tier s2]. simpl in Htier, Hc3, Hg3, Hdb3, Hinf3.
  subst tier. cbn [fst snd].
  apply control_inv in Hc0, Hc1, Hc2, Hc3. apply guards_inv in Hg0, Hg1, Hg2, Hg3.
  destruct Hc0 as (_ & _ & Ht0 & _). destruct Hc1 as (_ & _ & Ht1 & _).
  destruct Hc2 as (_ & _ & Ht2 & _). destruct Hc3 as (_ & _ & Ht3 & _).
  destruct Hg0 as (_ & _ & Hh0). destruct Hg1 as (_ & _ & Hh1).
  destruct Hg2 as (_ & _ & Hh2). destruct Hg3 as (_ & _ & Hh3).
  split; [reflexivity |]. split; [reflexivity |]. split; [reflexivity |].
  cbn [with_running setState with_db ls_db Db.setAgentState db_kv db_turns db_toolCalls
       history turnsThisWake ls_inference].
  rewrite Hdb3.
  split; [exact Hkv |].
  split; [rewrite Hdb2, Hturns1, Hdb0; reflexivity |].
  split; [rewrite Hdb2, Hcalls1, Hdb0; reflexivity |].
  split; [rewrite Hh3, Hh2, Hh1, Hh0; reflexivity |].
  split; [rewrite Ht3, Ht2, Ht1, Ht0; reflexivity |].
  rewrite Hinf3, Hinf2, Hinf1, Hinf0. reflexivity.
Qed.

(** *** The final checks of a turn, in their order *)

Lemma choseSleep_first (turn : AgentTurn) :
  choseSleep turn = true <->
  exists before tc after,
    turn_toolCalls turn = before ++ tc :: after /\
    Forall (fun x => tcr_name x <> "sleep") before /\
    tcr_name tc = "sleep" /\ or_default (tcr_error tc) "" = "".
Proof.
  unfold choseSleep.
  induction (turn_toolCalls turn) as [| x l IH].
  - simpl. split; [discriminate |].
    intros (before & tc & after & Hl & _). destruct before; discriminate Hl.
  - simpl. destruct (String.eqb (tcr_name x) "sleep") eqn:E.
    + apply String.eqb_eq in E. split.
      * intros Herr. apply String.eqb_eq in Herr.
        exists [], x, l. repeat split; [constructor | exact E | exact Herr].
      * intros (before & tc & after & Hl & Hbefore & Hname & Herr).
        destruct before as [| b before].
        { simpl in Hl. injection Hl as -> _. rewrite Herr. reflexivity. }
        { simpl in Hl. injection Hl as <- _.
          apply Forall_cons in Hbefore as [Hb _]. contradiction. }
    + apply String.eqb_neq in E. rewrite IH. split.
      * intros (before & tc & after & Hl & Hbefore & Hname & Herr).
        exists (x :: before), tc, after. subst l.
        repeat split; [constructor; assumption | exact Hname | exact Herr].
      * intros (before & tc & after & Hl & Hbefore & Hname & Herr).
        destruct before as [| b before].
        { simpl in Hl. injection Hl as <- _. contradiction. }
        { simpl in Hl. injection Hl as _ ->.
          apply Forall_cons in Hbefore as [_ Hbefore].
          exists before, tc, after. repeat split; assumption. }
Qed.

(** X18.  The final checks of a turn are tried in a fixed order and the
    first that applies decides: the stuck-loop rule, then a call of the
    [sleep] tool, then the turn cap, then the idle rule; otherwise the loop
    goes on.  The [sleep] tool counts when the first result named [sleep]
    has no error; in that case the loop sets the agent state [sleeping] and
    writes no deadline of its own, also on a turn that reaches the cap.
    The idle rule sets [sleeping] with a deadline of the clock reading plus
    300000 milliseconds.  A turn after which the loop goes on leaves the
    store as it is and resets the error counter. *)
Theorem X18_final_checks_in_order :
  forall (turn : AgentTurn) (response : InferenceResponse) (s : LoopState),
    let r := conclude turn response s in
    let repeats :=
      snd (detectStuck (turn_toolCalls turn) (lastToolName s) (consecutiveSameTool s)) in
    (snd r = HaltStuck <-> 3 <= repeats) /\
    (snd r = HaltSleepTool <-> repeats < 3 /\ choseSleep turn = true) /\
    (snd r = HaltTurnCap <->
     repeats < 3 /\ choseSleep turn = false /\ 20 <= turnsThisWake s) /\
    (snd r = HaltIdle <->
     repeats < 3 /\ choseSleep turn = false /\ turnsThisWake s < 20 /\
     isIdle response = true) /\
    (snd r = Continue <->
     repeats < 3 /\ choseSleep turn = false /\ turnsThisWake s < 20 /\
     isIdle response = false) /\
    (choseSleep turn = true <->
     exists before tc after,
       turn_toolCalls turn = before ++ tc :: after /\
       Forall (fun x => tcr_name x <> "sleep") before /\
       tcr_name tc = "sleep" /\ or_default (tcr_error tc) "" = "") /\
    (snd r = HaltSleepTool ->
     running (fst r) = false /\
     ls_db (fst r) = Db.setAgentState (ls_db s) as_sleeping /\
     ls_env (fst r) = ls_env s) /\
    (snd r = HaltIdle ->
     running (fst r) = false /\
     db_agentState (ls_db (fst r)) = as_sleeping /\
     Db.getKV (ls_db (fst r)) "sleep_until"
     = Some (toISOString (fst (Date_now (ls_env s)) + 300000)%Q) /\
     consecutiveErrors (fst r) = 0) /\
    (snd r = Continue ->
     running (fst r) = running s /\ ls_db (fst r) = ls_db s /\
     ls_env (fst r) = ls_env s /\ consecutiveErrors (fst r) = 0).
Proof.
  intros turn response s r repeats.
  assert (Hcount : consecutiveSameTool
                     (with_stuck s (detectStuck (turn_toolCalls turn) (lastToolName s)
                                      (consecutiveSameTool s))) = repeats) by reflexivity.
  assert (Hturns : turnsThisWake
                     (with_stuck s (detectStuck (turn_toolCalls turn) (lastToolName s)
                                      (consecutiveSameTool s))) = turnsThisWake s)
    by reflexivity.
  subst r. unfold conclude. rewrite Hcount, Hturns. unfold MAX_TURNS_PER_WAKE.
  destruct (Nat.leb 3 repeats) eqn:Estuck.
  { apply Nat.leb_le in Estuck. cbn [fst snd].
    split; [tauto |].
    split; [split; [discriminate | intros [Hx _]; lia] |].
    split; [split; [discriminate | intros [Hx _]; lia] |].
    split; [split; [discriminate | intros [Hx _]; lia] |].
    split; [split; [discriminate | intros [Hx _]; lia] |].
    split; [apply choseSleep_first |].
    split; [discriminate |]. split; discriminate. }
  apply Nat.leb_gt in Estuck.
  destruct (choseSleep turn) eqn:Esleep.
  { cbn [fst snd].
    split; [split; [discriminate | lia] |].
    split; [tauto |].
    split; [split; [discriminate | intros (_ & Hx & _); discriminate] |].
    split; [split; [discriminate | intros (_ & Hx & _); discriminate] |].
    split; [split; [discriminate | intros (_ & Hx & _); discriminate] |].
    split; [pose proof (choseSleep_first turn) as Hfirst; rewrite Esleep in Hfirst; exact Hfirst |].
    split; [intros _; repeat split |]. split; discriminate. }
  destruct (Nat.leb 20 (turnsThisWake s)) eqn:Ecap.
  { apply Nat.leb_le in Ecap. cbn [fst snd].
    split; [split; [discriminate | lia] |].
    split; [split; [discriminate | intros [_ Hx]; discriminate] |].
    split; [tauto |].
    split; [split; [discriminate | intros (_ & _ & Hx & _); lia] |].
    split; [split; [discriminate | intros (_ & _ & Hx & _); lia] |].
    split; [pose proof (choseSleep_first turn) as Hfirst; rewrite Esleep in Hfirst; exact Hfirst |].
    split; [discriminate |]. split; discriminate. }
  apply Nat.leb_gt in Ecap.
  destruct (isIdle response) eqn:Eidle.
  { cbn [fst snd].
    split; [split; [discriminate | lia] |].
    split; [split; [discriminate | intros [_ Hx]; discriminate] |].
    split; [split; [discriminate | intros (_ & _ & Hx); lia] |].
    split; [tauto |].
    split; [split; [discriminate | intros (_ & _ & _ & Hx); discriminate] |].
    split; [pose proof (choseSleep_first turn) as Hfirst; rewrite Esleep in Hfirst; exact Hfirst |].
    split; [discriminate |].
    split; [| discriminate].
    intros _. split; [reflexivity |]. split; [reflexivity |].
    split; [| reflexivity].
    cbn. apply lookup_insert_eq. }
  cbn [fst snd].
  split; [split; [discriminate | lia] |].
  split; [split; [discriminate | intros [_ Hx]; discriminate] |].
  split; [split; [discriminate | intros (_ & _ & Hx); lia] |].
  split; [split; [discriminate | intros (_ & _ & _ & Hx); discriminate] |].
  split; [tauto |].
  split; [pose proof (choseSleep_first turn) as Hfirst; rewrite Esleep in Hfirst; exact Hfirst |].
  split; [discriminate |]. split; [discriminate |].
  intros _. repeat split.
Qed.

(** *** The financial state *)

(** X21.  Without [OPENAI_API_KEY] the loop reads the financial state from
    Conway before every tier check, and a query that throws is not an
    error: it counts as a balance of 0.  The USDC query is made after the
    credits query whether that one failed or not.  The tier of the
    iteration is then [getSurvivalTier] of the credits so read, hence
    [getSurvivalTier(0)] when the credits query failed.  The store is not
    touched. *)
Theorem X21_failed_balance_query_reads_as_zero :
  forall (config : AutomatonConfig) (s : LoopState),
    OPENAI_API_KEY = false ->
    let s1 := refreshFinancial s in
    let credits := getCreditsBalance (ls_env s) in
    let usdc := getUsdcBalance (snd credits) in
    (forall e, fst credits = Threw e -> creditsCents (ls_financial s1) = 0%Q) /\
    (forall c, fst credits = Returned c -> creditsCents (ls_financial s1) = c) /\
    (forall e, fst usdc = Threw e -> usdcBalance (ls_financial s1) = 0%Q) /\
    (forall u, fst usdc = Returned u -> usdcBalance (ls_financial s1) = u) /\
    fst (surveyTier config s1) = getSurvivalTier (creditsCents (ls_financial s1)) /\
    ((exists e, fst credits = Threw e) ->
     fst (surveyTier config s1) = getSurvivalTier 0) /\
    ls_db s1 = ls_db s.
Proof.
  intros config s Hkey s1 credits usdc.
  assert (Hfin : creditsCents (ls_financial s1)
                 = match fst credits with Returned v => v | Threw _ => 0%Q end /\
                 usdcBalance (ls_financial s1)
                 = match fst usdc with Returned v => v | Threw _ => 0%Q end /\
                 ls_db s1 = ls_db s).
  { subst s1 credits usdc. unfold refreshFinancial. rewrite Hkey.
    unfold getFinancialState.
    destruct (getCreditsBalance (ls_env s)) as [c env1]. cbn [fst snd].
    destruct (getUsdcBalance env1) as [u env2]. cbn [fst snd].
    destruct (isoNow env2) as [stamp env3]. cbn. repeat split. }
  destruct Hfin as (Hc & Hu & Hdb).
  assert (Htier : fst (surveyTier config s1)
                  = getSurvivalTier (creditsCents (ls_financial s1))).
  { unfold surveyTier. rewrite Hkey. reflexivity. }
  split; [intros e He; rewrite Hc, He; reflexivity |].
  split; [intros c He; rewrite Hc, He; reflexivity |].
  split; [intros e He; rewrite Hu, He; reflexivity |].
  split; [intros u He; rewrite Hu, He; reflexivity |].
  split; [exact Htier |].
  split; [| exact Hdb].
  intros [e He]. rewrite Htier, Hc, He. reflexivity.
Qed.

(** *** The economics step of a turn *)

Lemma getTotalSpent_setKV (db : AutomatonDatabase) (k v : string) :
  k <> "total_spent_cents" ->
  Economics.getTotalSpent (Db.setKV db k v) = Economics.getTotalSpent db.
Proof.
  intros Hk. unfold Economics.getTotalSpent. rewrite getKV_setKV.
  assert (E : String.eqb k "total_spent_cents" = false) by (apply String.eqb_neq; exact Hk).
  rewrite E. reflexivity.
Qed.

(** X22.  The economics step of a turn records the cost that the response
    reports and, only when it reports none, the estimate of the loop; the
    total spent grows by that cost, provided [String] and [Number] read the
    new total back.  It stores a snapshot, in the snapshot table and under
    [last_economics_snapshot], exactly when the number of turns in the store
    is a multiple of 5, and changes no turn of the store. *)
Theorem X22_turn_cost_and_snapshot_every_fifth_turn :
  forall (config : AutomatonConfig) (turn : AgentTurn) (response : InferenceResponse)
         (s : LoopState),
    let cost := match resp_costCents response with
                | Some c => c
                | None => turn_costCents turn
                end in
    let s' := trackEconomics config turn response s in
    String_of_number (Economics.getTotalSpent (ls_db s) + cost)%Q <> "" ->
    (Number (String_of_number (Economics.getTotalSpent (ls_db s) + cost)%Q)
     == Economics.getTotalSpent (ls_db s) + cost)%Q ->
    (Economics.getTotalSpent (ls_db s') == Economics.getTotalSpent (ls_db s) + cost)%Q /\
    Db.getKV (ls_db s') ("turn_cost_" +:+ turn_id turn) = Some (String_of_number cost) /\
    db_turns (ls_db s') = db_turns (ls_db s) /\
    (length (db_turns (ls_db s)) mod 5 = 0 ->
     exists snapshot : EconomicsSnapshot,
       db_snapshots (ls_db s') = db_snapshots (ls_db s) ++ [snapshot] /\
       Db.getKV (ls_db s') "last_economics_snapshot"
       = Some (JSON_stringify_snapshot snapshot) /\
       turnsTotal snapshot = length (db_turns (ls_db s)) /\
       (totalSpentCents snapshot == Economics.getTotalSpent (ls_db s) + cost)%Q) /\
    (length (db_turns (ls_db s)) mod 5 <> 0 ->
     db_snapshots (ls_db s') = db_snapshots (ls_db s) /\
     Db.getKV (ls_db s') "last_economics_snapshot"
     = Db.getKV (ls_db s) "last_economics_snapshot").
Proof.
  intros config turn response s cost s' Hne Hrt.
  set (db1 := Economics.recordTurnCost (ls_db s) (turn_id turn) cost).
  assert (Hspent1 : (Economics.getTotalSpent db1 == Economics.getTotalSpent (ls_db s) + cost)%Q).
  { unfold Economics.getTotalSpent at 1. subst db1. rewrite getKV_recordTurnCost.
    rewrite String.eqb_refl. unfold or_default.
    destruct (String.eqb (String_of_number (Economics.getTotalSpent (ls_db s) + cost)%Q) "")
      eqn:E.
    { apply String.eqb_eq in E. contradiction. }
    exact Hrt. }
  assert (Hcost1 : Db.getKV db1 ("turn_cost_" +:+ turn_id turn)
                   = Some (String_of_number cost)).
  { subst db1. rewrite getKV_recordTurnCost.
    destruct (turn_cost_key_fresh (turn_id turn)) as (Hk & _).
    assert (E1 : String.eqb "total_spent_cents" ("turn_cost_" +:+ turn_id turn) = false).
    { apply String.eqb_neq. intros Heq. apply Hk. symmetry. exact Heq. }
    rewrite E1, String.eqb_refl. reflexivity. }
  assert (Hcount : Db.getTurnCount db1 = length (db_turns (ls_db s))) by reflexivity.
  subst s'. unfold trackEconomics. fold cost. fold db1. rewrite Hcount.
  destruct (Nat.eqb (length (db_turns (ls_db s)) mod 5) 0) eqn:Efive.
  - apply Nat.eqb_eq in Efive.
    destruct (readSnapshotClock (ls_env s)) as [clk env'].
    cbn [ls_db with_env with_db].
    split.
    { rewrite getTotalSpent_setKV by discriminate. exact Hspent1. }
    split.
    { rewrite getKV_setKV.
      assert (E : String.eqb "last_economics_snapshot" ("turn_cost_" +:+ turn_id turn)
                  = false) by reflexivity.
      rewrite E. exact Hcost1. }
    split; [reflexivity |]. split; [| intros Hx; contradiction].
    intros _. exists (Economics.getEconomicsSnapshot db1 config clk).
    split; [reflexivity |].
    split; [rewrite getKV_setKV, String.eqb_refl; reflexivity |].
    split; [reflexivity |]. exact Hspent1.
  - apply Nat.eqb_neq in Efive. cbn [ls_db with_db].
    split; [exact Hspent1 |]. split; [exact Hcost1 |]. split; [reflexivity |].
    split; [intros Hx; contradiction |].
    intros _. split; [reflexivity |].
    subst db1. rewrite getKV_recordTurnCost.
    assert (E1 : String.eqb "total_spent_cents" "last_economics_snapshot" = false)
      by reflexivity.
    assert (E2 : String.eqb ("turn_cost_" +:+ turn_id turn) "last_economics_snapshot"
                 = false) by reflexivity.
    rewrite E1, E2. reflexivity.
Qed.

End LoopMore.

(** X16 on the store of the scenario, which was started at instant 0. *)
Lemma X16_wake_up_witness :
  let s0 := fst (fst (Loop.wakeUp Fixture.config Fixture.client Fixture.scenarioDb
                        (Fixture.world []))) in
  Db.getKV (Loop.ls_db s0) "start_time" = Some "0" /\
  Db.getKV (Loop.ls_db s0) "total_spent_cents" = Some "500".
Proof.
  intros s0.
  destruct (@X16_wake_up_keeps_first_start_time Fixture.builtins Fixture.collaborators
              Fixture.config Fixture.client
              Fixture.scenarioDb (Fixture.world []))
    as (Hkept & _ & _ & _ & _ & Hother & _).
  split.
  - apply Hkept; [vm_compute; reflexivity | discriminate].
  - fold s0 in Hother. rewrite Hother; [vm_compute; reflexivity | discriminate | discriminate].
Defined.

(** X17 on the store of the scenario with a budget of 300 cents, of which
    500 are spent. *)
Lemma X17_exhausted_budget_witness :
  let s := Loop.mkLoop Fixture.scenarioDb (Fixture.world []) Fixture.client
             {| creditsCents := 99999; usdcBalance := 0; lastChecked := "0" |}
             None 0 true 0 "" 0 ∅ ∅ [] in
  let r := Loop.iteration {| cfg_budgetCents := 300; cfg_name := "automaton" |} false s in
  snd r = Loop.Died /\ db_agentState (Loop.ls_db (fst r)) = as_dead.
Proof.
  intros s r.
  destruct (@X17_exhausted_budget_ends_the_session Fixture.builtins Fixture.collaborators
              {| cfg_budgetCents := 300; cfg_name := "automaton" |} false s "0" 0)
    as (Hdied & _ & Hstate & _).
  - reflexivity.
  - vm_compute. reflexivity.
  - vm_compute. reflexivity.
  - discriminate.
  - vm_compute. reflexivity.
  - vm_compute. reflexivity.
  - vm_compute. discriminate.
  - split; [exact Hdied | exact Hstate].
Defined.

(** X18 on a turn whose first [sleep] call failed and whose second one
    succeeded: the first one counts, so the turn does not end the loop. *)
Lemma X18_final_checks_witness :
  let failed := {| tcr_id := "c1"; tcr_name := "sleep"; tcr_arguments := JObj [];
                   tcr_result := ""; tcr_error := Some "busy"; tcr_durationMs := 1 |} in
  let passed := {| tcr_id := "c2"; tcr_name := "sleep"; tcr_arguments := JObj [];
                   tcr_result := "ok"; tcr_error := None; tcr_durationMs := 1 |} in
  let turn := {| turn_id := "t1"; turn_timestamp := "0"; turn_state := as_running;
                 turn_input := None; turn_inputSource := None; turn_thinking := "";
                 turn_toolCalls := [failed; passed];
                 turn_tokenUsage := Fixture.noUsage; turn_costCents := 0 |} in
  let response := {| resp_id := "r"; resp_model := "gpt-4o";
                     resp_message := {| role := assistant; content := ""; name := None;
                                        tool_calls := None; tool_call_id := None |};
                     resp_toolCalls := None; resp_usage := Fixture.noUsage;
                     resp_finishReason := "tool_calls"; resp_costCents := None |} in
  snd (Loop.conclude turn response (Fixture.start [])) = Loop.Continue.
Proof.
  intros failed passed turn response.
  destruct (@X18_final_checks_in_order Fixture.builtins Fixture.collaborators turn response (Fixture.start []))
    as (_ & _ & _ & _ & Hcontinue & _).
  apply Hcontinue. split; [vm_compute; lia |]. split; [vm_compute; reflexivity |].
  split; [vm_compute; lia | reflexivity].
Defined.

(** X21 in a world without [OPENAI_API_KEY] whose balance queries fail:
    the credits read 0, which the tier function of that world makes
    [dead]. *)
Lemma X21_failed_balance_query_witness :
  let s := @Loop.mkLoop Offline.collaborators Fixture.emptyDb (Fixture.world [])
             Fixture.client
             {| creditsCents := 5000; usdcBalance := 3; lastChecked := "0" |}
             None 0 true 0 "" 0 ∅ ∅ [] in
  creditsCents (Loop.ls_financial (Loop.refreshFinancial s)) = 0%Q /\
  fst (Loop.surveyTier Fixture.config (Loop.refreshFinancial s)) = dead.
Proof.
  intros s.
  destruct (@X21_failed_balance_query_reads_as_zero Fixture.builtins Offline.collaborators
              Fixture.config s eq_refl) as (Hcredits & _ & _ & _ & _ & Htier & _).
  split.
  - apply (Hcredits "Conway API error"). reflexivity.
  - rewrite Htier; [reflexivity |]. exists "Conway API error". reflexivity.
Defined.

(** X22 on the store of the scenario, which has no turn, and a response
    that reports a cost of 7 cents. *)
Lemma X22_turn_cost_witness :
  let turn := {| turn_id := "t1"; turn_timestamp := "0"; turn_state := as_running;
                 turn_input := None; turn_inputSource := None; turn_thinking := "";
                 turn_toolCalls := [];
                 turn_tokenUsage := Fixture.noUsage; turn_costCents := 99 |} in
  let response := {| resp_id := "r"; resp_model := "gpt-4o";
                     resp_message := {| role := assistant; content := ""; name := None;
                                        tool_calls := None; tool_call_id := None |};
                     resp_toolCalls := None; resp_usage := Fixture.noUsage;
                     resp_finishReason := "stop"; resp_costCents := Some 7%Q |} in
  let s := Loop.mkLoop Fixture.scenarioDb (Fixture.world []) Fixture.client
             {| creditsCents := 99999; usdcBalance := 0; lastChecked := "0" |}
             None 0 true 0 "" 0 ∅ ∅ [] in
  let s' := Loop.trackEconomics Fixture.config turn response s in
  (Economics.getTotalSpent (Loop.ls_db s') == 507)%Q /\
  length (db_snapshots (Loop.ls_db s')) = 1.
Proof.
  intros turn response s s'.
  destruct (@X22_turn_cost_and_snapshot_every_fifth_turn Fixture.builtins
              Fixture.collaborators Fixture.config turn response s)
    as (Hspent & _ & _ & Hfifth & _).
  - vm_compute. discriminate.
  - vm_compute. reflexivity.
  - split.
    + fold s' in Hspent. rewrite Hspent. vm_compute. reflexivity.
    + destruct Hfifth as (snapshot & Hsnap & _); [reflexivity |].
      fold s' in Hsnap. rewrite Hsnap. reflexivity.
Defined.

(** ** The guards of a wake session *)

Section GuardFacts.

Context `{Builtins} `{Collaborators}.

Import Loop.

(** The tool-call loop keeps what every pass through its body keeps. *)
Lemma runToolCalls_guards_invariant
    (P : gset string * gset string * list ToolEvent -> Prop) :
  (forall tc st,
      P (tl_calledOnceTools st, tl_executedCommands st, tl_history st) ->
      P (tl_calledOnceTools (fst (admitToolCall tc st)),
         tl_executedCommands (fst (admitToolCall tc st)),
         tl_history (fst (admitToolCall tc st)))) ->
  forall calls st,
    P (tl_calledOnceTools st, tl_executedCommands st, tl_history st) ->
    P (tl_calledOnceTools (fst (runToolCalls calls st)),
       tl_executedCommands (fst (runToolCalls calls st)),
       tl_history (fst (runToolCalls calls st))).
Proof.
  intros Hstep calls. induction calls as [| tc rest IH]; intros st Hinv; [exact Hinv |].
  rewrite runToolCalls_cons.
  destruct (Nat.leb MAX_TOOL_CALLS_PER_TURN (tl_callCount st)); [exact Hinv |].
  pose proof (Hstep tc st Hinv) as Hone.
  destruct (admitToolCall tc st) as [st' [e |]]; simpl in Hone; [exact Hone |].
  apply IH. exact Hone.
Qed.

(** An iteration changes the guards and the history only in the tool-call
    loop. *)
Lemma iteration_guards_invariant (config : AutomatonConfig) (isFirstRun : bool)
    (P : gset string * gset string * list ToolEvent -> Prop) :
  (forall tc st,
      P (tl_calledOnceTools st, tl_executedCommands st, tl_history st) ->
      P (tl_calledOnceTools (fst (admitToolCall tc st)),
         tl_executedCommands (fst (admitToolCall tc st)),
         tl_history (fst (admitToolCall tc st)))) ->
  forall s, P (guards s) -> P (guards (fst (iteration config isFirstRun s))).
Proof.
  intros Hstep s Hinv.
  destruct (iteration_cases config isFirstRun s)
    as [(s0 & E & _ & Hg) | [(s2 & E & _ & Hg) | [(s4 & e & E & _ & Hg)
        | (s4 & cur & r & E & _ & Hg)]]]; rewrite E; cbn [fst].
  - change (guards (with_running s0 false)) with (guards s0). rewrite Hg. exact Hinv.
  - change (guards (with_running (setState as_dead s2) false)) with (guards s2).
    rewrite Hg. exact Hinv.
  - destruct (catchError_spec s4) as (_ & _ & _ & _ & Hgc & _).
    rewrite Hgc, Hg. exact Hinv.
  - destruct (act_cases config cur r s4)
      as (s1 & _ & Hg1 & [(st & e & Htool & Eact)
                          | (st & turn & s5 & Htool & _ & Eact & _ & Hg5)]);
      rewrite Eact; cbn [fst].
    + destruct (catchError_spec (with_toolLoop s1 st)) as (_ & _ & _ & _ & Hgc & _).
      rewrite Hgc. change (guards (with_toolLoop s1 st))
        with (tl_calledOnceTools st, tl_executedCommands st, tl_history st).
      rewrite toolPhase_requested in Htool.
      pose proof (runToolCalls_guards_invariant P Hstep (Spec.requested r) (toolLoopOf s1))
        as Hloop.
      rewrite Htool in Hloop. apply Hloop.
      change (P (guards s1)). rewrite Hg1, Hg. exact Hinv.
    + destruct (conclude_frame turn r s5) as (_ & Hgc).
      rewrite Hgc, Hg5.
      rewrite toolPhase_requested in Htool.
      pose proof (runToolCalls_guards_invariant P Hstep (Spec.requested r) (toolLoopOf s1))
        as Hloop.
      rewrite Htool in Hloop. apply Hloop.
      change (P (guards s1)). rewrite Hg1, Hg. exact Hinv.
Qed.

Lemma run_guards_invariant (config : AutomatonConfig) (isFirstRun : bool)
    (P : gset string * gset string * list ToolEvent -> Prop) :
  (forall tc st,
      P (tl_calledOnceTools st, tl_executedCommands st, tl_history st) ->
      P (tl_calledOnceTools (fst (admitToolCall tc st)),
         tl_executedCommands (fst (admitToolCall tc st)),
         tl_history (fst (admitToolCall tc st)))) ->
  forall fuel s, P (guards s) -> P (guards (fst (run config isFirstRun fuel s))).
Proof.
  intros Hstep fuel s Hinv.
  apply (run_invariant config isFirstRun (fun s => P (guards s))); [| exact Hinv].
  intros s1 H1 _. apply iteration_guards_invariant; assumption.
Qed.

(** What one pass through the body of the tool-call loop does to the guards
    and the history: nothing, when the call is blocked or fails before the
    tool runs; one more event, when the tool runs, and the marks of the
    call when it returned. *)
Lemma admitToolCall_guards (tc : InferenceToolCall) (st : ToolLoopState) :
  let st' := fst (admitToolCall tc st) in
  (tl_calledOnceTools st' = tl_calledOnceTools st /\
   tl_executedCommands st' = tl_executedCommands st /\
   tl_history st' = tl_history st) \/
  (tl_calledOnceTools st' = tl_calledOnceTools st /\
   tl_executedCommands st' = tl_executedCommands st /\
   tl_history st'
   = tl_history st ++ [{| ev_name := tc_name tc; ev_args := parseArgs tc;
                          ev_returned := false |}]) \/
  (exists key : option string,
      execCommand (tc_name tc) (parseArgs tc) = Returned key /\
      (forall k, key = Some k -> k ∉ tl_executedCommands st) /\
      tl_calledOnceTools st ⊆ tl_calledOnceTools st' /\
      tl_executedCommands st'
      = match key with
        | Some k => {[ k ]} ∪ tl_executedCommands st
        | None => tl_executedCommands st
        end /\
      tl_history st'
      = tl_history st ++ [{| ev_name := tc_name tc; ev_args := parseArgs tc;
                             ev_returned := true |}]).
Proof.
  unfold admitToolCall.
  destruct (bool_decide (tc_name tc ∈ ONCE_PER_WAKE_TOOLS)
            && bool_decide (tc_name tc ∈ tl_calledOnceTools st))%bool.
  { left. repeat split. }
  destruct (execCommand (tc_name tc) (parseArgs tc)) as [[cmdKey |] | e] eqn:Ecmd.
  - destruct (bool_decide (cmdKey ∈ tl_executedCommands st)) eqn:Edone.
    { left. repeat split. }
    apply bool_decide_eq_false_1 in Edone.
    destruct (executeTool (tc_name tc) (parseArgs tc) (tl_db st) (tl_env st))
      as [[[result | e] db'] env']; cbn [fst].
    + right. right. exists (Some cmdKey). split; [reflexivity |].
      split; [intros k Hk; injection Hk as <-; exact Edone |].
      split; [| split; reflexivity].
      cbn. destruct (bool_decide (tc_name tc ∈ ONCE_PER_WAKE_TOOLS)); set_solver.
    + right. left. repeat split.
  - destruct (executeTool (tc_name tc) (parseArgs tc) (tl_db st) (tl_env st))
      as [[[result | e] db'] env']; cbn [fst].
    + right. right. exists None. split; [reflexivity |].
      split; [intros k Hk; discriminate Hk |].
      split; [| split; reflexivity].
      cbn. destruct (bool_decide (tc_name tc ∈ ONCE_PER_WAKE_TOOLS)); set_solver.
    + right. left. repeat split.
  - left. repeat split.
Qed.

Lemma runsOf_app (cmdKey : string) (h : list ToolEvent) (e : ToolEvent) :
  Trace.runsOf cmdKey (h ++ [e])
  = Trace.runsOf cmdKey h
    + (if (ev_returned e && bool_decide (Trace.commandOf e = Some cmdKey))%bool
       then 1 else 0).
Proof.
  unfold Trace.runsOf. rewrite List.filter_app, length_app. simpl.
  destruct (ev_returned e && bool_decide (Trace.commandOf e = Some cmdKey))%bool;
    reflexivity.
Qed.

(** The invariant of the [exec] guard on the part of the history after its
    first [n] events. *)
Lemma admitToolCall_deduplicated (n : nat) (tc : InferenceToolCall) (st : ToolLoopState) :
  n <= length (tl_history st) /\
  Trace.deduplicated (tl_executedCommands st) (drop n (tl_history st)) ->
  n <= length (tl_history (fst (admitToolCall tc st))) /\
  Trace.deduplicated (tl_executedCommands (fst (admitToolCall tc st)))
    (drop n (tl_history (fst (admitToolCall tc st)))).
Proof.
  intros [Hlen Hinv].
  destruct (admitToolCall_guards tc st)
    as [(_ & He & Hh) | [(_ & He & Hh) | (key & Hcmd & Hfresh & _ & He & Hh)]];
    rewrite He, Hh.
  - split; assumption.
  - rewrite length_app, drop_app_le by exact Hlen. split; [lia |].
    intros k. rewrite runsOf_app. cbn [ev_returned]. rewrite andb_false_l, Nat.add_0_r.
    apply Hinv.
  - rewrite length_app, drop_app_le by exact Hlen. split; [lia |].
    intros k. rewrite runsOf_app. cbn [ev_returned]. rewrite andb_true_l.
    unfold Trace.commandOf. cbn [ev_name ev_args]. rewrite Hcmd.
    destruct (Hinv k) as (Hle & Hmark).
    destruct (bool_decide (key = Some k)) eqn:Ek.
    + apply bool_decide_eq_true_1 in Ek. subst key.
      assert (Hzero : Trace.runsOf k (drop n (tl_history st)) = 0).
      { destruct (Trace.runsOf k (drop n (tl_history st))) as [| m] eqn:Em; [reflexivity |].
        exfalso. apply (Hfresh k eq_refl). apply Hmark. lia. }
      rewrite Hzero. split; [simpl; lia |]. intros _.
      apply elem_of_union. left. apply elem_of_singleton. reflexivity.
    + rewrite Nat.add_0_r. split; [exact Hle |]. intros Hrun. specialize (Hmark Hrun).
      destruct key; [apply elem_of_union; right; exact Hmark | exact Hmark].
Qed.

(** The guards never shrink and the history only grows at its end. *)
Lemma admitToolCall_grows (called done : gset string) (h : list ToolEvent)
    (tc : InferenceToolCall) (st : ToolLoopState) :
  called ⊆ tl_calledOnceTools st /\ done ⊆ tl_executedCommands st /\
  h `prefix_of` tl_history st ->
  called ⊆ tl_calledOnceTools (fst (admitToolCall tc st)) /\
  done ⊆ tl_executedCommands (fst (admitToolCall tc st)) /\
  h `prefix_of` tl_history (fst (admitToolCall tc st)).
Proof.
  intros (Hc & He & Hh).
  destruct (admitToolCall_guards tc st)
    as [(Hc' & He' & Hh') | [(Hc' & He' & Hh') | (key & _ & _ & Hc' & He' & Hh')]];
    rewrite He', Hh'.
  - rewrite Hc'. repeat split; assumption.
  - rewrite Hc'. split; [exact Hc |]. split; [exact He |].
    apply prefix_app_r. exact Hh.
  - split; [intros x Hx; apply Hc', Hc, Hx |].
    split; [destruct key; [intros x Hx; apply elem_of_union; right; apply He, Hx | exact He] |].
    apply prefix_app_r. exact Hh.
Qed.

(** The bootstrap phase calls its three tools in order and leaves the set
    of the executed commands alone. *)
Lemma bootstrap_history (wakeupInput : string) (s0 : LoopState) :
  let sb := bootstrap wakeupInput s0 in
  List.map ev_name (history sb)
  = List.map ev_name (history s0) ++ List.map step_name bootstrapSteps /\
  List.map ev_args (history sb)
  = List.map ev_args (history s0) ++ List.map step_args bootstrapSteps /\
  executedCommands sb = executedCommands s0.
Proof.
  unfold bootstrap, bootstrapSteps. cbn [fold_left].
  set (step1 := {| step_name := "check_economics"; step_args := JObj [] |}).
  match goal with
  | |- context [bootstrapStep (bootstrapStep (bootstrapStep _ step1) ?a) ?b] =>
      set (step2 := a); set (step3 := b)
  end.
  set (acc1 := bootstrapStep (s0, []) step1).
  set (acc2 := bootstrapStep acc1 step2).
  set (acc3 := bootstrapStep acc2 step3).
  destruct (bootstrapStep_spec (s0, []) step1) as (_ & _ & Hx1 & b1 & Hh1 & _).
  destruct (bootstrapStep_spec acc1 step2) as (_ & _ & Hx2 & b2 & Hh2 & _).
  destruct (bootstrapStep_spec acc2 step3) as (_ & _ & Hx3 & b3 & Hh3 & _).
  fold acc1 in Hx1, Hh1, Hx2, Hh2. fold acc2 in Hx2, Hh2, Hx3, Hh3.
  fold acc3 in Hx3, Hh3. cbn [fst] in Hx1, Hh1.
  destruct acc3 as [s3 results]. cbn [fst] in *.
  change (history (with_pendingInput s3 _)) with (history s3).
  change (executedCommands (with_pendingInput s3 _)) with (executedCommands s3).
  rewrite Hh3, Hh2, Hh1, Hx3, Hx2, Hx1.
  rewrite !map_app, <- !app_assoc. repeat split.
Qed.

(** The two commands of the bootstrap phase differ, also as dedup keys. *)
Lemma bootstrap_commands (h : list ToolEvent) (cmdKey : string) :
  List.map ev_name h = List.map step_name bootstrapSteps ->
  List.map ev_args h = List.map step_args bootstrapSteps ->
  Trace.runsOf cmdKey h <= 1.
Proof.
  intros Hnames Hargs.
  destruct h as [| e1 [| e2 [| e3 [| e4 rest]]]]; try discriminate Hnames.
  unfold bootstrapSteps in Hnames, Hargs. cbn [List.map step_name step_args] in Hnames, Hargs.
  injection Hnames as Hn1 Hn2 Hn3. injection Hargs as Ha1 Ha2 Ha3.
  assert (H1 : Trace.commandOf e1 = None).
  { unfold Trace.commandOf. rewrite Hn1, Ha1. reflexivity. }
  assert (H2 : Trace.commandOf e2 = Some "ls -la ~/ && uname -a && whoami && pwd").
  { unfold Trace.commandOf. rewrite Hn2, Ha2. vm_compute. reflexivity. }
  assert (H3 : Trace.commandOf e3 <> Trace.commandOf e2).
  { rewrite H2. unfold Trace.commandOf. rewrite Hn3, Ha3. vm_compute. discriminate. }
  unfold Trace.runsOf. cbn [List.filter]. rewrite H1.
  rewrite (bool_decide_eq_false_2 (None = Some cmdKey)) by discriminate.
  rewrite andb_false_r.
  destruct (bool_decide (Trace.commandOf e2 = Some cmdKey)) eqn:E2;
    destruct (bool_decide (Trace.commandOf e3 = Some cmdKey)) eqn:E3;
    destruct (ev_returned e2), (ev_returned e3); simpl; try lia.
  apply bool_decide_eq_true_1 in E2, E3. exfalso. apply H3. congruence.
Qed.

Lemma runsOf_split (cmdKey : string) (h1 h2 : list ToolEvent) :
  Trace.runsOf cmdKey (h1 ++ h2) = Trace.runsOf cmdKey h1 + Trace.runsOf cmdKey h2.
Proof. unfold Trace.runsOf. rewrite List.filter_app, length_app. reflexivity. Qed.

(** X19.  The guard on repeated [exec] commands, over a whole wake session.
    In the main loop no command (the command string, trimmed) runs to its
    end twice, and each one that ran is in the set of the executed
    commands, so a later request for it is blocked.  The three calls of the
    bootstrap phase stay the first three events of the history; they are
    made before the loop and are not entered into the set, so over the
    whole session a command runs to its end at most twice. *)
Theorem X19_exec_commands_run_once_per_wake :
  forall (config : AutomatonConfig) (inference : InferenceClient)
         (db : AutomatonDatabase) (env : Env),
    let sb := bootstrapped config inference db env in
    let final := fst (runAgentLoop config inference db env) in
    executedCommands sb = ∅ /\
    take 3 (history final) = history sb /\
    (forall cmdKey : string, Trace.runsOf cmdKey (drop 3 (history final)) <= 1) /\
    (forall cmdKey : string,
        1 <= Trace.runsOf cmdKey (drop 3 (history final)) ->
        cmdKey ∈ executedCommands final) /\
    (forall cmdKey : string, Trace.runsOf cmdKey (history final) <= 2).
Proof.
  intros config inference db env sb final.
  destruct (wakeUp_fresh config inference db env) as (_ & Hg0).
  unfold guards in Hg0. injection Hg0 as _ He0 Hh0.
  destruct (bootstrap_history (snd (wakeUp config inference db env))
              (fst (fst (wakeUp config inference db env)))) as (Hnames & Hargs & Hexec).
  fold (bootstrapped config inference db env) in Hnames, Hargs, Hexec.
  fold sb in Hnames, Hargs, Hexec.
  rewrite Hh0 in Hnames, Hargs. rewrite He0 in Hexec. cbn [List.map app] in Hnames, Hargs.
  assert (Hlen : length (history sb) = 3).
  { rewrite <- (length_map ev_name), Hnames. reflexivity. }
  assert (Hdedup : 3 <= length (history final) /\
                   Trace.deduplicated (executedCommands final) (drop 3 (history final))).
  { subst final. rewrite runAgentLoop_unfold. fold sb.
    set (isFirstRun := snd (fst (wakeUp config inference db env))).
    set (P := fun g : gset string * gset string * list ToolEvent =>
                3 <= length (snd g)
                /\ Trace.deduplicated (snd (fst g)) (drop 3 (snd g))).
    assert (HP : P (guards (fst (run config isFirstRun ENOUGH_FUEL sb)))).
    { apply run_guards_invariant.
      - intros tc st. apply (admitToolCall_deduplicated 3).
      - subst P. cbn [guards fst snd]. split; [lia |].
        rewrite drop_ge by lia. intros k. unfold Trace.runsOf. simpl. split; lia. }
    subst P. cbn [guards fst snd] in HP. exact HP. }
  assert (Hgrow : history sb `prefix_of` history final).
  { subst final. rewrite runAgentLoop_unfold. fold sb.
    set (isFirstRun := snd (fst (wakeUp config inference db env))).
    set (P := fun g : gset string * gset string * list ToolEvent =>
                calledOnceTools sb ⊆ fst (fst g) /\ executedCommands sb ⊆ snd (fst g)
                /\ history sb `prefix_of` snd g).
    assert (HP : P (guards (fst (run config isFirstRun ENOUGH_FUEL sb)))).
    { apply run_guards_invariant.
      - intros tc st. apply admitToolCall_grows.
      - subst P. cbn [guards fst snd]. repeat split; reflexivity. }
    subst P. cbn [guards fst snd] in HP. apply HP. }
  destruct Hgrow as (rest & Hrest).
  assert (Htake : take 3 (history final) = history sb).
  { rewrite Hrest, <- Hlen. apply take_app_length. }
  assert (Hdrop : drop 3 (history final) = rest).
  { rewrite Hrest, <- Hlen. apply drop_app_length. }
  destruct Hdedup as (_ & Hdedup).
  split; [exact Hexec |]. split; [exact Htake |].
  split; [intros k; apply Hdedup |].
  split; [intros k; apply Hdedup |].
  intros k. rewrite Hrest, runsOf_split.
  pose proof (bootstrap_commands (history sb) k Hnames Hargs) as Hboot.
  destruct (Hdedup k) as (Hmain & _). rewrite Hdrop in Hmain. lia.
Qed.

(** X20.  Within a wake session the guards only grow: every iteration,
    whatever its outcome (also one that ends in the [catch] branch after
    some of its tool calls ran), leaves every tool that was marked as called
    marked, every command that was recorded as executed recorded, and the
    history extended at its end; and so does the session from the end of
    the bootstrap phase on. *)
Theorem X20_guards_only_grow :
  (forall (config : AutomatonConfig) (isFirstRun : bool) (s : LoopState),
      let s' := fst (iteration config isFirstRun s) in
      calledOnceTools s ⊆ calledOnceTools s' /\
      executedCommands s ⊆ executedCommands s' /\
      history s `prefix_of` history s') /\
  (forall (config : AutomatonConfig) (inference : InferenceClient)
          (db : AutomatonDatabase) (env : Env),
      let sb := bootstrapped config inference db env in
      let final := fst (runAgentLoop config inference db env) in
      calledOnceTools sb ⊆ calledOnceTools final /\
      executedCommands sb ⊆ executedCommands final /\
      history sb `prefix_of` history final).
Proof.
  split.
  - intros config isFirstRun s s'. subst s'.
    set (P := fun g : gset string * gset string * list ToolEvent =>
                calledOnceTools s ⊆ fst (fst g) /\ executedCommands s ⊆ snd (fst g)
                /\ history s `prefix_of` snd g).
    assert (HP : P (guards (fst (iteration config isFirstRun s)))).
    { apply iteration_guards_invariant.
      - intros tc st. apply admitToolCall_grows.
      - subst P. cbn [guards fst snd]. repeat split; reflexivity. }
    subst P. cbn [guards fst snd] in HP. exact HP.
  - intros config inference db env sb final. subst final.
    rewrite runAgentLoop_unfold. fold sb.
    set (isFirstRun := snd (fst (wakeUp config inference db env))).
    set (P := fun g : gset string * gset string * list ToolEvent =>
                calledOnceTools sb ⊆ fst (fst g) /\ executedCommands sb ⊆ snd (fst g)
                /\ history sb `prefix_of` snd g).
    assert (HP : P (guards (fst (run config isFirstRun ENOUGH_FUEL sb)))).
    { apply run_guards_invariant.
      - intros tc st. apply admitToolCall_grows.
      - subst P. cbn [guards fst snd]. repeat split; reflexivity. }
    subst P. cbn [guards fst snd] in HP. exact HP.
Qed.

End GuardFacts.

(** X19 on a session whose backend asks for the first command of the
    bootstrap phase again: the command runs a second time, once in the
    bootstrap phase and once in the main loop, and is then in the set of
    the executed commands. *)
Lemma X19_exec_commands_witness :
  let command := "ls -la ~/ && uname -a && whoami && pwd" in
  let arguments := Json.stringify (JObj [("command", JStr command)]) in
  let final :=
    fst (Loop.runAgentLoop Fixture.config Fixture.client Fixture.emptyDb
           (Fixture.world
              [ Fixture.reply (Some [Fixture.call "c1" "exec" arguments]) "tool_calls";
                Fixture.reply None "stop" ])) in
  Trace.runsOf command (Loop.history final) = 2 /\
  command ∈ Loop.executedCommands final.
Proof.
  intros command arguments final.
  destruct (@X19_exec_commands_run_once_per_wake Fixture.builtins Fixture.collaborators
              Fixture.config Fixture.client Fixture.emptyDb
              (Fixture.world
                 [ Fixture.reply (Some [Fixture.call "c1" "exec" arguments]) "tool_calls";
                   Fixture.reply None "stop" ]))
    as (_ & _ & _ & Hmarked & _).
  split; [vm_compute; reflexivity |].
  apply Hmarked. vm_compute. lia.
Defined.

(** ** The shape of a wake session *)

Section SessionShape.

Context `{Builtins} `{Collaborators}.

Import Loop.

(** One goal for each way the final checks can end. *)
Ltac final_check_cases :=
  unfold conclude;
  destruct (Nat.leb 3 _);
    [| destruct (choseSleep _);
       [| destruct (Nat.leb MAX_TURNS_PER_WAKE _);
          [| destruct (isIdle _) ] ] ].






(** *** The pending input *)

Lemma catchError_pending (s : LoopState) :
  ls_pendingInput (catchError s) = ls_pendingInput s.
Proof. unfold catchError. case_match; reflexivity. Qed.

Lemma conclude_pending (turn : AgentTurn) (response : InferenceResponse) (s : LoopState) :
  ls_pendingInput (fst (conclude turn response s)) = ls_pendingInput s.
Proof. final_check_cases; reflexivity. Qed.

Lemma trackEconomics_pending (config : AutomatonConfig) (turn : AgentTurn)
    (response : InferenceResponse) (s : LoopState) :
  ls_pendingInput (trackEconomics config turn response s) = ls_pendingInput s.
Proof. unfold trackEconomics. repeat case_match; reflexivity. Qed.

Lemma enterTier_pending (tier : SurvivalTier) (s : LoopState) :
  ls_pendingInput (enterTier tier s) = ls_pendingInput s.
Proof. unfold enterTier. repeat case_match; reflexivity. Qed.

(** A turn records the input it was given, and [act] leaves the pending
    input as it finds it. *)
Lemma act_input (config : AutomatonConfig) (currentInput : option PendingInput)
    (response : InferenceResponse) (s : LoopState) :
  ls_pendingInput (fst (act config currentInput response s)) = ls_pendingInput s /\
  match snd (act config currentInput response s) with
  | Turn turn _ _ =>
      turn_input turn = option_map pi_content currentInput /\
      turn_inputSource turn = option_map pi_source currentInput
  | _ => True
  end.
Proof.
  unfold act.
  destruct (ulid (ls_env s)) as [id env1]. destruct (isoNow env1) as [stamp env2].
  destruct (toolPhase response (with_env s env2)) as [st [e |]].
  - cbn [fst snd]. split; [| exact I]. rewrite catchError_pending. reflexivity.
  - match goal with
    | |- context [conclude ?t response ?s5] =>
        pose proof (conclude_pending t response s5) as Hp;
        destruct (conclude t response s5) as [s6 v]
    end.
    cbn [fst snd] in Hp |- *. split; [| split; reflexivity].
    rewrite Hp. cbn [with_turnsThisWake ls_pendingInput].
    rewrite trackEconomics_pending. reflexivity.
Qed.

(** X24.  An iteration that reaches the inference call consumes the
    pending input, whether the call succeeds or not: after an iteration
    that recorded a turn or ended in the [catch] branch (which the inference
    call and the tool phase are the steps to reach, the reads of the store
    and the building of the prompt being total here) nothing is pending, so
    an input given to a call that failed is not given again.  A turn
    records the input that was pending as its input and source; and the
    main loop starts with the wake-up prompt pending, with the source
    [wakeup]. *)
Theorem X24_pending_input_is_consumed_once :
  forall (config : AutomatonConfig) (isFirstRun : bool) (s : LoopState),
    let r := iteration config isFirstRun s in
    match snd r with
    | Failed _ => ls_pendingInput (fst r) = None
    | Turn turn _ _ =>
        ls_pendingInput (fst r) = None /\
        (forall p, ls_pendingInput s = Some p ->
                   turn_input turn = Some (pi_content p) /\
                   turn_inputSource turn = Some (pi_source p))
    | _ => True
    end /\
    (forall (inference : InferenceClient) (db : AutomatonDatabase) (env : Env),
        exists p, ls_pendingInput (bootstrapped config inference db env) = Some p /\
                  pi_source p = "wakeup").
Proof.
  intros config isFirstRun s r. split.
  - subst r. unfold iteration.
    destruct (sleepPending_state s) as (_ & _ & Hp0 & _).
    destruct (sleepPending s) as [pending s0]. cbn [snd] in Hp0.
    destruct pending; [exact I |].
    destruct (refreshFinancial_state (pullInbox s0)) as (_ & _ & Hp1).
    set (s1 := refreshFinancial (pullInbox s0)) in *.
    destruct (surveyTier_state config s1) as (_ & _ & Hp2 & _).
    destruct (surveyTier config s1) as [tier s2]. cbn [snd] in Hp2.
    assert (Hinput : forall p, ls_pendingInput s = Some p -> ls_pendingInput s2 = Some p).
    { intros p Hp. rewrite Hp2, Hp1. unfold pullInbox. rewrite Hp0, Hp. rewrite Hp0. exact Hp. }
    assert (Hrest :
      forall s3, ls_pendingInput s3 = ls_pendingInput s2 ->
      match snd (match inference_chat (ls_inference (with_pendingInput s3 None))
                         (buildContext config (ls_financial s3) (ls_db s3) isFirstRun
                            (ls_pendingInput s3))
                         (ls_env (with_pendingInput s3 None)) with
                 | (Threw e, env') =>
                     (catchError (with_env (with_pendingInput s3 None) env'), Failed e)
                 | (Returned response, env') =>
                     act config (ls_pendingInput s3) response
                       (with_env (with_pendingInput s3 None) env')
                 end) with
      | Failed _ =>
          ls_pendingInput
            (fst (match inference_chat (ls_inference (with_pendingInput s3 None))
                          (buildContext config (ls_financial s3) (ls_db s3) isFirstRun
                             (ls_pendingInput s3))
                          (ls_env (with_pendingInput s3 None)) with
                  | (Threw e, env') =>
                      (catchError (with_env (with_pendingInput s3 None) env'), Failed e)
                  | (Returned response, env') =>
                      act config (ls_pendingInput s3) response
                        (with_env (with_pendingInput s3 None) env')
                  end)) = None
      | Turn turn _ _ =>
          ls_pendingInput
            (fst (match inference_chat (ls_inference (with_pendingInput s3 None))
                          (buildContext config (ls_financial s3) (ls_db s3) isFirstRun
                             (ls_pendingInput s3))
                          (ls_env (with_pendingInput s3 None)) with
                  | (Threw e, env') =>
                      (catchError (with_env (with_pendingInput s3 None) env'), Failed e)
                  | (Returned response, env') =>
                      act config (ls_pendingInput s3) response
                        (with_env (with_pendingInput s3 None) env')
                  end)) = None /\
          (forall p, ls_pendingInput s = Some p ->
                     turn_input turn = Some (pi_content p) /\
                     turn_inputSource turn = Some (pi_source p))
      | _ => True
      end).
    { intros s3 Hp3.
      destruct (inference_chat _ _ _) as [[response | e] env'].
      - destruct (act_input config (ls_pendingInput s3) response
                    (with_env (with_pendingInput s3 None) env')) as (Hafter & Hturn).
        destruct (act config (ls_pendingInput s3) response
                    (with_env (with_pendingInput s3 None) env')) as [s' o].
        cbn [fst snd] in Hafter, Hturn |- *.
        destruct o as [| | e | turn resp v]; try exact I.
        + exact Hafter.
        + split; [exact Hafter |]. intros p Hp.
          destruct Hturn as (Hin & Hsrc). rewrite Hin, Hsrc, Hp3, (Hinput p Hp).
          split; reflexivity.
      - cbn [fst snd]. rewrite catchError_pending. reflexivity. }
    destruct tier; try exact I;
      match goal with
      | |- context [enterTier ?t s2] =>
          exact (Hrest (enterTier t s2) (enterTier_pending t s2))
      end.
  - intros inference db env. unfold bootstrapped, bootstrap.
    destruct (fold_left _ _ _) as [s' results].
    eexists. split; reflexivity.
Qed.

End SessionShape.


(** X24 on a session whose backend fails at the first call: the wake-up
    prompt was pending and is gone. *)
Lemma X24_pending_input_witness :
  let s := Fixture.start [Threw "overloaded"] in
  Loop.ls_pendingInput s <> None /\
  Loop.ls_pendingInput (fst (Loop.iteration Fixture.config true s)) = None.
Proof.
  intros s. split; [vm_compute; discriminate |].
  destruct (@X24_pending_input_is_consumed_once Fixture.builtins Fixture.collaborators
              Fixture.config true s) as (Hconsumed & _).
  destruct (Loop.iteration Fixture.config true s) as [s' o] eqn:Hit.
  assert (Ho : o = snd (Loop.iteration Fixture.config true s))
    by (rewrite Hit; reflexivity).
  vm_compute in Ho. subst o. exact Hconsumed.
Defined.
